(** * term_colors: a shallow embedding of [term_colors.py]

    The script holds a static table of terminal colour schemes and four
    actions over it: set a scheme (OSC 4 / 10 / 11 sequences), list the
    scheme names, and preview the schemes whose name matches a pattern, or
    all of them.

    Conventions of the embedding.
    - A Python [str] is a [string]; a character is read as the code point
      of its byte, so the model covers the code points below 256.  All data
      of the table is ASCII.
    - A Python exception is a [Raise] result; standard output is a string
      threaded through a small state monad together with the table, which
      in the source is a module-level mutable [dict].
    - [re.search] belongs to the Python library; the dispatcher takes it as
      a parameter. *)

From Stdlib Require Import List String Ascii ZArith Lia Bool Arith.
From Stdlib Require Import Numbers.DecimalString.
Import ListNotations.

Open Scope string_scope.

(** ** Results of fallible code *)

Inductive exn : Type :=
| KeyError
| IndexError
| ValueError
| ReError.

Inductive result (A : Type) : Type :=
| Ok (a : A)
| Raise (e : exn).

Arguments Ok {A} a.
Arguments Raise {A} e.

Definition rbind {A B : Type} (r : result A) (k : A -> result B) : result B :=
  match r with
  | Ok a => k a
  | Raise e => Raise e
  end.

Notation "'let!' x ':=' r 'in' k" := (rbind r (fun x => k))
  (at level 10, x name, r at level 100, k at level 200).

(** [list(map(f, v))] for an [f] that may raise: the first failure wins. *)
Fixpoint rmap {A B : Type} (f : A -> result B) (l : list A) : result (list B) :=
  match l with
  | [] => Ok []
  | x :: t =>
      let! y := f x in
      let! ys := rmap f t in
      Ok (y :: ys)
  end.

(** A [for] loop over a list of indices with a fallible body. *)
Fixpoint rfold {A S : Type} (body : A -> S -> result S) (l : list A) (s : S)
  : result S :=
  match l with
  | [] => Ok s
  | x :: t => let! s' := body x s in rfold body t s'
  end.

(** ** The Python library functions the script calls *)

Module Py.

Definition chr (n : nat) : ascii := ascii_of_nat n.
Definition ord (c : ascii) : nat := nat_of_ascii c.

(** [len(s)] *)
Definition len (s : string) : Z := Z.of_nat (String.length s).

(** [s.lstrip(chars)] for a one-character [chars]: every leading
    occurrence goes, not only the first. *)
Fixpoint lstrip (c : ascii) (s : string) : string :=
  match s with
  | String a t => if Ascii.eqb a c then lstrip c t else s
  | EmptyString => EmptyString
  end.

(** [s[i:j]] for [0 <= i <= j]: clamped at the end of the string. *)
Definition slice (i j : nat) (s : string) : string :=
  String.substring i (j - i) s.

(** [s * n]: the empty string when [n] is not positive. *)
Fixpoint repeat_string (s : string) (n : nat) : string :=
  match n with
  | O => EmptyString
  | S k => s ++ repeat_string s k
  end.

Definition mul (s : string) (n : Z) : string := repeat_string s (Z.to_nat n).

(** [sep.join(l)] *)
Definition join (sep : string) (l : list string) : string :=
  String.concat sep l.

(** [str(n)] for an [int]. *)
Definition str (n : Z) : string := NilZero.string_of_int (Z.to_int n).

(** [range(a, b)] *)
Definition range (a b : nat) : list nat := seq a (b - a).

(** *** [int(s, 16)]

    The characters [int] takes for white space, among the code points
    below 256. *)
Definition is_space (c : ascii) : bool :=
  let n := ord c in
  ((9 <=? n) && (n <=? 13) || (n =? 32) || (n =? 133) || (n =? 160))%nat.

(** The value of a digit in bases up to 36. *)
Definition digit_value (c : ascii) : option Z :=
  let n := ord c in
  if ((48 <=? n) && (n <=? 57))%nat then Some (Z.of_nat (n - 48))
  else if ((97 <=? n) && (n <=? 122))%nat then Some (Z.of_nat (n - 87))
  else if ((65 <=? n) && (n <=? 90))%nat then Some (Z.of_nat (n - 55))
  else None.

Definition digit_in (base : Z) (c : ascii) : option Z :=
  match digit_value c with
  | Some d => if (d <? base)%Z then Some d else None
  | None => None
  end.

Fixpoint skip_spaces (s : string) : string :=
  match s with
  | String c t => if is_space c then skip_spaces t else s
  | EmptyString => EmptyString
  end.

(** The run of digits and single underscores at the head of [s]:
    [prev] tells whether the previous character was an underscore,
    [n] counts the digits read so far.  [None] is a misplaced underscore. *)
Fixpoint scan_digits (base : Z) (prev : bool) (acc : Z) (n : nat) (s : string)
  : option (Z * nat * string) :=
  match s with
  | String c t =>
      if Ascii.eqb c "_" then
        if prev then None else scan_digits base true acc n t
      else
        match digit_in base c with
        | Some d => scan_digits base false (acc * base + d)%Z (S n) t
        | None => if prev then None else Some (acc, n, s)
        end
  | EmptyString => if prev then None else Some (acc, n, s)
  end.

Definition skip_sign (s : string) : bool * string :=
  match s with
  | String "+" t => (false, t)
  | String "-" t => (true, t)
  | _ => (false, s)
  end.

(** After the sign, base 16 allows one [0x] or [0X], itself followed by
    at most one underscore. *)
Definition skip_prefix16 (s : string) : string :=
  match s with
  | String "0" (String x t) =>
      if Ascii.eqb x "x" || Ascii.eqb x "X" then
        match t with
        | String "_" t' => t'
        | _ => t
        end
      else s
  | _ => s
  end.

Definition int16 (s : string) : option Z :=
  let (neg, s1) := skip_sign (skip_spaces s) in
  let s2 := skip_prefix16 s1 in
  match s2 with
  | String "_" _ => None
  | _ =>
      match scan_digits 16 false 0%Z 0 s2 with
      | Some (v, n, rest) =>
          match n, skip_spaces rest with
          | S _, EmptyString => Some (if neg then (- v)%Z else v)
          | _, _ => None
          end
      | None => None
      end
  end.

End Py.

(** ** Escape sequences *)

Definition ESC : ascii := Py.chr 27.
Definition BEL : ascii := Py.chr 7.
Definition NL : string := String (Py.chr 10) "".

Definition ANSI : string := String ESC "]4;".
Definition END : string := String BEL "".
Definition BG : string := String ESC "]11;".
Definition BGTC : string := String ESC "[48;2;".
Definition FG : string := String ESC "]10;".
Definition FGTC : string := String ESC "[38;2;".
Definition RESET : string := String ESC "[0m".

(** ** The colour codec *)

(** [int(x, 16)] raising [ValueError]. *)
Definition int16 (x : string) : result Z :=
  match Py.int16 x with
  | Some n => Ok n
  | None => Raise ValueError
  end.

Definition split_hex (hex_color : string) : list string :=
  map (fun i => Py.slice i (i + 2) hex_color) [0; 2; 4].

Definition _hex2rgb (hex_color : string) : result string :=
  let hex_color := Py.lstrip "#" hex_color in
  let! parts := rmap (fun x => let! n := int16 x in Ok (Py.str n))
                     (split_hex hex_color) in
  match parts with
  | [r; g; b] => Ok (r ++ ";" ++ g ++ ";" ++ b)
  | _ => Raise ValueError
  end.

(** ** The scheme table

    [color_schemes] is a [dict] literal; a [dict] iterates in insertion
    order, so the table is an association list in the order of the source.
    A scheme is a [dict] with the keys ['fg'], ['bg'] and ['colors']. *)

Record Scheme : Type := scheme {
  fg : string;
  bg : string;
  colors : list string
}.

Definition Registry : Type := list (string * Scheme).

Definition color_schemes : Registry := [
  ("0x96f", scheme "#fcfcfa" "#262427"
     ["#262427"; "#ff7272"; "#bcdf59"; "#ffca58"; "#49cae4"; "#a093e2"; "#aee8f4"; "#fcfcfa";
      "#545452"; "#ff8787"; "#c6e472"; "#ffd271"; "#64d2e8"; "#aea3e6"; "#baebf6"; "#fcfcfa"]);
  ("3024_day", scheme "#4a4543" "#f7f7f7"
     ["#090300"; "#db2d20"; "#01a252"; "#fded02"; "#01a0e4"; "#a16a94"; "#b5e4f4"; "#a5a2a2";
      "#5c5855"; "#e8bbd0"; "#3a3432"; "#4a4543"; "#807d7c"; "#d6d5d4"; "#cdab53"; "#f7f7f7"]);
  ("3024_night", scheme "#a5a2a2" "#090300"
     ["#090300"; "#db2d20"; "#01a252"; "#fded02"; "#01a0e4"; "#a16a94"; "#b5e4f4"; "#a5a2a2";
      "#5c5855"; "#e8bbd0"; "#3a3432"; "#4a4543"; "#807d7c"; "#d6d5d4"; "#cdab53"; "#f7f7f7"]);
  ("aardvark_blue", scheme "#dddddd" "#102040"
     ["#191919"; "#aa342e"; "#4b8c0f"; "#dbba00"; "#1370d3"; "#c43ac3"; "#008eb0"; "#bebebe";
      "#454545"; "#f05b50"; "#95dc55"; "#ffe763"; "#60a4ec"; "#e26be2"; "#60b6cb"; "#f7f7f7"]);
  ("abernathy", scheme "#eeeeec" "#111416"
     ["#000000"; "#cd0000"; "#00cd00"; "#cdcd00"; "#1093f5"; "#cd00cd"; "#00cdcd"; "#faebd7";
      "#404040"; "#ff0000"; "#00ff00"; "#ffff00"; "#11b5f6"; "#ff00ff"; "#00ffff"; "#ffffff"]);
  ("adventure", scheme "#feffff" "#040404"
     ["#040404"; "#d84a33"; "#5da602"; "#eebb6e"; "#417ab3"; "#e5c499"; "#bdcfe5"; "#dbded8";
      "#685656"; "#d76b42"; "#99b52c"; "#ffb670"; "#97d7ef"; "#aa7900"; "#bdcfe5"; "#e4d5c7"]);
  ("adventure_time", scheme "#f8dcc0" "#1f1d45"
     ["#050404"; "#bd0013"; "#4ab118"; "#e7741e"; "#0f4ac6"; "#665993"; "#70a598"; "#f8dcc0";
      "#4e7cbf"; "#fc5f5a"; "#9eff6e"; "#efc11a"; "#1997c6"; "#9b5953"; "#c8faf4"; "#f6f5fb"]);
  ("adwaita", scheme "#000000" "#ffffff"
     ["#241f31"; "#c01c28"; "#2ec27e"; "#f5c211"; "#1e78e4"; "#9841bb"; "#0ab9dc"; "#c0bfbc";
      "#5e5c64"; "#ed333b"; "#57e389"; "#f8e45c"; "#51a1ff"; "#c061cb"; "#4fd2fd"; "#f6f5f4"]);
  ("adwaita_dark", scheme "#ffffff" "#1e1e1e"
     ["#241f31"; "#c01c28"; "#2ec27e"; "#f5c211"; "#1e78e4"; "#9841bb"; "#0ab9dc"; "#c0bfbc";
      "#5e5c64"; "#ed333b"; "#57e389"; "#f8e45c"; "#51a1ff"; "#c061cb"; "#4fd2fd"; "#f6f5f4"]);
  ("afterglow", scheme "#d0d0d0" "#212121"
     ["#151515"; "#ac4142"; "#7e8e50"; "#e5b567"; "#6c99bb"; "#9f4e85"; "#7dd6cf"; "#d0d0d0";
      "#505050"; "#ac4142"; "#7e8e50"; "#e5b567"; "#6c99bb"; "#9f4e85"; "#7dd6cf"; "#f5f5f5"]);
  ("alabaster", scheme "#000000" "#f7f7f7"
     ["#000000"; "#aa3731"; "#448c27"; "#cb9000"; "#325cc0"; "#7a3e9d"; "#0083b2"; "#f7f7f7";
      "#777777"; "#f05050"; "#60cb00"; "#ffbc5d"; "#007acc"; "#e64ce6"; "#00aacb"; "#f7f7f7"]);
  ("alien_blood", scheme "#637d75" "#0f1610"
     ["#112616"; "#7f2b27"; "#2f7e25"; "#717f24"; "#2f6a7f"; "#47587f"; "#327f77"; "#647d75";
      "#3c4812"; "#e08009"; "#18e000"; "#bde000"; "#00aae0"; "#0058e0"; "#00e0c4"; "#73fa91"]);
  ("andromeda", scheme "#e5e5e5" "#262a33"
     ["#000000"; "#cd3131"; "#05bc79"; "#e5e512"; "#2472c8"; "#bc3fbc"; "#0fa8cd"; "#e5e5e5";
      "#666666"; "#cd3131"; "#05bc79"; "#e5e512"; "#2472c8"; "#bc3fbc"; "#0fa8cd"; "#e5e5e5"]);
  ("apple_classic", scheme "#d5a200" "#2c2b2b"
     ["#000000"; "#c91b00"; "#00c200"; "#c7c400"; "#0225c7"; "#ca30c7"; "#00c5c7"; "#c7c7c7";
      "#686868"; "#ff6e67"; "#5ffa68"; "#fffc67"; "#6871ff"; "#ff77ff"; "#60fdff"; "#ffffff"]);
  ("apple_system_colors", scheme "#ffffff" "#1e1e1e"
     ["#1a1a1a"; "#cc372e"; "#26a439"; "#cdac08"; "#0869cb"; "#9647bf"; "#479ec2"; "#98989d";
      "#464646"; "#ff453a"; "#32d74b"; "#ffd60a"; "#0a84ff"; "#bf5af2"; "#76d6ff"; "#ffffff"]);
  ("apple_system_colors_light", scheme "#000000" "#feffff"
     ["#1a1a1a"; "#bc4437"; "#51a148"; "#c7ad3a"; "#2e68c5"; "#8c4bb8"; "#5e9cbe"; "#98989d";
      "#464646"; "#eb5545"; "#6bd45f"; "#f8d84a"; "#3b82f7"; "#b260ea"; "#8dd3fb"; "#ffffff"]);
  ("arcoiris", scheme "#eee4d9" "#201f1e"
     ["#333333"; "#da2700"; "#12c258"; "#ffc656"; "#518bfc"; "#e37bd9"; "#63fad5"; "#bab2b2";
      "#777777"; "#ffb9b9"; "#e3f6aa"; "#ffddaa"; "#b3e8f3"; "#cbbaf9"; "#bcffc7"; "#efefef"]);
  ("argonaut", scheme "#fffaf4" "#0e1019"
     ["#232323"; "#ff000f"; "#8ce10b"; "#ffb900"; "#008df8"; "#6d43a6"; "#00d8eb"; "#ffffff";
      "#444444"; "#ff2740"; "#abe15b"; "#ffd242"; "#0092ff"; "#9a5feb"; "#67fff0"; "#ffffff"]);
  ("arthur", scheme "#ddeedd" "#1c1c1c"
     ["#3d352a"; "#cd5c5c"; "#86af80"; "#e8ae5b"; "#6495ed"; "#deb887"; "#b0c4de"; "#bbaa99";
      "#554444"; "#cc5533"; "#88aa22"; "#ffa75d"; "#87ceeb"; "#996600"; "#b0c4de"; "#ddccbb"]);
  ("atelier_sulphurpool", scheme "#979db4" "#202746"
     ["#202746"; "#c94922"; "#ac9739"; "#c08b30"; "#3d8fd1"; "#6679cc"; "#22a2c9"; "#979db4";
      "#6b7394"; "#c76b29"; "#293256"; "#5e6687"; "#898ea4"; "#dfe2f1"; "#9c637a"; "#f5f7ff"]);
  ("atom", scheme "#c5c8c6" "#161719"
     ["#000000"; "#fd5ff1"; "#87c38a"; "#ffd7b1"; "#85befd"; "#b9b6fc"; "#85befd"; "#e0e0e0";
      "#000000"; "#fd5ff1"; "#94fa36"; "#f5ffa8"; "#96cbfe"; "#b9b6fc"; "#85befd"; "#e0e0e0"]);
  ("atom_one_light", scheme "#2a2c33" "#f9f9f9"
     ["#000000"; "#de3e35"; "#3f953a"; "#d2b67c"; "#2f5af3"; "#950095"; "#3f953a"; "#bbbbbb";
      "#000000"; "#de3e35"; "#3f953a"; "#d2b67c"; "#2f5af3"; "#a00095"; "#3f953a"; "#ffffff"]);
  ("aura", scheme "#edecee" "#15141b"
     ["#110f18"; "#ff6767"; "#61ffca"; "#ffca85"; "#a277ff"; "#a277ff"; "#61ffca"; "#edecee";
      "#4d4d4d"; "#ffca85"; "#a277ff"; "#ffca85"; "#a277ff"; "#a277ff"; "#61ffca"; "#edecee"]);
  ("aurora", scheme "#ffca28" "#23262e"
     ["#23262e"; "#f0266f"; "#8fd46d"; "#ffe66d"; "#0321d7"; "#ee5d43"; "#03d6b8"; "#c74ded";
      "#292e38"; "#f92672"; "#8fd46d"; "#ffe66d"; "#03d6b8"; "#ee5d43"; "#03d6b8"; "#c74ded"]);
  ("ayu", scheme "#e6e1cf" "#0f1419"
     ["#000000"; "#ff3333"; "#b8cc52"; "#e7c547"; "#36a3d9"; "#f07178"; "#95e6cb"; "#ffffff";
      "#323232"; "#ff6565"; "#eafe84"; "#fff779"; "#68d5ff"; "#ffa3aa"; "#c7fffd"; "#ffffff"]);
  ("ayu_light", scheme "#5c6773" "#fafafa"
     ["#000000"; "#ff3333"; "#86b300"; "#f29718"; "#41a6d9"; "#f07178"; "#4dbf99"; "#ffffff";
      "#323232"; "#ff6565"; "#b8e532"; "#ffc94a"; "#73d8ff"; "#ffa3aa"; "#7ff1cb"; "#ffffff"]);
  ("ayu_mirage", scheme "#cbccc6" "#1f2430"
     ["#191e2a"; "#ed8274"; "#a6cc70"; "#fad07b"; "#6dcbfa"; "#cfbafa"; "#90e1c6"; "#c7c7c7";
      "#686868"; "#f28779"; "#bae67e"; "#ffd580"; "#73d0ff"; "#d4bfff"; "#95e6cb"; "#ffffff"]);
  ("banana_blueberry", scheme "#cccccc" "#191323"
     ["#17141f"; "#ff6b7f"; "#00bd9c"; "#e6c62f"; "#22e8df"; "#dc396a"; "#56b6c2"; "#f1f1f1";
      "#495162"; "#fe9ea1"; "#98c379"; "#f9e46b"; "#91fff4"; "#da70d6"; "#bcf3ff"; "#ffffff"]);
  ("batman", scheme "#6f6f6f" "#1b1d1e"
     ["#1b1d1e"; "#e6dc44"; "#c8be46"; "#f4fd22"; "#737174"; "#747271"; "#62605f"; "#c6c5bf";
      "#505354"; "#fff78e"; "#fff27d"; "#feed6c"; "#919495"; "#9a9a9d"; "#a3a3a6"; "#dadbd6"]);
  ("belafonte_day", scheme "#45373c" "#d5ccba"
     ["#20111b"; "#be100e"; "#858162"; "#eaa549"; "#426a79"; "#97522c"; "#989a9c"; "#968c83";
      "#5e5252"; "#be100e"; "#858162"; "#eaa549"; "#426a79"; "#97522c"; "#989a9c"; "#d5ccba"]);
  ("belafonte_night", scheme "#968c83" "#20111b"
     ["#20111b"; "#be100e"; "#858162"; "#eaa549"; "#426a79"; "#97522c"; "#989a9c"; "#968c83";
      "#5e5252"; "#be100e"; "#858162"; "#eaa549"; "#426a79"; "#97522c"; "#989a9c"; "#d5ccba"]);
  ("birds_of_paradise", scheme "#e0dbb7" "#2a1f1d"
     ["#573d26"; "#be2d26"; "#6ba18a"; "#e99d2a"; "#5a86ad"; "#ac80a6"; "#74a6ad"; "#e0dbb7";
      "#9b6c4a"; "#e84627"; "#95d8ba"; "#d0d150"; "#b8d3ed"; "#d19ecb"; "#93cfd7"; "#fff9d5"]);
  ("blazer", scheme "#d9e6f2" "#0d1926"
     ["#000000"; "#b87a7a"; "#7ab87a"; "#b8b87a"; "#7a7ab8"; "#b87ab8"; "#7ab8b8"; "#d9d9d9";
      "#262626"; "#dbbdbd"; "#bddbbd"; "#dbdbbd"; "#bdbddb"; "#dbbddb"; "#bddbdb"; "#ffffff"]);
  ("blue_berry_pie", scheme "#babab9" "#1c0c28"
     ["#0a4c62"; "#99246e"; "#5cb1b3"; "#eab9a8"; "#90a5bd"; "#9d54a7"; "#7e83cc"; "#f0e8d6";
      "#201637"; "#c87272"; "#0a6c7e"; "#7a3188"; "#39173d"; "#bc94b7"; "#5e6071"; "#0a6c7e"]);
  ("blue_dolphin", scheme "#c5f2ff" "#006984"
     ["#292d3e"; "#ff8288"; "#b4e88d"; "#f4d69f"; "#82aaff"; "#e9c1ff"; "#89ebff"; "#d0d0d0";
      "#434758"; "#ff8b92"; "#ddffa7"; "#ffe585"; "#9cc4ff"; "#ddb0f6"; "#a3f7ff"; "#ffffff"]);
  ("blue_matrix", scheme "#00a2ff" "#101116"
     ["#101116"; "#ff5680"; "#00ff9c"; "#fffc58"; "#00b0ff"; "#d57bff"; "#76c1ff"; "#c7c7c7";
      "#686868"; "#ff6e67"; "#5ffa68"; "#fffc67"; "#6871ff"; "#d682ec"; "#60fdff"; "#ffffff"]);
  ("bluloco_dark", scheme "#b9c0cb" "#282c34"
     ["#41444d"; "#fc2f52"; "#25a45c"; "#ff936a"; "#3476ff"; "#7a82da"; "#4483aa"; "#cdd4e0";
      "#8f9aae"; "#ff6480"; "#3fc56b"; "#f9c859"; "#10b1fe"; "#ff78f8"; "#5fb9bc"; "#ffffff"]);
  ("bluloco_light", scheme "#373a41" "#f9f9f9"
     ["#373a41"; "#d52753"; "#23974a"; "#df631c"; "#275fe4"; "#823ff1"; "#27618d"; "#babbc2";
      "#676a77"; "#ff6480"; "#3cbc66"; "#c5a332"; "#0099e1"; "#ce33c0"; "#6d93bb"; "#d3d3d3"]);
  ("borland", scheme "#ffff4e" "#0000a4"
     ["#4f4f4f"; "#ff6c60"; "#a8ff60"; "#ffffb6"; "#96cbfe"; "#ff73fd"; "#c6c5fe"; "#eeeeee";
      "#7c7c7c"; "#ffb6b0"; "#ceffac"; "#ffffcc"; "#b5dcff"; "#ff9cfe"; "#dfdffe"; "#ffffff"]);
  ("breeze", scheme "#eff0f1" "#31363b"
     ["#31363b"; "#ed1515"; "#11d116"; "#f67400"; "#1d99f3"; "#9b59b6"; "#1abc9c"; "#eff0f1";
      "#7f8c8d"; "#c0392b"; "#1cdc9a"; "#fdbc4b"; "#3daee9"; "#8e44ad"; "#16a085"; "#fcfcfc"]);
  ("bright_lights", scheme "#b3c9d7" "#191919"
     ["#191919"; "#ff355b"; "#b7e876"; "#ffc251"; "#76d4ff"; "#ba76e7"; "#6cbfb5"; "#c2c8d7";
      "#191919"; "#ff355b"; "#b7e876"; "#ffc251"; "#76d5ff"; "#ba76e7"; "#6cbfb5"; "#c2c8d7"]);
  ("broadcast", scheme "#e6e1dc" "#2b2b2b"
     ["#000000"; "#da4939"; "#519f50"; "#ffd24a"; "#6d9cbe"; "#d0d0ff"; "#6e9cbe"; "#ffffff";
      "#323232"; "#ff7b6b"; "#83d182"; "#ffff7c"; "#9fcef0"; "#ffffff"; "#a0cef0"; "#ffffff"]);
  ("brogrammer", scheme "#d6dbe5" "#131313"
     ["#1f1f1f"; "#f81118"; "#2dc55e"; "#ecba0f"; "#2a84d2"; "#4e5ab7"; "#1081d6"; "#d6dbe5";
      "#d6dbe5"; "#de352e"; "#1dd361"; "#f3bd09"; "#1081d6"; "#5350b9"; "#0f7ddb"; "#ffffff"]);
  ("builtin_dark", scheme "#bbbbbb" "#000000"
     ["#000000"; "#bb0000"; "#00bb00"; "#bbbb00"; "#0000bb"; "#bb00bb"; "#00bbbb"; "#bbbbbb";
      "#555555"; "#ff5555"; "#55ff55"; "#ffff55"; "#5555ff"; "#ff55ff"; "#55ffff"; "#ffffff"]);
  ("builtin_light", scheme "#000000" "#ffffff"
     ["#000000"; "#bb0000"; "#00bb00"; "#bbbb00"; "#0000bb"; "#bb00bb"; "#00bbbb"; "#bbbbbb";
      "#555555"; "#ff5555"; "#55ff55"; "#ffff55"; "#5555ff"; "#ff55ff"; "#55ffff"; "#ffffff"]);
  ("builtin_pastel_dark", scheme "#bbbbbb" "#000000"
     ["#4f4f4f"; "#ff6c60"; "#a8ff60"; "#ffffb6"; "#96cbfe"; "#ff73fd"; "#c6c5fe"; "#eeeeee";
      "#7c7c7c"; "#ffb6b0"; "#ceffac"; "#ffffcc"; "#b5dcff"; "#ff9cfe"; "#dfdffe"; "#ffffff"]);
  ("builtin_solarized_dark", scheme "#839496" "#002b36"
     ["#073642"; "#dc322f"; "#859900"; "#b58900"; "#268bd2"; "#d33682"; "#2aa198"; "#eee8d5";
      "#002b36"; "#cb4b16"; "#586e75"; "#657b83"; "#839496"; "#6c71c4"; "#93a1a1"; "#fdf6e3"]);
  ("builtin_solarized_light", scheme "#657b83" "#fdf6e3"
     ["#073642"; "#dc322f"; "#859900"; "#b58900"; "#268bd2"; "#d33682"; "#2aa198"; "#eee8d5";
      "#002b36"; "#cb4b16"; "#586e75"; "#657b83"; "#839496"; "#6c71c4"; "#93a1a1"; "#fdf6e3"]);
  ("builtin_tango_dark", scheme "#ffffff" "#000000"
     ["#000000"; "#cc0000"; "#4e9a06"; "#c4a000"; "#3465a4"; "#75507b"; "#06989a"; "#d3d7cf";
      "#555753"; "#ef2929"; "#8ae234"; "#fce94f"; "#729fcf"; "#ad7fa8"; "#34e2e2"; "#eeeeec"]);
  ("builtin_tango_light", scheme "#000000" "#ffffff"
     ["#000000"; "#cc0000"; "#4e9a06"; "#c4a000"; "#3465a4"; "#75507b"; "#06989a"; "#d3d7cf";
      "#555753"; "#ef2929"; "#8ae234"; "#fce94f"; "#729fcf"; "#ad7fa8"; "#34e2e2"; "#eeeeec"]);
  ("c64", scheme "#7869c4" "#40318d"
     ["#090300"; "#883932"; "#55a049"; "#bfce72"; "#40318d"; "#8b3f96"; "#67b6bd"; "#ffffff";
      "#000000"; "#883932"; "#55a049"; "#bfce72"; "#40318d"; "#8b3f96"; "#67b6bd"; "#f7f7f7"]);
  ("calamity", scheme "#d5ced9" "#2f2833"
     ["#2f2833"; "#fc644d"; "#a5f69c"; "#e9d7a5"; "#3b79c7"; "#f92672"; "#74d3de"; "#d5ced9";
      "#7e6c88"; "#fc644d"; "#a5f69c"; "#e9d7a5"; "#3b79c7"; "#f92672"; "#74d3de"; "#ffffff"]);
  ("catppuccin_frappe", scheme "#c6d0f5" "#303446"
     ["#51576d"; "#e78284"; "#a6d189"; "#e5c890"; "#8caaee"; "#f4b8e4"; "#81c8be"; "#a5adce";
      "#626880"; "#e67172"; "#8ec772"; "#d9ba73"; "#7b9ef0"; "#f2a4db"; "#5abfb5"; "#b5bfe2"]);
  ("catppuccin_latte", scheme "#4c4f69" "#eff1f5"
     ["#5c5f77"; "#d20f39"; "#40a02b"; "#df8e1d"; "#1e66f5"; "#ea76cb"; "#179299"; "#acb0be";
      "#6c6f85"; "#de293e"; "#49af3d"; "#eea02d"; "#456eff"; "#fe85d8"; "#2d9fa8"; "#bcc0cc"]);
  ("catppuccin_macchiato", scheme "#cad3f5" "#24273a"
     ["#494d64"; "#ed8796"; "#a6da95"; "#eed49f"; "#8aadf4"; "#f5bde6"; "#8bd5ca"; "#a5adcb";
      "#5b6078"; "#ec7486"; "#8ccf7f"; "#e1c682"; "#78a1f6"; "#f2a9dd"; "#63cbc0"; "#b8c0e0"]);
  ("catppuccin_mocha", scheme "#cdd6f4" "#1e1e2e"
     ["#45475a"; "#f38ba8"; "#a6e3a1"; "#f9e2af"; "#89b4fa"; "#f5c2e7"; "#94e2d5"; "#a6adc8";
      "#585b70"; "#f37799"; "#89d88b"; "#ebd391"; "#74a8fc"; "#f2aede"; "#6bd7ca"; "#bac2de"]);
  ("cga", scheme "#aaaaaa" "#000000"
     ["#000000"; "#aa0000"; "#00aa00"; "#aa5500"; "#0000aa"; "#aa00aa"; "#00aaaa"; "#aaaaaa";
      "#555555"; "#ff5555"; "#55ff55"; "#ffff55"; "#5555ff"; "#ff55ff"; "#55ffff"; "#ffffff"]);
  ("chalk", scheme "#d2d8d9" "#2b2d2e"
     ["#7d8b8f"; "#b23a52"; "#789b6a"; "#b9ac4a"; "#2a7fac"; "#bd4f5a"; "#44a799"; "#d2d8d9";
      "#888888"; "#f24840"; "#80c470"; "#ffeb62"; "#4196ff"; "#fc5275"; "#53cdbd"; "#d2d8d9"]);
  ("chalkboard", scheme "#d9e6f2" "#29262f"
     ["#000000"; "#c37372"; "#72c373"; "#c2c372"; "#7372c3"; "#c372c2"; "#72c2c3"; "#d9d9d9";
      "#323232"; "#dbaaaa"; "#aadbaa"; "#dadbaa"; "#aaaadb"; "#dbaada"; "#aadadb"; "#ffffff"]);
  ("challenger_deep", scheme "#cbe1e7" "#1e1c31"
     ["#141228"; "#ff5458"; "#62d196"; "#ffb378"; "#65b2ff"; "#906cff"; "#63f2f1"; "#a6b3cc";
      "#565575"; "#ff8080"; "#95ffa4"; "#ffe9aa"; "#91ddff"; "#c991e1"; "#aaffe4"; "#cbe3e7"]);
  ("chester", scheme "#ffffff" "#2c3643"
     ["#080200"; "#fa5e5b"; "#16c98d"; "#ffc83f"; "#288ad6"; "#d34590"; "#28ddde"; "#e7e7e7";
      "#6f6b68"; "#fa5e5b"; "#16c98d"; "#feef6d"; "#278ad6"; "#d34590"; "#27dede"; "#ffffff"]);
  ("ciapre", scheme "#aea47a" "#191c27"
     ["#181818"; "#810009"; "#48513b"; "#cc8b3f"; "#576d8c"; "#724d7c"; "#5c4f4b"; "#aea47f";
      "#555555"; "#ac3835"; "#a6a75d"; "#dcdf7c"; "#3097c6"; "#d33061"; "#f3dbb2"; "#f4f4f4"]);
  ("citruszest", scheme "#bfbfbf" "#121212"
     ["#404040"; "#ff5454"; "#00cc7a"; "#ffd400"; "#00bfff"; "#ff90fe"; "#48d1cc"; "#bfbfbf";
      "#808080"; "#ff1a75"; "#1affa3"; "#ffff00"; "#33cfff"; "#ffb2fe"; "#00fff2"; "#f9f9f9"]);
  ("clrs", scheme "#262626" "#ffffff"
     ["#000000"; "#f8282a"; "#328a5d"; "#fa701d"; "#135cd0"; "#9f00bd"; "#33c3c1"; "#b3b3b3";
      "#555753"; "#fb0416"; "#2cc631"; "#fdd727"; "#1670ff"; "#e900b0"; "#3ad5ce"; "#eeeeec"]);
  ("cobalt2", scheme "#ffffff" "#132738"
     ["#000000"; "#ff0000"; "#38de21"; "#ffe50a"; "#1460d2"; "#ff005d"; "#00bbbb"; "#bbbbbb";
      "#555555"; "#f40e17"; "#3bd01d"; "#edc809"; "#5555ff"; "#ff55ff"; "#6ae3fa"; "#ffffff"]);
  ("cobalt_neon", scheme "#8ff586" "#142838"
     ["#142631"; "#ff2320"; "#3ba5ff"; "#e9e75c"; "#8ff586"; "#781aa0"; "#8ff586"; "#ba46b2";
      "#fff688"; "#d4312e"; "#8ff586"; "#e9f06d"; "#3c7dd2"; "#8230a7"; "#6cbc67"; "#8ff586"]);
  ("cobalt_next", scheme "#d8dee9" "#1b2b34"
     ["#000000"; "#ed5f7d"; "#99c794"; "#fac863"; "#5a9bcf"; "#c5a5c5"; "#5fb3b3"; "#d8dee9";
      "#65737e"; "#d6838c"; "#c1dcbe"; "#ffde9b"; "#8abee7"; "#edcded"; "#9be2e2"; "#ffffff"]);
  ("cobalt_next_dark", scheme "#d8dee9" "#0f1c23"
     ["#282f36"; "#e6576a"; "#99c794"; "#fac863"; "#5a9bcf"; "#c5a5c5"; "#5fb3b3"; "#d8dee9";
      "#65737e"; "#d6838c"; "#c1dcbe"; "#ffde9b"; "#8abee7"; "#edcded"; "#9be2e2"; "#ffffff"]);
  ("cobalt_next_minimal", scheme "#d8dee9" "#0f1c23"
     ["#343d46"; "#ed6f7d"; "#99c794"; "#fac863"; "#5a9bcf"; "#c5a5c5"; "#5fb3b3"; "#d8dee9";
      "#65737e"; "#d6838c"; "#c1dcbe"; "#ffde9b"; "#8abee7"; "#edcded"; "#9be2e2"; "#ffffff"]);
  ("coffee_theme", scheme "#000000" "#f5deb3"
     ["#000000"; "#c91b00"; "#00c200"; "#c7c400"; "#0225c7"; "#ca30c7"; "#00c5c7"; "#c7c7c7";
      "#686868"; "#ff6e67"; "#5ffa68"; "#fffc67"; "#6871ff"; "#ff77ff"; "#60fdff"; "#ffffff"]);
  ("crayon_pony_fish", scheme "#68525a" "#150707"
     ["#2b1b1d"; "#91002b"; "#579524"; "#ab311b"; "#8c87b0"; "#692f50"; "#e8a866"; "#68525a";
      "#3d2b2e"; "#c5255d"; "#8dff57"; "#c8381d"; "#cfc9ff"; "#fc6cba"; "#ffceaf"; "#b0949d"]);
  ("cutie_pro", scheme "#d5d0c9" "#181818"
     ["#000000"; "#f56e7f"; "#bec975"; "#f58669"; "#42d9c5"; "#d286b7"; "#37cb8a"; "#d5c3c3";
      "#88847f"; "#e5a1a3"; "#e8d6a7"; "#f1bb79"; "#80c5de"; "#b294bb"; "#9dccbb"; "#ffffff"]);
  ("cyberdyne", scheme "#00ff92" "#151144"
     ["#080808"; "#ff8373"; "#00c172"; "#d2a700"; "#0071cf"; "#ff90fe"; "#6bffdd"; "#f1f1f1";
      "#2e2e2e"; "#ffc4be"; "#d6fcba"; "#fffed5"; "#c2e3ff"; "#ffb2fe"; "#e6e7fe"; "#ffffff"]);
  ("cyberpunk", scheme "#e5e5e5" "#332a57"
     ["#000000"; "#ff7092"; "#00fbac"; "#fffa6a"; "#00bfff"; "#df95ff"; "#86cbfe"; "#ffffff";
      "#000000"; "#ff8aa4"; "#21f6bc"; "#fff787"; "#1bccfd"; "#e6aefe"; "#99d6fc"; "#ffffff"]);
  ("cyberpunk_scarlet_protocol", scheme "#d13554" "#101116"
     ["#101116"; "#ea3356"; "#64d98c"; "#faf968"; "#306fb1"; "#ba3ec1"; "#59c2c6"; "#c7c7c7";
      "#686868"; "#ed776d"; "#8df77a"; "#fefc7f"; "#6a71f6"; "#ae40e4"; "#8efafd"; "#ffffff"]);
  ("dark+", scheme "#cccccc" "#1e1e1e"
     ["#000000"; "#cd3131"; "#0dbc79"; "#e5e510"; "#2472c8"; "#bc3fbc"; "#11a8cd"; "#e5e5e5";
      "#666666"; "#f14c4c"; "#23d18b"; "#f5f543"; "#3b8eea"; "#d670d6"; "#29b8db"; "#e5e5e5"]);
  ("dark_modern", scheme "#cccccc" "#1f1f1f"
     ["#272727"; "#f74949"; "#2ea043"; "#9e6a03"; "#0078d4"; "#d01273"; "#1db4d6"; "#cccccc";
      "#5d5d5d"; "#dc5452"; "#23d18b"; "#f5f543"; "#3b8eea"; "#d670d6"; "#29b8db"; "#e5e5e5"]);
  ("dark_pastel", scheme "#ffffff" "#000000"
     ["#000000"; "#ff5555"; "#55ff55"; "#ffff55"; "#5555ff"; "#ff55ff"; "#55ffff"; "#bbbbbb";
      "#555555"; "#ff5555"; "#55ff55"; "#ffff55"; "#5555ff"; "#ff55ff"; "#55ffff"; "#ffffff"]);
  ("darkermatrix", scheme "#28380d" "#070c0e"
     ["#091013"; "#002e18"; "#6fa64c"; "#595900"; "#00cb6b"; "#412a4d"; "#125459"; "#002e19";
      "#333333"; "#00381d"; "#90d762"; "#e2e500"; "#00ff87"; "#412a4d"; "#176c73"; "#00381e"]);
  ("darkmatrix", scheme "#3e5715" "#070c0e"
     ["#091013"; "#006536"; "#6fa64c"; "#7e8000"; "#2c9a84"; "#452d53"; "#114d53"; "#006536";
      "#333333"; "#00733d"; "#90d762"; "#e2e500"; "#46d8b8"; "#4a3059"; "#12545a"; "#006536"]);
  ("darkside", scheme "#bababa" "#222324"
     ["#000000"; "#e8341c"; "#68c256"; "#f2d42c"; "#1c98e8"; "#8e69c9"; "#1c98e8"; "#bababa";
      "#000000"; "#e05a4f"; "#77b869"; "#efd64b"; "#387cd3"; "#957bbe"; "#3d97e2"; "#bababa"]);
  ("dayfox", scheme "#3d2b5a" "#f6f2ee"
     ["#352c24"; "#a5222f"; "#396847"; "#ac5402"; "#2848a9"; "#6e33ce"; "#287980"; "#f2e9e1";
      "#534c45"; "#b3434e"; "#577f63"; "#b86e28"; "#4863b6"; "#8452d5"; "#488d93"; "#f4ece6"]);
  ("deep", scheme "#cdcdcd" "#090909"
     ["#000000"; "#d70005"; "#1cd915"; "#d9bd26"; "#5665ff"; "#b052da"; "#50d2da"; "#e0e0e0";
      "#535353"; "#fb0007"; "#22ff18"; "#fedc2b"; "#9fa9ff"; "#e09aff"; "#8df9ff"; "#ffffff"]);
  ("desert", scheme "#ffffff" "#333333"
     ["#4d4d4d"; "#ff2b2b"; "#98fb98"; "#f0e68c"; "#cd853f"; "#ffdead"; "#ffa0a0"; "#f5deb3";
      "#555555"; "#ff5555"; "#55ff55"; "#ffff55"; "#87ceff"; "#ff55ff"; "#ffd700"; "#ffffff"]);
  ("detuned", scheme "#c7c7c7" "#000000"
     ["#171717"; "#ea5386"; "#b3e153"; "#e4da81"; "#4192d3"; "#8f3ef6"; "#6cb4d5"; "#c7c7c7";
      "#686868"; "#ea86ac"; "#c5e280"; "#fdf38f"; "#55bbf9"; "#b9a0f9"; "#7fd4fb"; "#ffffff"]);
  ("dimidium", scheme "#bab7b6" "#141414"
     ["#000000"; "#cf494c"; "#60b442"; "#db9c11"; "#0575d8"; "#af5ed2"; "#1db6bb"; "#bab7b6";
      "#817e7e"; "#ff643b"; "#37e57b"; "#fccd1a"; "#688dfd"; "#ed6fe9"; "#32e0fb"; "#d3d8d9"]);
  ("dimmed_monokai", scheme "#b9bcba" "#1f1f1f"
     ["#3a3d43"; "#be3f48"; "#879a3b"; "#c5a635"; "#4f76a1"; "#855c8d"; "#578fa4"; "#b9bcba";
      "#888987"; "#fb001f"; "#0f722f"; "#c47033"; "#186de3"; "#fb0067"; "#2e706d"; "#fdffb9"]);
  ("django", scheme "#f8f8f8" "#0b2f20"
     ["#000000"; "#fd6209"; "#41a83e"; "#ffe862"; "#245032"; "#f8f8f8"; "#9df39f"; "#ffffff";
      "#323232"; "#ff943b"; "#73da70"; "#ffff94"; "#568264"; "#ffffff"; "#cfffd1"; "#ffffff"]);
  ("django_reborn_again", scheme "#dadedc" "#051f14"
     ["#000000"; "#fd6209"; "#41a83e"; "#ffe862"; "#245032"; "#f8f8f8"; "#9df39f"; "#ffffff";
      "#323232"; "#ff943b"; "#73da70"; "#ffff94"; "#568264"; "#ffffff"; "#cfffd1"; "#ffffff"]);
  ("django_smooth", scheme "#f8f8f8" "#245032"
     ["#000000"; "#fd6209"; "#41a83e"; "#ffe862"; "#989898"; "#f8f8f8"; "#9df39f"; "#e8e8e7";
      "#323232"; "#ff943b"; "#73da70"; "#ffff94"; "#cacaca"; "#ffffff"; "#cfffd1"; "#ffffff"]);
  ("doom_one", scheme "#bbc2cf" "#282c34"
     ["#000000"; "#ff6c6b"; "#98be65"; "#ecbe7b"; "#a9a1e1"; "#c678dd"; "#51afef"; "#bbc2cf";
      "#000000"; "#ff6655"; "#99bb66"; "#ecbe7b"; "#a9a1e1"; "#c678dd"; "#51afef"; "#bfbfbf"]);
  ("doom_peacock", scheme "#ede0ce" "#2b2a27"
     ["#1c1f24"; "#cb4b16"; "#26a6a6"; "#bcd42a"; "#2a6cc6"; "#a9a1e1"; "#5699af"; "#ede0ce";
      "#2b2a27"; "#ff5d38"; "#98be65"; "#e6f972"; "#51afef"; "#c678dd"; "#46d9ff"; "#dfdfdf"]);
  ("dot_gov", scheme "#ebebeb" "#262c35"
     ["#191919"; "#bf091d"; "#3d9751"; "#f6bb34"; "#17b2e0"; "#7830b0"; "#8bd2ed"; "#ffffff";
      "#191919"; "#bf091d"; "#3d9751"; "#f6bb34"; "#17b2e0"; "#7830b0"; "#8bd2ed"; "#ffffff"]);
  ("dracula", scheme "#e6e6e6" "#1e1f29"
     ["#000000"; "#ff5555"; "#50fa7b"; "#f1fa8c"; "#bd93f9"; "#ff79c6"; "#8be9fd"; "#bbbbbb";
      "#555555"; "#ff5555"; "#50fa7b"; "#f1fa8c"; "#bd93f9"; "#ff79c6"; "#8be9fd"; "#ffffff"]);
  ("dracula+", scheme "#f8f8f2" "#212121"
     ["#21222c"; "#ff5555"; "#50fa7b"; "#ffcb6b"; "#82aaff"; "#c792ea"; "#8be9fd"; "#f8f8f2";
      "#545454"; "#ff6e6e"; "#69ff94"; "#ffcb6b"; "#d6acff"; "#ff92df"; "#a4ffff"; "#f8f8f2"]);
  ("duckbones", scheme "#ebefc0" "#0e101a"
     ["#0e101a"; "#e03600"; "#5dcd97"; "#e39500"; "#00a3cb"; "#795ccc"; "#00a3cb"; "#ebefc0";
      "#2b2f46"; "#ff4821"; "#58db9e"; "#f6a100"; "#00b4e0"; "#b3a1e6"; "#00b4e0"; "#b3b692"]);
  ("duotone_dark", scheme "#b7a1ff" "#1f1d27"
     ["#1f1d27"; "#d9393e"; "#2dcd73"; "#d9b76e"; "#ffc284"; "#de8d40"; "#2488ff"; "#b7a1ff";
      "#353147"; "#d9393e"; "#2dcd73"; "#d9b76e"; "#ffc284"; "#de8d40"; "#2488ff"; "#eae5ff"]);
  ("earthsong", scheme "#e5c7a9" "#292520"
     ["#121418"; "#c94234"; "#85c54c"; "#f5ae2e"; "#1398b9"; "#d0633d"; "#509552"; "#e5c6aa";
      "#675f54"; "#ff645a"; "#98e036"; "#e0d561"; "#5fdaff"; "#ff9269"; "#84f088"; "#f6f7ec"]);
  ("electron_highlighter", scheme "#a8b5d1" "#24283b"
     ["#15161e"; "#f7768e"; "#58ffc7"; "#ffd9af"; "#82aaff"; "#d2a6ef"; "#57f9ff"; "#7c8eac";
      "#506686"; "#f7768e"; "#58ffc7"; "#ffd9af"; "#82aaff"; "#d2a6ef"; "#57f9ff"; "#c5cee0"]);
  ("elegant", scheme "#cfd2d6" "#292b31"
     ["#0c1221"; "#ea335b"; "#95ca9a"; "#f7cd94"; "#93aadd"; "#bf94e5"; "#8ccaec"; "#ffffff";
      "#575656"; "#ea335b"; "#95ca9a"; "#f7cd94"; "#93aadd"; "#bf94e5"; "#5faae9"; "#ffffff"]);
  ("elemental", scheme "#807a74" "#22211d"
     ["#3c3c30"; "#98290f"; "#479a43"; "#7f7111"; "#497f7d"; "#7f4e2f"; "#387f58"; "#807974";
      "#555445"; "#e0502a"; "#61e070"; "#d69927"; "#79d9d9"; "#cd7c54"; "#59d599"; "#fff1e9"]);
  ("elementary", scheme "#efefef" "#181818"
     ["#242424"; "#d71c15"; "#5aa513"; "#fdb40c"; "#063b8c"; "#e40038"; "#2595e1"; "#efefef";
      "#4b4b4b"; "#fc1c18"; "#6bc219"; "#fec80e"; "#0955ff"; "#fb0050"; "#3ea8fc"; "#8c00ec"]);
  ("embers_dark", scheme "#a39a90" "#16130f"
     ["#16130f"; "#826d57"; "#57826d"; "#6d8257"; "#6d5782"; "#82576d"; "#576d82"; "#a39a90";
      "#5a5047"; "#828257"; "#2c2620"; "#433b32"; "#8a8075"; "#beb6ae"; "#825757"; "#dbd6d1"]);
  ("encom", scheme "#00a595" "#000000"
     ["#000000"; "#9f0000"; "#008b00"; "#ffd000"; "#0081ff"; "#bc00ca"; "#008b8b"; "#bbbbbb";
      "#555555"; "#ff0000"; "#00ee00"; "#ffff00"; "#0000ff"; "#ff00ff"; "#00cdcd"; "#ffffff"]);
  ("espresso", scheme "#ffffff" "#323232"
     ["#353535"; "#d25252"; "#a5c261"; "#ffc66d"; "#6c99bb"; "#d197d9"; "#bed6ff"; "#eeeeec";
      "#535353"; "#f00c0c"; "#c2e075"; "#e1e48b"; "#8ab7d9"; "#efb5f7"; "#dcf4ff"; "#ffffff"]);
  ("espresso_libre", scheme "#b8a898" "#2a211c"
     ["#000000"; "#cc0000"; "#1a921c"; "#f0e53a"; "#0066ff"; "#c5656b"; "#06989a"; "#d3d7cf";
      "#555753"; "#ef2929"; "#9aff87"; "#fffb5c"; "#43a8ed"; "#ff818a"; "#34e2e2"; "#eeeeec"]);
  ("everblush", scheme "#dadada" "#141b1e"
     ["#232a2d"; "#e57474"; "#8ccf7e"; "#e5c76b"; "#67b0e8"; "#c47fd5"; "#6cbfbf"; "#b3b9b8";
      "#2d3437"; "#ef7e7e"; "#96d988"; "#f4d67a"; "#71baf2"; "#ce89df"; "#67cbe7"; "#bdc3c2"]);
  ("everforest_dark_hard", scheme "#d3c6aa" "#1e2326"
     ["#7a8478"; "#e67e80"; "#a7c080"; "#dbbc7f"; "#7fbbb3"; "#d699b6"; "#83c092"; "#f2efdf";
      "#a6b0a0"; "#f85552"; "#8da101"; "#dfa000"; "#3a94c5"; "#df69ba"; "#35a77c"; "#fffbef"]);
  ("fahrenheit", scheme "#ffffce" "#000000"
     ["#1d1d1d"; "#cda074"; "#9e744d"; "#fecf75"; "#720102"; "#734c4d"; "#979797"; "#ffffce";
      "#000000"; "#fecea0"; "#cc734d"; "#fd9f4d"; "#cb4a05"; "#4e739f"; "#fed04d"; "#ffffff"]);
  ("fairyfloss", scheme "#f8f8f2" "#5a5475"
     ["#040303"; "#f92672"; "#c2ffdf"; "#e6c000"; "#c2ffdf"; "#ffb8d1"; "#c5a3ff"; "#f8f8f0";
      "#6090cb"; "#ff857f"; "#c2ffdf"; "#ffea00"; "#c2ffdf"; "#ffb8d1"; "#c5a3ff"; "#f8f8f0"]);
  ("farmhouse_dark", scheme "#e8e4e1" "#1d2027"
     ["#1d2027"; "#ba0004"; "#549d00"; "#c87300"; "#0049e6"; "#9f1b61"; "#1fb65c"; "#e8e4e1";
      "#394047"; "#eb0009"; "#7ac100"; "#ea9a00"; "#006efe"; "#bf3b7f"; "#19e062"; "#f4eef0"]);
  ("farmhouse_light", scheme "#1d2027" "#e8e4e1"
     ["#1d2027"; "#8d0003"; "#3a7d00"; "#a95600"; "#092ccd"; "#820046"; "#229256"; "#e8e4e1";
      "#394047"; "#eb0009"; "#7ac100"; "#ea9a00"; "#006efe"; "#bf3b7f"; "#19e062"; "#f4eef0"]);
  ("fideloper", scheme "#dbdae0" "#292f33"
     ["#292f33"; "#cb1e2d"; "#edb8ac"; "#b7ab9b"; "#2e78c2"; "#c0236f"; "#309186"; "#eae3ce";
      "#092028"; "#d4605a"; "#d4605a"; "#a86671"; "#7c85c4"; "#5c5db2"; "#819090"; "#fcf4df"]);
  ("firefly_traditional", scheme "#f5f5f5" "#000000"
     ["#000000"; "#c23720"; "#33bc26"; "#afad24"; "#5a63ff"; "#d53ad2"; "#33bbc7"; "#cccccc";
      "#828282"; "#ff3b1e"; "#2ee720"; "#ecec16"; "#838dff"; "#ff5cfe"; "#29f0f0"; "#ebebeb"]);
  ("firefox_dev", scheme "#7c8fa4" "#0e1011"
     ["#002831"; "#e63853"; "#5eb83c"; "#a57706"; "#359ddf"; "#d75cff"; "#4b73a2"; "#dcdcdc";
      "#001e27"; "#e1003f"; "#1d9000"; "#cd9409"; "#006fc0"; "#a200da"; "#005794"; "#e2e2e2"]);
  ("firewatch", scheme "#9ba2b2" "#1e2027"
     ["#585f6d"; "#d95360"; "#5ab977"; "#dfb563"; "#4d89c4"; "#d55119"; "#44a8b6"; "#e6e5ff";
      "#585f6d"; "#d95360"; "#5ab977"; "#dfb563"; "#4c89c5"; "#d55119"; "#44a8b6"; "#e6e5ff"]);
  ("fish_tank", scheme "#ecf0fe" "#232537"
     ["#03073c"; "#c6004a"; "#acf157"; "#fecd5e"; "#525fb8"; "#986f82"; "#968763"; "#ecf0fc";
      "#6c5b30"; "#da4b8a"; "#dbffa9"; "#fee6a9"; "#b2befa"; "#fda5cd"; "#a5bd86"; "#f6ffec"]);
  ("flat", scheme "#2cc55d" "#002240"
     ["#222d3f"; "#a82320"; "#32a548"; "#e58d11"; "#3167ac"; "#781aa0"; "#2c9370"; "#b0b6ba";
      "#212c3c"; "#d4312e"; "#2d9440"; "#e5be0c"; "#3c7dd2"; "#8230a7"; "#35b387"; "#e7eced"]);
  ("flatland", scheme "#b8dbef" "#1d1f21"
     ["#1d1d19"; "#f18339"; "#9fd364"; "#f4ef6d"; "#5096be"; "#695abc"; "#d63865"; "#ffffff";
      "#1d1d19"; "#d22a24"; "#a7d42c"; "#ff8949"; "#61b9d0"; "#695abc"; "#d63865"; "#ffffff"]);
  ("flexoki_dark", scheme "#cecdc3" "#100f0f"
     ["#100f0f"; "#d14d41"; "#879a39"; "#d0a215"; "#4385be"; "#ce5d97"; "#3aa99f"; "#878580";
      "#575653"; "#af3029"; "#66800b"; "#ad8301"; "#205ea6"; "#a02f6f"; "#24837b"; "#cecdc3"]);
  ("flexoki_light", scheme "#100f0f" "#fffcf0"
     ["#100f0f"; "#af3029"; "#66800b"; "#ad8301"; "#205ea6"; "#a02f6f"; "#24837b"; "#6f6e69";
      "#b7b5ac"; "#d14d41"; "#879a39"; "#d0a215"; "#4385be"; "#ce5d97"; "#3aa99f"; "#cecdc3"]);
  ("floraverse", scheme "#dbd1b9" "#0e0d15"
     ["#08002e"; "#64002c"; "#5d731a"; "#cd751c"; "#1d6da1"; "#b7077e"; "#42a38c"; "#f3e0b8";
      "#331e4d"; "#d02063"; "#b4ce59"; "#fac357"; "#40a4cf"; "#f12aae"; "#62caa8"; "#fff5db"]);
  ("forest_blue", scheme "#e2d8cd" "#051519"
     ["#333333"; "#f8818e"; "#92d3a2"; "#1a8e63"; "#8ed0ce"; "#5e468c"; "#31658c"; "#e2d8cd";
      "#3d3d3d"; "#fb3d66"; "#6bb48d"; "#30c85a"; "#39a7a2"; "#7e62b3"; "#6096bf"; "#e2d8cd"]);
  ("framer", scheme "#777777" "#111111"
     ["#141414"; "#ff5555"; "#98ec65"; "#ffcc33"; "#00aaff"; "#aa88ff"; "#88ddff"; "#cccccc";
      "#414141"; "#ff8888"; "#b6f292"; "#ffd966"; "#33bbff"; "#cebbff"; "#bbecff"; "#ffffff"]);
  ("front_end_delight", scheme "#adadad" "#1b1c1d"
     ["#242526"; "#f8511b"; "#565747"; "#fa771d"; "#2c70b7"; "#f02e4f"; "#3ca1a6"; "#adadad";
      "#5fac6d"; "#f74319"; "#74ec4c"; "#fdc325"; "#3393ca"; "#e75e4f"; "#4fbce6"; "#8c735b"]);
  ("fun_forrest", scheme "#dec165" "#251200"
     ["#000000"; "#d6262b"; "#919c00"; "#be8a13"; "#4699a3"; "#8d4331"; "#da8213"; "#ddc265";
      "#7f6a55"; "#e55a1c"; "#bfc65a"; "#ffcb1b"; "#7cc9cf"; "#d26349"; "#e6a96b"; "#ffeaa3"]);
  ("galaxy", scheme "#ffffff" "#1d2837"
     ["#000000"; "#f9555f"; "#21b089"; "#fef02a"; "#589df6"; "#944d95"; "#1f9ee7"; "#bbbbbb";
      "#555555"; "#fa8c8f"; "#35bb9a"; "#ffff55"; "#589df6"; "#e75699"; "#3979bc"; "#ffffff"]);
  ("galizur", scheme "#ddeeff" "#071317"
     ["#223344"; "#aa1122"; "#33aa11"; "#ccaa22"; "#2255cc"; "#7755aa"; "#22bbdd"; "#8899aa";
      "#556677"; "#ff1133"; "#33ff11"; "#ffdd33"; "#3377ff"; "#aa77ff"; "#33ddff"; "#bbccdd"]);
  ("ghostty_default_style_dark", scheme "#ffffff" "#292c33"
     ["#1d1f21"; "#bf6b69"; "#b7bd73"; "#e9c880"; "#88a1bb"; "#ad95b8"; "#95bdb7"; "#c5c8c6";
      "#666666"; "#c55757"; "#bcc95f"; "#e1c65e"; "#83a5d6"; "#bc99d4"; "#83beb1"; "#eaeaea"]);
  ("git_hub_dark", scheme "#8b949e" "#101216"
     ["#000000"; "#f78166"; "#56d364"; "#e3b341"; "#6ca4f8"; "#db61a2"; "#2b7489"; "#ffffff";
      "#4d4d4d"; "#f78166"; "#56d364"; "#e3b341"; "#6ca4f8"; "#db61a2"; "#2b7489"; "#ffffff"]);
  ("git_hub_dark_colorblind", scheme "#c9d1d9" "#0d1117"
     ["#484f58"; "#ec8e2c"; "#58a6ff"; "#d29922"; "#58a6ff"; "#bc8cff"; "#39c5cf"; "#b1bac4";
      "#6e7681"; "#fdac54"; "#79c0ff"; "#e3b341"; "#79c0ff"; "#d2a8ff"; "#56d4dd"; "#ffffff"]);
  ("git_hub_dark_default", scheme "#e6edf3" "#0d1117"
     ["#484f58"; "#ff7b72"; "#3fb950"; "#d29922"; "#58a6ff"; "#bc8cff"; "#39c5cf"; "#b1bac4";
      "#6e7681"; "#ffa198"; "#56d364"; "#e3b341"; "#79c0ff"; "#d2a8ff"; "#56d4dd"; "#ffffff"]);
  ("git_hub_dark_dimmed", scheme "#adbac7" "#22272e"
     ["#545d68"; "#f47067"; "#57ab5a"; "#c69026"; "#539bf5"; "#b083f0"; "#39c5cf"; "#909dab";
      "#636e7b"; "#ff938a"; "#6bc46d"; "#daaa3f"; "#6cb6ff"; "#dcbdfb"; "#56d4dd"; "#cdd9e5"]);
  ("git_hub_dark_high_contrast", scheme "#f0f3f6" "#0a0c10"
     ["#7a828e"; "#ff9492"; "#26cd4d"; "#f0b72f"; "#71b7ff"; "#cb9eff"; "#39c5cf"; "#d9dee3";
      "#9ea7b3"; "#ffb1af"; "#4ae168"; "#f7c843"; "#91cbff"; "#dbb7ff"; "#56d4dd"; "#ffffff"]);
  ("git_hub_light_colorblind", scheme "#24292f" "#ffffff"
     ["#24292f"; "#b35900"; "#0550ae"; "#4d2d00"; "#0969da"; "#8250df"; "#1b7c83"; "#6e7781";
      "#57606a"; "#8a4600"; "#0969da"; "#633c01"; "#218bff"; "#a475f9"; "#3192aa"; "#8c959f"]);
  ("git_hub_light_default", scheme "#1f2328" "#ffffff"
     ["#24292f"; "#cf222e"; "#116329"; "#4d2d00"; "#0969da"; "#8250df"; "#1b7c83"; "#6e7781";
      "#57606a"; "#a40e26"; "#1a7f37"; "#633c01"; "#218bff"; "#a475f9"; "#3192aa"; "#8c959f"]);
  ("git_hub_light_high_contrast", scheme "#0e1116" "#ffffff"
     ["#0e1116"; "#a0111f"; "#024c1a"; "#3f2200"; "#0349b4"; "#622cbc"; "#1b7c83"; "#66707b";
      "#4b535d"; "#86061d"; "#055d20"; "#4e2c00"; "#1168e3"; "#844ae7"; "#3192aa"; "#88929d"]);
  ("git_lab_dark", scheme "#ffffff" "#28262b"
     ["#000000"; "#f57f6c"; "#52b87a"; "#d99530"; "#7fb6ed"; "#f88aaf"; "#32c5d2"; "#ffffff";
      "#666666"; "#fcb5aa"; "#91d4a8"; "#e9be74"; "#498dd1"; "#fcacc5"; "#5edee3"; "#ffffff"]);
  ("git_lab_dark_grey", scheme "#ffffff" "#222222"
     ["#000000"; "#f57f6c"; "#52b87a"; "#d99530"; "#7fb6ed"; "#f88aaf"; "#32c5d2"; "#ffffff";
      "#666666"; "#fcb5aa"; "#91d4a8"; "#e9be74"; "#498dd1"; "#fcacc5"; "#5edee3"; "#ffffff"]);
  ("git_lab_light", scheme "#303030" "#fafaff"
     ["#303030"; "#a31700"; "#0a7f3d"; "#af551d"; "#006cd8"; "#583cac"; "#00798a"; "#303030";
      "#303030"; "#a31700"; "#0a7f3d"; "#af551d"; "#006cd8"; "#583cac"; "#00798a"; "#303030"]);
  ("github", scheme "#3e3e3e" "#f4f4f4"
     ["#3e3e3e"; "#970b16"; "#07962a"; "#f8eec7"; "#003e8a"; "#e94691"; "#89d1ec"; "#ffffff";
      "#666666"; "#de0000"; "#87d5a2"; "#f1d007"; "#2e6cba"; "#ffa29f"; "#1cfafe"; "#ffffff"]);
  ("glacier", scheme "#ffffff" "#0c1115"
     ["#2e343c"; "#bd0f2f"; "#35a770"; "#fb9435"; "#1f5872"; "#bd2523"; "#778397"; "#ffffff";
      "#404a55"; "#bd0f2f"; "#49e998"; "#fddf6e"; "#2a8bc1"; "#ea4727"; "#a0b6d3"; "#ffffff"]);
  ("grape", scheme "#9f9fa1" "#171423"
     ["#2d283f"; "#ed2261"; "#1fa91b"; "#8ddc20"; "#487df4"; "#8d35c9"; "#3bdeed"; "#9e9ea0";
      "#59516a"; "#f0729a"; "#53aa5e"; "#b2dc87"; "#a9bcec"; "#ad81c2"; "#9de3eb"; "#a288f7"]);
  ("grass", scheme "#fff0a5" "#13773d"
     ["#000000"; "#bb0000"; "#00bb00"; "#e7b000"; "#0000a3"; "#950062"; "#00bbbb"; "#bbbbbb";
      "#555555"; "#bb0000"; "#00bb00"; "#e7b000"; "#0000bb"; "#ff55ff"; "#55ffff"; "#ffffff"]);
  ("grey_green", scheme "#ffffff" "#002a1a"
     ["#000000"; "#fe1414"; "#74ff00"; "#f1ff01"; "#00deff"; "#ff00f0"; "#00ffbc"; "#ffffff";
      "#666666"; "#ff3939"; "#00ff44"; "#ffd100"; "#00afff"; "#ff008a"; "#00ffd3"; "#f5ecec"]);
  ("gruber_darker", scheme "#e4e4e4" "#181818"
     ["#181818"; "#f43841"; "#73d936"; "#ffdd33"; "#96a6c8"; "#9e95c7"; "#95a99f"; "#e4e4e4";
      "#52494e"; "#ff4f58"; "#73d936"; "#ffdd33"; "#96a6c8"; "#afafd7"; "#95a99f"; "#f5f5f5"]);
  ("gruvbox_dark", scheme "#ebdbb2" "#282828"
     ["#282828"; "#cc241d"; "#98971a"; "#d79921"; "#458588"; "#b16286"; "#689d6a"; "#a89984";
      "#928374"; "#fb4934"; "#b8bb26"; "#fabd2f"; "#83a598"; "#d3869b"; "#8ec07c"; "#ebdbb2"]);
  ("gruvbox_dark_hard", scheme "#ebdbb2" "#1d2021"
     ["#1d2021"; "#cc241d"; "#98971a"; "#d79921"; "#458588"; "#b16286"; "#689d6a"; "#a89984";
      "#928374"; "#fb4934"; "#b8bb26"; "#fabd2f"; "#83a598"; "#d3869b"; "#8ec07c"; "#ebdbb2"]);
  ("gruvbox_light", scheme "#282828" "#fbf1c7"
     ["#fbf1c7"; "#9d0006"; "#79740e"; "#b57614"; "#076678"; "#8f3f71"; "#427b58"; "#3c3836";
      "#9d8374"; "#cc241d"; "#98971a"; "#d79921"; "#458588"; "#b16186"; "#689d69"; "#7c6f64"]);
  ("gruvbox_light_hard", scheme "#282828" "#f8f4d6"
     ["#f8f4d6"; "#9d0006"; "#79740e"; "#b57614"; "#076678"; "#8f3f71"; "#427b58"; "#3c3836";
      "#9d8374"; "#cc241d"; "#98971a"; "#d79921"; "#458588"; "#b16186"; "#689d69"; "#7c6f64"]);
  ("gruvbox_material", scheme "#d4be98" "#1d2021"
     ["#141617"; "#ea6926"; "#c1d041"; "#eecf75"; "#6da3ec"; "#fd9bc1"; "#fe9d6e"; "#ffffff";
      "#000000"; "#d3573b"; "#c1d041"; "#eecf75"; "#2c86ff"; "#fd9bc1"; "#92a5df"; "#ffffff"]);
  ("guezwhoz", scheme "#d0d0d0" "#1c1c1c"
     ["#080808"; "#ff5f5f"; "#87d7af"; "#d7d787"; "#5fafd7"; "#afafff"; "#5fd7d7"; "#dadada";
      "#8a8a8a"; "#d75f5f"; "#afd7af"; "#d7d7af"; "#87afd7"; "#afafd7"; "#87d7d7"; "#dadada"]);
  ("ha_x0r_blue", scheme "#11b7ff" "#010515"
     ["#010921"; "#10b6ff"; "#10b6ff"; "#10b6ff"; "#10b6ff"; "#10b6ff"; "#10b6ff"; "#fafafa";
      "#080117"; "#00b3f7"; "#00b3f7"; "#00b3f7"; "#00b3f7"; "#00b3f7"; "#00b3f7"; "#fefefe"]);
  ("ha_x0r_gr33n", scheme "#16b10e" "#020f01"
     ["#001f0b"; "#15d00d"; "#15d00d"; "#15d00d"; "#15d00d"; "#15d00d"; "#15d00d"; "#fafafa";
      "#001510"; "#19e20e"; "#19e20e"; "#19e20e"; "#19e20e"; "#19e20e"; "#19e20e"; "#fefefe"]);
  ("ha_x0r_r3d", scheme "#b10e0e" "#200101"
     ["#1f0000"; "#b00d0d"; "#b00d0d"; "#b00d0d"; "#b00d0d"; "#b00d0d"; "#b00d0d"; "#fafafa";
      "#150000"; "#ff1111"; "#ff1010"; "#ff1010"; "#ff1010"; "#ff1010"; "#ff1010"; "#fefefe"]);
  ("hacktober", scheme "#c9c9c9" "#141414"
     ["#191918"; "#b34538"; "#587744"; "#d08949"; "#206ec5"; "#864651"; "#ac9166"; "#f1eee7";
      "#2c2b2a"; "#b33323"; "#42824a"; "#c75a22"; "#5389c5"; "#e795a5"; "#ebc587"; "#ffffff"]);
  ("hardcore", scheme "#a0a0a0" "#121212"
     ["#1b1d1e"; "#f92672"; "#a6e22e"; "#fd971f"; "#66d9ef"; "#9e6ffe"; "#5e7175"; "#ccccc6";
      "#505354"; "#ff669d"; "#beed5f"; "#e6db74"; "#66d9ef"; "#9e6ffe"; "#a3babf"; "#f8f8f2"]);
  ("harper", scheme "#a8a49d" "#010101"
     ["#010101"; "#f8b63f"; "#7fb5e1"; "#d6da25"; "#489e48"; "#b296c6"; "#f5bfd7"; "#a8a49d";
      "#726e6a"; "#f8b63f"; "#7fb5e1"; "#d6da25"; "#489e48"; "#b296c6"; "#f5bfd7"; "#fefbea"]);
  ("havn_daggry", scheme "#3e4a77" "#f8f9fb"
     ["#212840"; "#8f564b"; "#5c705b"; "#b36f00"; "#40567a"; "#775d93"; "#8a5a7e"; "#d7dbea";
      "#212840"; "#bd533e"; "#79957b"; "#f3b550"; "#6988bc"; "#7b7393"; "#a4879c"; "#d7dbea"]);
  ("havn_skumring", scheme "#d7dbea" "#121521"
     ["#262c45"; "#d96048"; "#7cab7f"; "#eeb64e"; "#5d6bef"; "#7a729a"; "#ca8cbe"; "#dde0ed";
      "#212840"; "#c47768"; "#8f9d90"; "#e4c693"; "#5d85c6"; "#967de7"; "#c57eb3"; "#fdf6e3"]);
  ("heeler", scheme "#fdfdfd" "#211f44"
     ["#000000"; "#d3573b"; "#c1d041"; "#eecf75"; "#6da3ec"; "#fd9bc1"; "#fe9d6e"; "#ffffff";
      "#000000"; "#d3573b"; "#c1d041"; "#eecf75"; "#2c86ff"; "#fd9bc1"; "#92a5df"; "#ffffff"]);
  ("highway", scheme "#ededed" "#222225"
     ["#000000"; "#d00e18"; "#138034"; "#ffcb3e"; "#006bb3"; "#6b2775"; "#384564"; "#ededed";
      "#5d504a"; "#f07e18"; "#b1d130"; "#fff120"; "#4fc2fd"; "#de0071"; "#5d504a"; "#ffffff"]);
  ("hipster_green", scheme "#84c138" "#100b05"
     ["#000000"; "#b6214a"; "#00a600"; "#bfbf00"; "#246eb2"; "#b200b2"; "#00a6b2"; "#bfbfbf";
      "#666666"; "#e50000"; "#86a93e"; "#e5e500"; "#0000ff"; "#e500e5"; "#00e5e5"; "#e5e5e5"]);
  ("hivacruz", scheme "#ede4e4" "#132638"
     ["#202746"; "#c94922"; "#ac9739"; "#c08b30"; "#3d8fd1"; "#6679cc"; "#22a2c9"; "#979db4";
      "#6b7394"; "#c76b29"; "#73ad43"; "#5e6687"; "#898ea4"; "#dfe2f1"; "#9c637a"; "#f5f7ff"]);
  ("homebrew", scheme "#00ff00" "#000000"
     ["#000000"; "#990000"; "#00a600"; "#999900"; "#0000b2"; "#b200b2"; "#00a6b2"; "#bfbfbf";
      "#666666"; "#e50000"; "#00d900"; "#e5e500"; "#0000ff"; "#e500e5"; "#00e5e5"; "#e5e5e5"]);
  ("hopscotch", scheme "#b9b5b8" "#322931"
     ["#322931"; "#dd464c"; "#8fc13e"; "#fdcc59"; "#1290bf"; "#c85e7c"; "#149b93"; "#b9b5b8";
      "#797379"; "#fd8b19"; "#433b42"; "#5c545b"; "#989498"; "#d5d3d5"; "#b33508"; "#ffffff"]);
  ("hopscotch256", scheme "#b9b5b8" "#322931"
     ["#322931"; "#dd464c"; "#8fc13e"; "#fdcc59"; "#1290bf"; "#c85e7c"; "#149b93"; "#b9b5b8";
      "#797379"; "#dd464c"; "#8fc13e"; "#fdcc59"; "#1290bf"; "#c85e7c"; "#149b93"; "#ffffff"]);
  ("horizon", scheme "#d5d8da" "#1c1e26"
     ["#000000"; "#e95678"; "#29d398"; "#fab795"; "#26bbd9"; "#ee64ac"; "#59e1e3"; "#e5e5e5";
      "#666666"; "#ec6a88"; "#3fdaa4"; "#fbc3a7"; "#3fc4de"; "#f075b5"; "#6be4e6"; "#e5e5e5"]);
  ("horizon_bright", scheme "#16161c" "#fbf0ee"
     ["#16161c"; "#e95678"; "#29d398"; "#fab795"; "#26bbd9"; "#ee64ae"; "#59e3e3"; "#fdf0ed";
      "#1a1c23"; "#ec6a88"; "#3fdaa4"; "#fbc3a7"; "#3fc6de"; "#f075b7"; "#6be6e6"; "#fff3f0"]);
  ("hurtado", scheme "#dbdbdb" "#000000"
     ["#575757"; "#ff1b00"; "#a5e055"; "#fbe74a"; "#496487"; "#fd5ff1"; "#86e9fe"; "#cbcccb";
      "#262626"; "#d51d00"; "#a5df55"; "#fbe84a"; "#89beff"; "#c001c1"; "#86eafe"; "#dbdbdb"]);
  ("hybrid", scheme "#b7bcba" "#161719"
     ["#2a2e33"; "#b84d51"; "#b3bf5a"; "#e4b55e"; "#6e90b0"; "#a17eac"; "#7fbfb4"; "#b5b9b6";
      "#1d1f22"; "#8d2e32"; "#798431"; "#e58a50"; "#4b6b88"; "#6e5079"; "#4d7b74"; "#5a626a"]);
  ("i_term2_dark_background", scheme "#c7c7c7" "#000000"
     ["#000000"; "#c91b00"; "#00c200"; "#c7c400"; "#0225c7"; "#ca30c7"; "#00c5c7"; "#c7c7c7";
      "#686868"; "#ff6e67"; "#5ffa68"; "#fffc67"; "#6871ff"; "#ff77ff"; "#60fdff"; "#ffffff"]);
  ("i_term2_default", scheme "#ffffff" "#000000"
     ["#000000"; "#c91b00"; "#00c200"; "#c7c400"; "#2225c4"; "#ca30c7"; "#00c5c7"; "#ffffff";
      "#686868"; "#ff6e67"; "#5ffa68"; "#fffc67"; "#6871ff"; "#ff77ff"; "#60fdff"; "#ffffff"]);
  ("i_term2_light_background", scheme "#000000" "#ffffff"
     ["#000000"; "#c91b00"; "#00c200"; "#c7c400"; "#0225c7"; "#ca30c7"; "#00c5c7"; "#c7c7c7";
      "#686868"; "#ff6e67"; "#5ffa68"; "#fffc67"; "#6871ff"; "#ff77ff"; "#60fdff"; "#ffffff"]);
  ("i_term2_pastel_dark_background", scheme "#c7c7c7" "#000000"
     ["#626262"; "#ff8373"; "#b4fb73"; "#fffdc3"; "#a5d5fe"; "#ff90fe"; "#d1d1fe"; "#f1f1f1";
      "#8f8f8f"; "#ffc4be"; "#d6fcba"; "#fffed5"; "#c2e3ff"; "#ffb2fe"; "#e6e6fe"; "#ffffff"]);
  ("i_term2_smoooooth", scheme "#dcdcdc" "#15191f"
     ["#14191e"; "#b43c2a"; "#00c200"; "#c7c400"; "#2744c7"; "#c040be"; "#00c5c7"; "#c7c7c7";
      "#686868"; "#dd7975"; "#58e790"; "#ece100"; "#a7abf2"; "#e17ee1"; "#60fdff"; "#ffffff"]);
  ("i_term2_solarized_dark", scheme "#839496" "#002b36"
     ["#073642"; "#dc322f"; "#859900"; "#b58900"; "#268bd2"; "#d33682"; "#2aa198"; "#eee8d5";
      "#002b36"; "#cb4b16"; "#586e75"; "#657b83"; "#839496"; "#6c71c4"; "#93a1a1"; "#fdf6e3"]);
  ("i_term2_solarized_light", scheme "#657b83" "#fdf6e3"
     ["#073642"; "#dc322f"; "#859900"; "#b58900"; "#268bd2"; "#d33682"; "#2aa198"; "#eee8d5";
      "#002b36"; "#cb4b16"; "#586e75"; "#657b83"; "#839496"; "#6c71c4"; "#93a1a1"; "#fdf6e3"]);
  ("i_term2_tango_dark", scheme "#ffffff" "#000000"
     ["#000000"; "#d81e00"; "#5ea702"; "#cfae00"; "#427ab3"; "#89658e"; "#00a7aa"; "#dbded8";
      "#686a66"; "#f54235"; "#99e343"; "#fdeb61"; "#84b0d8"; "#bc94b7"; "#37e6e8"; "#f1f1f0"]);
  ("i_term2_tango_light", scheme "#000000" "#ffffff"
     ["#000000"; "#d81e00"; "#5ea702"; "#cfae00"; "#427ab3"; "#89658e"; "#00a7aa"; "#dbded8";
      "#686a66"; "#f54235"; "#99e343"; "#fdeb61"; "#84b0d8"; "#bc94b7"; "#37e6e8"; "#f1f1f0"]);
  ("ic_green_ppl", scheme "#e0f1dc" "#2c2c2c"
     ["#014401"; "#ff2736"; "#41a638"; "#76a831"; "#2ec3b9"; "#50a096"; "#3ca078"; "#e6fef2";
      "#035c03"; "#b4fa5c"; "#aefb86"; "#dafa87"; "#2efaeb"; "#50fafa"; "#3cfac8"; "#e0f1dc"]);
  ("ic_orange_ppl", scheme "#ffcb83" "#262626"
     ["#000000"; "#c13900"; "#a4a900"; "#caaf00"; "#bd6d00"; "#fc5e00"; "#f79500"; "#ffc88a";
      "#6a4f2a"; "#ff8c68"; "#f6ff40"; "#ffe36e"; "#ffbe55"; "#fc874f"; "#c69752"; "#fafaff"]);
  ("iceberg_dark", scheme "#c6c8d1" "#161821"
     ["#1e2132"; "#e27878"; "#b4be82"; "#e2a478"; "#84a0c6"; "#a093c7"; "#89b8c2"; "#c6c8d1";
      "#6b7089"; "#e98989"; "#c0ca8e"; "#e9b189"; "#91acd1"; "#ada0d3"; "#95c4ce"; "#d2d4de"]);
  ("iceberg_light", scheme "#33374c" "#e8e9ec"
     ["#dcdfe7"; "#cc517a"; "#668e3d"; "#c57339"; "#2d539e"; "#7759b4"; "#3f83a6"; "#33374c";
      "#8389a3"; "#cc3768"; "#598030"; "#b6662d"; "#22478e"; "#6845ad"; "#327698"; "#262a3f"]);
  ("idea", scheme "#adadad" "#202020"
     ["#adadad"; "#fc5256"; "#98b61c"; "#ccb444"; "#437ee7"; "#9d74b0"; "#248887"; "#181818";
      "#ffffff"; "#fc7072"; "#98b61c"; "#ffff0b"; "#6c9ced"; "#fc7eff"; "#248887"; "#181818"]);
  ("idle_toes", scheme "#ffffff" "#323232"
     ["#323232"; "#d25252"; "#7fe173"; "#ffc66d"; "#4099ff"; "#f680ff"; "#bed6ff"; "#eeeeec";
      "#535353"; "#f07070"; "#9dff91"; "#ffe48b"; "#5eb7f7"; "#ff9dff"; "#dcf4ff"; "#ffffff"]);
  ("ir_black", scheme "#f1f1f1" "#000000"
     ["#4f4f4f"; "#fa6c60"; "#a8ff60"; "#fffeb7"; "#96cafe"; "#fa73fd"; "#c6c5fe"; "#efedef";
      "#7b7b7b"; "#fcb6b0"; "#cfffab"; "#ffffcc"; "#b5dcff"; "#fb9cfe"; "#e0e0fe"; "#ffffff"]);
  ("jackie_brown", scheme "#ffcc2f" "#2c1d16"
     ["#2c1d16"; "#ef5734"; "#2baf2b"; "#bebf00"; "#246eb2"; "#d05ec1"; "#00acee"; "#bfbfbf";
      "#666666"; "#e50000"; "#86a93e"; "#e5e500"; "#0000ff"; "#e500e5"; "#00e5e5"; "#e5e5e5"]);
  ("japanesque", scheme "#f7f6ec" "#1e1e1e"
     ["#343935"; "#cf3f61"; "#7bb75b"; "#e9b32a"; "#4c9ad4"; "#a57fc4"; "#389aad"; "#fafaf6";
      "#595b59"; "#d18fa6"; "#767f2c"; "#78592f"; "#135979"; "#604291"; "#76bbca"; "#b2b5ae"]);
  ("jellybeans", scheme "#dedede" "#121212"
     ["#929292"; "#e27373"; "#94b979"; "#ffba7b"; "#97bedc"; "#e1c0fa"; "#00988e"; "#dedede";
      "#bdbdbd"; "#ffa1a1"; "#bddeab"; "#ffdca0"; "#b1d8f6"; "#fbdaff"; "#1ab2a8"; "#ffffff"]);
  ("jet_brains_darcula", scheme "#adadad" "#202020"
     ["#000000"; "#fa5355"; "#126e00"; "#c2c300"; "#4581eb"; "#fa54ff"; "#33c2c1"; "#adadad";
      "#555555"; "#fb7172"; "#67ff4f"; "#ffff00"; "#6d9df1"; "#fb82ff"; "#60d3d1"; "#eeeeee"]);
  ("jubi", scheme "#c3d3de" "#262b33"
     ["#3b3750"; "#cf7b98"; "#90a94b"; "#6ebfc0"; "#576ea6"; "#bc4f68"; "#75a7d2"; "#c3d3de";
      "#a874ce"; "#de90ab"; "#bcdd61"; "#87e9ea"; "#8c9fcd"; "#e16c87"; "#b7c9ef"; "#d5e5f1"]);
  ("kanagawa_dragon", scheme "#c8c093" "#181616"
     ["#0d0c0c"; "#c4746e"; "#8a9a7b"; "#c4b28a"; "#8ba4b0"; "#a292a3"; "#8ea4a2"; "#c8c093";
      "#a6a69c"; "#e46876"; "#87a987"; "#e6c384"; "#7fb4ca"; "#938aa9"; "#7aa89f"; "#c5c9c5"]);
  ("kanagawa_wave", scheme "#dcd7ba" "#1f1f28"
     ["#090618"; "#c34043"; "#76946a"; "#c0a36e"; "#7e9cd8"; "#957fb8"; "#6a9589"; "#c8c093";
      "#727169"; "#e82424"; "#98bb6c"; "#e6c384"; "#7fb4ca"; "#938aa9"; "#7aa89f"; "#dcd7ba"]);
  ("kanagawabones", scheme "#ddd8bb" "#1f1f28"
     ["#1f1f28"; "#e46a78"; "#98bc6d"; "#e5c283"; "#7eb3c9"; "#957fb8"; "#7eb3c9"; "#ddd8bb";
      "#3c3c51"; "#ec818c"; "#9ec967"; "#f1c982"; "#7bc2df"; "#a98fd2"; "#7bc2df"; "#a8a48d"]);
  ("kibble", scheme "#f7f7f7" "#0e100a"
     ["#4d4d4d"; "#c70031"; "#29cf13"; "#d8e30e"; "#3449d1"; "#8400ff"; "#0798ab"; "#e2d1e3";
      "#5a5a5a"; "#f01578"; "#6ce05c"; "#f3f79e"; "#97a4f7"; "#c495f0"; "#68f2e0"; "#ffffff"]);
  ("kolorit", scheme "#efecec" "#1d1a1e"
     ["#1d1a1e"; "#ff5b82"; "#47d7a1"; "#e8e562"; "#5db4ee"; "#da6cda"; "#57e9eb"; "#ededed";
      "#1d1a1e"; "#ff5b82"; "#47d7a1"; "#e8e562"; "#5db4ee"; "#da6cda"; "#57e9eb"; "#ededed"]);
  ("konsolas", scheme "#c8c1c1" "#060606"
     ["#000000"; "#aa1717"; "#18b218"; "#ebae1f"; "#2323a5"; "#ad1edc"; "#42b0c8"; "#c8c1c1";
      "#7b716e"; "#ff4141"; "#5fff5f"; "#ffff55"; "#4b4bff"; "#ff54ff"; "#69ffff"; "#ffffff"]);
  ("kurokula", scheme "#ddd0c4" "#141515"
     ["#333333"; "#b66056"; "#85b1a9"; "#dbbb43"; "#6890d7"; "#887aa3"; "#837369"; "#ddd0c4";
      "#515151"; "#ffc663"; "#c1ffae"; "#fff700"; "#a1d9ff"; "#a994ff"; "#f9cfb9"; "#ffffff"]);
  ("lab_fox", scheme "#ffffff" "#2e2e2e"
     ["#2e2e2e"; "#fc6d26"; "#3eb383"; "#fca121"; "#db3b21"; "#380d75"; "#6e49cb"; "#ffffff";
      "#464646"; "#ff6517"; "#53eaa8"; "#fca013"; "#db501f"; "#441090"; "#7d53e7"; "#ffffff"]);
  ("laser", scheme "#f106e3" "#030d18"
     ["#626262"; "#ff8373"; "#b4fb73"; "#09b4bd"; "#fed300"; "#ff90fe"; "#d1d1fe"; "#f1f1f1";
      "#8f8f8f"; "#ffc4be"; "#d6fcba"; "#fffed5"; "#f92883"; "#ffb2fe"; "#e6e7fe"; "#ffffff"]);
  ("later_this_evening", scheme "#959595" "#222222"
     ["#2b2b2b"; "#d45a60"; "#afba67"; "#e5d289"; "#a0bad6"; "#c092d6"; "#91bfb7"; "#3c3d3d";
      "#454747"; "#d3232f"; "#aabb39"; "#e5be39"; "#6699d6"; "#ab53d6"; "#5fc0ae"; "#c1c2c2"]);
  ("lavandula", scheme "#736e7d" "#050014"
     ["#230046"; "#7d1625"; "#337e6f"; "#7f6f49"; "#4f4a7f"; "#5a3f7f"; "#58777f"; "#736e7d";
      "#372d46"; "#e05167"; "#52e0c4"; "#e0c386"; "#8e87e0"; "#a776e0"; "#9ad4e0"; "#8c91fa"]);
  ("liquid_carbon", scheme "#afc2c2" "#303030"
     ["#000000"; "#ff3030"; "#559a70"; "#ccac00"; "#0099cc"; "#cc69c8"; "#7ac4cc"; "#bccccc";
      "#000000"; "#ff3030"; "#559a70"; "#ccac00"; "#0099cc"; "#cc69c8"; "#7ac4cc"; "#bccccc"]);
  ("liquid_carbon_transparent", scheme "#afc2c2" "#000000"
     ["#000000"; "#ff3030"; "#559a70"; "#ccac00"; "#0099cc"; "#cc69c8"; "#7ac4cc"; "#bccccc";
      "#000000"; "#ff3030"; "#559a70"; "#ccac00"; "#0099cc"; "#cc69c8"; "#7ac4cc"; "#bccccc"]);
  ("liquid_carbon_transparent_inverse", scheme "#afc2c2" "#000000"
     ["#bccccd"; "#ff3030"; "#559a70"; "#ccac00"; "#0099cc"; "#cc69c8"; "#7ac4cc"; "#000000";
      "#ffffff"; "#ff3030"; "#559a70"; "#ccac00"; "#0099cc"; "#cc69c8"; "#7ac4cc"; "#000000"]);
  ("lovelace", scheme "#fdfdfd" "#1d1f28"
     ["#282a36"; "#f37f97"; "#5adecd"; "#f2a272"; "#8897f4"; "#c574dd"; "#79e6f3"; "#fdfdfd";
      "#414458"; "#ff4971"; "#18e3c8"; "#ff8037"; "#556fff"; "#b043d1"; "#3fdcee"; "#bebec1"]);
  ("man_page", scheme "#000000" "#fef49c"
     ["#000000"; "#cc0000"; "#00a600"; "#999900"; "#0000b2"; "#b200b2"; "#00a6b2"; "#cccccc";
      "#666666"; "#e50000"; "#00d900"; "#e5e500"; "#0000ff"; "#e500e5"; "#00e5e5"; "#e5e5e5"]);
  ("mariana", scheme "#d8dee9" "#343d46"
     ["#000000"; "#ec5f66"; "#99c794"; "#f9ae58"; "#6699cc"; "#c695c6"; "#5fb4b4"; "#f7f7f7";
      "#333333"; "#f97b58"; "#acd1a8"; "#fac761"; "#85add6"; "#d8b6d8"; "#82c4c4"; "#ffffff"]);
  ("material", scheme "#232322" "#eaeaea"
     ["#212121"; "#b7141f"; "#457b24"; "#f6981e"; "#134eb2"; "#560088"; "#0e717c"; "#efefef";
      "#424242"; "#e83b3f"; "#7aba3a"; "#ffea2e"; "#54a4f3"; "#aa4dbc"; "#26bbd1"; "#d9d9d9"]);
  ("material_dark", scheme "#e5e5e5" "#232322"
     ["#212121"; "#b7141f"; "#457b24"; "#f6981e"; "#134eb2"; "#560088"; "#0e717c"; "#efefef";
      "#424242"; "#e83b3f"; "#7aba3a"; "#ffea2e"; "#54a4f3"; "#aa4dbc"; "#26bbd1"; "#d9d9d9"]);
  ("material_darker", scheme "#eeffff" "#212121"
     ["#000000"; "#ff5370"; "#c3e88d"; "#ffcb6b"; "#82aaff"; "#c792ea"; "#89ddff"; "#ffffff";
      "#545454"; "#ff5370"; "#c3e88d"; "#ffcb6b"; "#82aaff"; "#c792ea"; "#89ddff"; "#ffffff"]);
  ("material_design_colors", scheme "#e7ebed" "#1d262a"
     ["#435b67"; "#fc3841"; "#5cf19e"; "#fed032"; "#37b6ff"; "#fc226e"; "#59ffd1"; "#ffffff";
      "#a1b0b8"; "#fc746d"; "#adf7be"; "#fee16c"; "#70cfff"; "#fc669b"; "#9affe6"; "#ffffff"]);
  ("material_ocean", scheme "#8f93a2" "#0f111a"
     ["#546e7a"; "#ff5370"; "#c3e88d"; "#ffcb6b"; "#82aaff"; "#c792ea"; "#89ddff"; "#ffffff";
      "#546e7a"; "#ff5370"; "#c3e88d"; "#ffcb6b"; "#82aaff"; "#c792ea"; "#89ddff"; "#ffffff"]);
  ("mathias", scheme "#bbbbbb" "#000000"
     ["#000000"; "#e52222"; "#a6e32d"; "#fc951e"; "#c48dff"; "#fa2573"; "#67d9f0"; "#f2f2f2";
      "#555555"; "#ff5555"; "#55ff55"; "#ffff55"; "#5555ff"; "#ff55ff"; "#55ffff"; "#ffffff"]);
  ("matrix", scheme "#426644" "#0f191c"
     ["#0f191c"; "#23755a"; "#82d967"; "#ffd700"; "#3f5242"; "#409931"; "#50b45a"; "#507350";
      "#688060"; "#2fc079"; "#90d762"; "#faff00"; "#4f7e7e"; "#11ff25"; "#c1ff8a"; "#678c61"]);
  ("medallion", scheme "#cac296" "#1d1908"
     ["#000000"; "#b64c00"; "#7c8b16"; "#d3bd26"; "#616bb0"; "#8c5a90"; "#916c25"; "#cac29a";
      "#5e5219"; "#ff9149"; "#b2ca3b"; "#ffe54a"; "#acb8ff"; "#ffa0ff"; "#ffbc51"; "#fed698"]);
  ("melange_dark", scheme "#ece1d7" "#292522"
     ["#34302c"; "#bd8183"; "#78997a"; "#e49b5d"; "#7f91b2"; "#b380b0"; "#7b9695"; "#c1a78e";
      "#867462"; "#d47766"; "#85b695"; "#ebc06d"; "#a3a9ce"; "#cf9bc2"; "#89b3b6"; "#ece1d7"]);
  ("melange_light", scheme "#54433a" "#f1f1f1"
     ["#e9e1db"; "#c77b8b"; "#6e9b72"; "#bc5c00"; "#7892bd"; "#be79bb"; "#739797"; "#7d6658";
      "#a98a78"; "#bf0021"; "#3a684a"; "#a06d00"; "#465aa4"; "#904180"; "#3d6568"; "#54433a"]);
  ("mellifluous", scheme "#dadada" "#1a1a1a"
     ["#1a1a1a"; "#d29393"; "#b3b393"; "#cbaa89"; "#a8a1be"; "#b39fb0"; "#c0af8c"; "#dadada";
      "#5b5b5b"; "#c95954"; "#828040"; "#a6794c"; "#5a6599"; "#9c6995"; "#74a39e"; "#ffffff"]);
  ("mellow", scheme "#c9c7cd" "#161617"
     ["#27272a"; "#f5a191"; "#90b99f"; "#e6b99d"; "#aca1cf"; "#e29eca"; "#ea83a5"; "#c1c0d4";
      "#353539"; "#ffae9f"; "#9dc6ac"; "#f0c5a9"; "#b9aeda"; "#ecaad6"; "#f591b2"; "#cac9dd"]);
  ("miasma", scheme "#c2c2b0" "#222222"
     ["#000000"; "#685742"; "#5f875f"; "#b36d43"; "#78824b"; "#bb7744"; "#c9a554"; "#d7c483";
      "#666666"; "#685742"; "#5f875f"; "#b36d43"; "#78824b"; "#bb7744"; "#c9a554"; "#d7c483"]);
  ("midnight_in_mojave", scheme "#ffffff" "#1e1e1e"
     ["#1e1e1e"; "#ff453a"; "#32d74b"; "#ffd60a"; "#0a84ff"; "#bf5af2"; "#5ac8fa"; "#ffffff";
      "#1e1e1e"; "#ff453a"; "#32d74b"; "#ffd60a"; "#0a84ff"; "#bf5af2"; "#5ac8fa"; "#ffffff"]);
  ("mirage", scheme "#a6b2c0" "#1b2738"
     ["#011627"; "#ff9999"; "#85cc95"; "#ffd700"; "#7fb5ff"; "#ddb3ff"; "#21c7a8"; "#ffffff";
      "#575656"; "#ff9999"; "#85cc95"; "#ffd700"; "#7fb5ff"; "#ddb3ff"; "#85cc95"; "#ffffff"]);
  ("misterioso", scheme "#e1e1e0" "#2d3743"
     ["#000000"; "#ff4242"; "#74af68"; "#ffad29"; "#338f86"; "#9414e6"; "#23d7d7"; "#e1e1e0";
      "#555555"; "#ff3242"; "#74cd68"; "#ffb929"; "#23d7d7"; "#ff37ff"; "#00ede1"; "#ffffff"]);
  ("molokai", scheme "#bbbbbb" "#121212"
     ["#121212"; "#fa2573"; "#98e123"; "#dfd460"; "#1080d0"; "#8700ff"; "#43a8d0"; "#bbbbbb";
      "#555555"; "#f6669d"; "#b1e05f"; "#fff26d"; "#00afff"; "#af87ff"; "#51ceff"; "#ffffff"]);
  ("mona_lisa", scheme "#f7d66a" "#120b0d"
     ["#351b0e"; "#9b291c"; "#636232"; "#c36e28"; "#515c5d"; "#9b1d29"; "#588056"; "#f7d75c";
      "#874228"; "#ff4331"; "#b4b264"; "#ff9566"; "#9eb2b4"; "#ff5b6a"; "#8acd8f"; "#ffe598"]);
  ("monokai_classic", scheme "#fdfff1" "#272822"
     ["#272822"; "#f92672"; "#a6e22e"; "#e6db74"; "#fd971f"; "#ae81ff"; "#66d9ef"; "#fdfff1";
      "#6e7066"; "#f92672"; "#a6e22e"; "#e6db74"; "#fd971f"; "#ae81ff"; "#66d9ef"; "#fdfff1"]);
  ("monokai_pro", scheme "#fcfcfa" "#2d2a2e"
     ["#2d2a2e"; "#ff6188"; "#a9dc76"; "#ffd866"; "#fc9867"; "#ab9df2"; "#78dce8"; "#fcfcfa";
      "#727072"; "#ff6188"; "#a9dc76"; "#ffd866"; "#fc9867"; "#ab9df2"; "#78dce8"; "#fcfcfa"]);
  ("monokai_pro_light", scheme "#29242a" "#faf4f2"
     ["#faf4f2"; "#e14775"; "#269d69"; "#cc7a0a"; "#e16032"; "#7058be"; "#1c8ca8"; "#29242a";
      "#a59fa0"; "#e14775"; "#269d69"; "#cc7a0a"; "#e16032"; "#7058be"; "#1c8ca8"; "#29242a"]);
  ("monokai_pro_light_sun", scheme "#2c232e" "#f8efe7"
     ["#f8efe7"; "#ce4770"; "#218871"; "#b16803"; "#d4572b"; "#6851a2"; "#2473b6"; "#2c232e";
      "#a59c9c"; "#ce4770"; "#218871"; "#b16803"; "#d4572b"; "#6851a2"; "#2473b6"; "#2c232e"]);
  ("monokai_pro_machine", scheme "#f2fffc" "#273136"
     ["#273136"; "#ff6d7e"; "#a2e57b"; "#ffed72"; "#ffb270"; "#baa0f8"; "#7cd5f1"; "#f2fffc";
      "#6b7678"; "#ff6d7e"; "#a2e57b"; "#ffed72"; "#ffb270"; "#baa0f8"; "#7cd5f1"; "#f2fffc"]);
  ("monokai_pro_octagon", scheme "#eaf2f1" "#282a3a"
     ["#282a3a"; "#ff657a"; "#bad761"; "#ffd76d"; "#ff9b5e"; "#c39ac9"; "#9cd1bb"; "#eaf2f1";
      "#696d77"; "#ff657a"; "#bad761"; "#ffd76d"; "#ff9b5e"; "#c39ac9"; "#9cd1bb"; "#eaf2f1"]);
  ("monokai_pro_ristretto", scheme "#fff1f3" "#2c2525"
     ["#2c2525"; "#fd6883"; "#adda78"; "#f9cc6c"; "#f38d70"; "#a8a9eb"; "#85dacc"; "#fff1f3";
      "#72696a"; "#fd6883"; "#adda78"; "#f9cc6c"; "#f38d70"; "#a8a9eb"; "#85dacc"; "#fff1f3"]);
  ("monokai_pro_spectrum", scheme "#f7f1ff" "#222222"
     ["#222222"; "#fc618d"; "#7bd88f"; "#fce566"; "#fd9353"; "#948ae3"; "#5ad4e6"; "#f7f1ff";
      "#69676c"; "#fc618d"; "#7bd88f"; "#fce566"; "#fd9353"; "#948ae3"; "#5ad4e6"; "#f7f1ff"]);
  ("monokai_remastered", scheme "#d9d9d9" "#0c0c0c"
     ["#1a1a1a"; "#f4005f"; "#98e024"; "#fd971f"; "#9d65ff"; "#f4005f"; "#58d1eb"; "#c4c5b5";
      "#625e4c"; "#f4005f"; "#98e024"; "#e0d561"; "#9d65ff"; "#f4005f"; "#58d1eb"; "#f6f6ef"]);
  ("monokai_soda", scheme "#c4c5b5" "#1a1a1a"
     ["#1a1a1a"; "#f4005f"; "#98e024"; "#fa8419"; "#9d65ff"; "#f4005f"; "#58d1eb"; "#c4c5b5";
      "#625e4c"; "#f4005f"; "#98e024"; "#e0d561"; "#9d65ff"; "#f4005f"; "#58d1eb"; "#f6f6ef"]);
  ("monokai_vivid", scheme "#f9f9f9" "#121212"
     ["#121212"; "#fa2934"; "#98e123"; "#fff30a"; "#0443ff"; "#f800f8"; "#01b6ed"; "#ffffff";
      "#838383"; "#f6669d"; "#b1e05f"; "#fff26d"; "#0443ff"; "#f200f6"; "#51ceff"; "#ffffff"]);
  ("n0tch2k", scheme "#a0a0a0" "#222222"
     ["#383838"; "#a95551"; "#666666"; "#a98051"; "#657d3e"; "#767676"; "#c9c9c9"; "#d0b8a3";
      "#474747"; "#a97775"; "#8c8c8c"; "#a99175"; "#98bd5e"; "#a3a3a3"; "#dcdcdc"; "#d8c8bb"]);
  ("neobones_dark", scheme "#c6d5cf" "#0f191f"
     ["#0f191f"; "#de6e7c"; "#90ff6b"; "#b77e64"; "#8190d4"; "#b279a7"; "#66a5ad"; "#c6d5cf";
      "#263945"; "#e8838f"; "#a0ff85"; "#d68c67"; "#92a0e2"; "#cf86c1"; "#65b8c1"; "#98a39e"]);
  ("neobones_light", scheme "#202e18" "#e5ede6"
     ["#e5ede6"; "#a8334c"; "#567a30"; "#944927"; "#286486"; "#88507d"; "#3b8992"; "#202e18";
      "#b3c6b6"; "#94253e"; "#3f5a22"; "#803d1c"; "#1d5573"; "#7b3b70"; "#2b747c"; "#415934"]);
  ("neon", scheme "#00fffc" "#14161a"
     ["#000000"; "#ff3045"; "#5ffa74"; "#fffc7e"; "#0208cb"; "#f924e7"; "#00fffc"; "#c7c7c7";
      "#686868"; "#ff5a5a"; "#75ff88"; "#fffd96"; "#3c40cb"; "#f15be5"; "#88fffe"; "#ffffff"]);
  ("neopolitan", scheme "#ffffff" "#271f19"
     ["#000000"; "#800000"; "#61ce3c"; "#fbde2d"; "#253b76"; "#ff0080"; "#8da6ce"; "#f8f8f8";
      "#000000"; "#800000"; "#61ce3c"; "#fbde2d"; "#253b76"; "#ff0080"; "#8da6ce"; "#f8f8f8"]);
  ("neutron", scheme "#e6e8ef" "#1c1e22"
     ["#23252b"; "#b54036"; "#5ab977"; "#deb566"; "#6a7c93"; "#a4799d"; "#3f94a8"; "#e6e8ef";
      "#23252b"; "#b54036"; "#5ab977"; "#deb566"; "#6a7c93"; "#a4799d"; "#3f94a8"; "#ebedf2"]);
  ("night_lion_v1", scheme "#bbbbbb" "#000000"
     ["#4c4c4c"; "#bb0000"; "#5fde8f"; "#f3f167"; "#276bd8"; "#bb00bb"; "#00dadf"; "#bbbbbb";
      "#555555"; "#ff5555"; "#55ff55"; "#ffff55"; "#5555ff"; "#ff55ff"; "#55ffff"; "#ffffff"]);
  ("night_lion_v2", scheme "#bbbbbb" "#171717"
     ["#4c4c4c"; "#bb0000"; "#04f623"; "#f3f167"; "#64d0f0"; "#ce6fdb"; "#00dadf"; "#bbbbbb";
      "#555555"; "#ff5555"; "#7df71d"; "#ffff55"; "#62cbe8"; "#ff9bf5"; "#00ccd8"; "#ffffff"]);
  ("night_owlish_light", scheme "#403f53" "#ffffff"
     ["#011627"; "#d3423e"; "#2aa298"; "#daaa01"; "#4876d6"; "#403f53"; "#08916a"; "#7a8181";
      "#7a8181"; "#f76e6e"; "#49d0c5"; "#dac26b"; "#5ca7e4"; "#697098"; "#00c990"; "#989fb1"]);
  ("nightfox", scheme "#cdcecf" "#192330"
     ["#393b44"; "#c94f6d"; "#81b29a"; "#dbc074"; "#719cd6"; "#9d79d6"; "#63cdcf"; "#dfdfe0";
      "#575860"; "#d16983"; "#8ebaa4"; "#e0c989"; "#86abdc"; "#baa1e2"; "#7ad5d6"; "#e4e4e5"]);
  ("niji", scheme "#ffffff" "#141515"
     ["#333333"; "#d23e08"; "#54ca74"; "#fff700"; "#2ab9ff"; "#ff50da"; "#1ef9f5"; "#ddd0c4";
      "#515151"; "#ffb7b7"; "#c1ffae"; "#fcffb8"; "#8efff3"; "#ffa2ed"; "#bcffc7"; "#ffffff"]);
  ("nocturnal_winter", scheme "#e6e5e5" "#0d0d17"
     ["#4d4d4d"; "#f12d52"; "#09cd7e"; "#f5f17a"; "#3182e0"; "#ff2b6d"; "#09c87a"; "#fcfcfc";
      "#808080"; "#f16d86"; "#0ae78d"; "#fffc67"; "#6096ff"; "#ff78a2"; "#0ae78d"; "#ffffff"]);
  ("nord", scheme "#d8dee9" "#2e3440"
     ["#3b4252"; "#bf616a"; "#a3be8c"; "#ebcb8b"; "#81a1c1"; "#b48ead"; "#88c0d0"; "#e5e9f0";
      "#4c566a"; "#bf616a"; "#a3be8c"; "#ebcb8b"; "#81a1c1"; "#b48ead"; "#8fbcbb"; "#eceff4"]);
  ("nord_light", scheme "#414858" "#e5e9f0"
     ["#3b4252"; "#bf616a"; "#a3be8c"; "#ebcb8b"; "#81a1c1"; "#b48ead"; "#88c0d0"; "#d8dee9";
      "#4c566a"; "#bf616a"; "#a3be8c"; "#ebcb8b"; "#81a1c1"; "#b48ead"; "#8fbcbb"; "#eceff4"]);
  ("nord_wave", scheme "#d8dee9" "#212121"
     ["#3b4252"; "#bf616a"; "#a3be8c"; "#ebcb8b"; "#81a1c1"; "#b48ead"; "#88c0d0"; "#e5e9f0";
      "#4c566a"; "#bf616a"; "#a3be8c"; "#ebcb8b"; "#81a1c1"; "#b48ead"; "#8fbcbb"; "#eceff4"]);
  ("novel", scheme "#3b2322" "#dfdbc3"
     ["#000000"; "#cc0000"; "#009600"; "#d06b00"; "#0000cc"; "#cc00cc"; "#0087cc"; "#cccccc";
      "#808080"; "#cc0000"; "#009600"; "#d06b00"; "#0000cc"; "#cc00cc"; "#0087cc"; "#ffffff"]);
  ("nvim_dark", scheme "#e0e2ea" "#14161b"
     ["#07080d"; "#ffc0b9"; "#b3f6c0"; "#fce094"; "#a6dbff"; "#ffcaff"; "#8cf8f7"; "#eef1f8";
      "#4f5258"; "#ffc0b9"; "#b3f6c0"; "#fce094"; "#a6dbff"; "#ffcaff"; "#8cf8f7"; "#eef1f8"]);
  ("nvim_light", scheme "#14161b" "#e0e2ea"
     ["#07080d"; "#590008"; "#005523"; "#6b5300"; "#004c73"; "#470045"; "#007373"; "#eef1f8";
      "#4f5258"; "#590008"; "#005523"; "#6b5300"; "#004c73"; "#470045"; "#007373"; "#eef1f8"]);
  ("obsidian", scheme "#cdcdcd" "#283033"
     ["#000000"; "#a60001"; "#00bb00"; "#fecd22"; "#3a9bdb"; "#bb00bb"; "#00bbbb"; "#bbbbbb";
      "#555555"; "#ff0003"; "#93c863"; "#fef874"; "#a1d7ff"; "#ff55ff"; "#55ffff"; "#ffffff"]);
  ("ocean", scheme "#ffffff" "#224fbc"
     ["#000000"; "#990000"; "#00a600"; "#999900"; "#0000b2"; "#b200b2"; "#00a6b2"; "#bfbfbf";
      "#666666"; "#e50000"; "#00d900"; "#e5e500"; "#0000ff"; "#e500e5"; "#00e5e5"; "#e5e5e5"]);
  ("oceanic_material", scheme "#c2c8d7" "#1c262b"
     ["#000000"; "#ee2b2a"; "#40a33f"; "#ffea2e"; "#1e80f0"; "#8800a0"; "#16afca"; "#a4a4a4";
      "#777777"; "#dc5c60"; "#70be71"; "#fff163"; "#54a4f3"; "#aa4dbc"; "#42c7da"; "#ffffff"]);
  ("oceanic_next", scheme "#c1c5cd" "#1b2b34"
     ["#1b2b34"; "#db686b"; "#a2c699"; "#f2ca73"; "#7198c8"; "#bd96c2"; "#74b1b2"; "#ffffff";
      "#68737d"; "#db686b"; "#a2c699"; "#f2ca73"; "#7198c8"; "#bd96c2"; "#74b1b2"; "#ffffff"]);
  ("ollie", scheme "#8a8dae" "#222125"
     ["#000000"; "#ac2e31"; "#31ac61"; "#ac4300"; "#2d57ac"; "#b08528"; "#1fa6ac"; "#8a8eac";
      "#5b3725"; "#ff3d48"; "#3bff99"; "#ff5e1e"; "#4488ff"; "#ffc21d"; "#1ffaff"; "#5b6ea7"]);
  ("one_half_dark", scheme "#dcdfe4" "#282c34"
     ["#282c34"; "#e06c75"; "#98c379"; "#e5c07b"; "#61afef"; "#c678dd"; "#56b6c2"; "#dcdfe4";
      "#282c34"; "#e06c75"; "#98c379"; "#e5c07b"; "#61afef"; "#c678dd"; "#56b6c2"; "#dcdfe4"]);
  ("one_half_light", scheme "#383a42" "#fafafa"
     ["#383a42"; "#e45649"; "#50a14f"; "#c18401"; "#0184bc"; "#a626a4"; "#0997b3"; "#fafafa";
      "#4f525e"; "#e06c75"; "#98c379"; "#e5c07b"; "#61afef"; "#c678dd"; "#56b6c2"; "#ffffff"]);
  ("operator_mono_dark", scheme "#c3cac2" "#191919"
     ["#5a5a5a"; "#ca372d"; "#4d7b3a"; "#d4d697"; "#4387cf"; "#b86cb4"; "#72d5c6"; "#ced4cd";
      "#9a9b99"; "#c37d62"; "#83d0a2"; "#fdfdc5"; "#89d3f6"; "#ff2c7a"; "#82eada"; "#fdfdf6"]);
  ("overnight_slumber", scheme "#ced2d6" "#0e1729"
     ["#0a1222"; "#ffa7c4"; "#85cc95"; "#ffcb8b"; "#8dabe1"; "#c792eb"; "#78ccf0"; "#ffffff";
      "#575656"; "#ffa7c4"; "#85cc95"; "#ffcb8b"; "#8dabe1"; "#c792eb"; "#ffa7c4"; "#ffffff"]);
  ("oxocarbon", scheme "#f2f4f8" "#161616"
     ["#161616"; "#3ddbd9"; "#33b1ff"; "#ee5396"; "#42be65"; "#be95ff"; "#ff7eb6"; "#f2f4f8";
      "#585858"; "#3ddbd9"; "#33b1ff"; "#ee5396"; "#42be65"; "#be95ff"; "#ff7eb6"; "#f2f4f8"]);
  ("pale_night_hc", scheme "#cccccc" "#3e4251"
     ["#000000"; "#f07178"; "#c3e88d"; "#ffcb6b"; "#82aaff"; "#c792ea"; "#89ddff"; "#ffffff";
      "#666666"; "#f6a9ae"; "#dbf1ba"; "#ffdfa6"; "#b4ccff"; "#ddbdf2"; "#b8eaff"; "#999999"]);
  ("pandora", scheme "#e1e1e1" "#141e43"
     ["#000000"; "#ff4242"; "#74af68"; "#ffad29"; "#338f86"; "#9414e6"; "#23d7d7"; "#e2e2e2";
      "#3f5648"; "#ff3242"; "#74cd68"; "#ffb929"; "#23d7d7"; "#ff37ff"; "#00ede1"; "#ffffff"]);
  ("paraiso_dark", scheme "#a39e9b" "#2f1e2e"
     ["#2f1e2e"; "#ef6155"; "#48b685"; "#fec418"; "#06b6ef"; "#815ba4"; "#5bc4bf"; "#a39e9b";
      "#776e71"; "#ef6155"; "#48b685"; "#fec418"; "#06b6ef"; "#815ba4"; "#5bc4bf"; "#e7e9db"]);
  ("paul_millr", scheme "#f2f2f2" "#000000"
     ["#2a2a2a"; "#ff0000"; "#79ff0f"; "#e7bf00"; "#396bd7"; "#b449be"; "#66ccff"; "#bbbbbb";
      "#666666"; "#ff0080"; "#66ff66"; "#f3d64e"; "#709aed"; "#db67e6"; "#7adff2"; "#ffffff"]);
  ("pencil_dark", scheme "#f1f1f1" "#212121"
     ["#212121"; "#c30771"; "#10a778"; "#a89c14"; "#008ec4"; "#523c79"; "#20a5ba"; "#d9d9d9";
      "#424242"; "#fb007a"; "#5fd7af"; "#f3e430"; "#20bbfc"; "#6855de"; "#4fb8cc"; "#f1f1f1"]);
  ("pencil_light", scheme "#424242" "#f1f1f1"
     ["#212121"; "#c30771"; "#10a778"; "#a89c14"; "#008ec4"; "#523c79"; "#20a5ba"; "#d9d9d9";
      "#424242"; "#fb007a"; "#5fd7af"; "#f3e430"; "#20bbfc"; "#6855de"; "#4fb8cc"; "#f1f1f1"]);
  ("peppermint", scheme "#c8c8c8" "#000000"
     ["#353535"; "#e74669"; "#89d287"; "#dab853"; "#449fd0"; "#da62dc"; "#65aaaf"; "#b4b4b4";
      "#535353"; "#e4859b"; "#a3cca2"; "#e1e487"; "#6fbce2"; "#e586e7"; "#96dcdb"; "#dfdfdf"]);
  ("piatto_light", scheme "#414141" "#ffffff"
     ["#414141"; "#b23771"; "#66781e"; "#cd6f34"; "#3c5ea8"; "#a454b2"; "#66781e"; "#ffffff";
      "#3f3f3f"; "#db3365"; "#829429"; "#cd6f34"; "#3c5ea8"; "#a454b2"; "#829429"; "#f2f2f2"]);
  ("pnevma", scheme "#d0d0d0" "#1c1c1c"
     ["#2f2e2d"; "#a36666"; "#90a57d"; "#d7af87"; "#7fa5bd"; "#c79ec4"; "#8adbb4"; "#d0d0d0";
      "#4a4845"; "#d78787"; "#afbea2"; "#e4c9af"; "#a1bdce"; "#d7beda"; "#b1e7dd"; "#efefef"]);
  ("popping_and_locking", scheme "#ebdbb2" "#181921"
     ["#1d2021"; "#cc241d"; "#98971a"; "#d79921"; "#458588"; "#b16286"; "#689d6a"; "#a89984";
      "#928374"; "#f42c3e"; "#b8bb26"; "#fabd2f"; "#99c6ca"; "#d3869b"; "#7ec16e"; "#ebdbb2"]);
  ("primary", scheme "#000000" "#ffffff"
     ["#000000"; "#db4437"; "#0f9d58"; "#f4b400"; "#4285f4"; "#db4437"; "#4285f4"; "#ffffff";
      "#000000"; "#db4437"; "#0f9d58"; "#f4b400"; "#4285f4"; "#4285f4"; "#0f9d58"; "#ffffff"]);
  ("pro", scheme "#f2f2f2" "#000000"
     ["#000000"; "#990000"; "#00a600"; "#999900"; "#2009db"; "#b200b2"; "#00a6b2"; "#bfbfbf";
      "#666666"; "#e50000"; "#00d900"; "#e5e500"; "#0000ff"; "#e500e5"; "#00e5e5"; "#e5e5e5"]);
  ("pro_light", scheme "#191919" "#ffffff"
     ["#000000"; "#e5492b"; "#50d148"; "#c6c440"; "#3b75ff"; "#ed66e8"; "#4ed2de"; "#dcdcdc";
      "#9f9f9f"; "#ff6640"; "#61ef57"; "#f2f156"; "#0082ff"; "#ff7eff"; "#61f7f8"; "#f2f2f2"]);
  ("purple_rain", scheme "#fffbf6" "#21084a"
     ["#000000"; "#ff260e"; "#9be205"; "#ffc400"; "#00a2fa"; "#815bb5"; "#00deef"; "#ffffff";
      "#565656"; "#ff4250"; "#b8e36e"; "#ffd852"; "#00a6ff"; "#ac7bf0"; "#74fdf3"; "#ffffff"]);
  ("purplepeter", scheme "#ece7fa" "#2a1a4a"
     ["#0a0520"; "#ff796d"; "#99b481"; "#efdfac"; "#66d9ef"; "#e78fcd"; "#ba8cff"; "#ffba81";
      "#100b23"; "#f99f92"; "#b4be8f"; "#f2e9bf"; "#79daed"; "#ba91d4"; "#a0a0d6"; "#b9aed3"]);
  ("rapture", scheme "#c0c9e5" "#111e2a"
     ["#000000"; "#fc644d"; "#7afde1"; "#fff09b"; "#6c9bf5"; "#ff4fa1"; "#64e0ff"; "#c0c9e5";
      "#304b66"; "#fc644d"; "#7afde1"; "#fff09b"; "#6c9bf5"; "#ff4fa1"; "#64e0ff"; "#ffffff"]);
  ("raycast_dark", scheme "#ffffff" "#1a1a1a"
     ["#000000"; "#ff5360"; "#59d499"; "#ffc531"; "#56c2ff"; "#cf2f98"; "#52eee5"; "#ffffff";
      "#000000"; "#ff6363"; "#59d499"; "#ffc531"; "#56c2ff"; "#cf2f98"; "#52eee5"; "#ffffff"]);
  ("raycast_light", scheme "#000000" "#ffffff"
     ["#000000"; "#b12424"; "#006b4f"; "#f8a300"; "#138af2"; "#9a1b6e"; "#3eb8bf"; "#ffffff";
      "#000000"; "#b12424"; "#006b4f"; "#f8a300"; "#138af2"; "#9a1b6e"; "#3eb8bf"; "#ffffff"]);
  ("rebecca", scheme "#e8e6ed" "#292a44"
     ["#12131e"; "#dd7755"; "#04dbb5"; "#f2e7b7"; "#7aa5ff"; "#bf9cf9"; "#56d3c2"; "#e4e3e9";
      "#666699"; "#ff92cd"; "#01eac0"; "#fffca8"; "#69c0fa"; "#c17ff8"; "#8bfde1"; "#f4f2f9"]);
  ("red_alert", scheme "#ffffff" "#762423"
     ["#000000"; "#d62e4e"; "#71be6b"; "#beb86b"; "#489bee"; "#e979d7"; "#6bbeb8"; "#d6d6d6";
      "#262626"; "#e02553"; "#aff08c"; "#dfddb7"; "#65aaf1"; "#ddb7df"; "#b7dfdd"; "#ffffff"]);
  ("red_planet", scheme "#c2b790" "#222222"
     ["#202020"; "#8c3432"; "#728271"; "#e8bf6a"; "#69819e"; "#896492"; "#5b8390"; "#b9aa99";
      "#676767"; "#b55242"; "#869985"; "#ebeb91"; "#60827e"; "#de4974"; "#38add8"; "#d6bfb8"]);
  ("red_sands", scheme "#d7c9a7" "#7a251e"
     ["#000000"; "#ff3f00"; "#00bb00"; "#e7b000"; "#0072ff"; "#bb00bb"; "#00bbbb"; "#bbbbbb";
      "#555555"; "#bb0000"; "#00bb00"; "#e7b000"; "#0072ae"; "#ff55ff"; "#55ffff"; "#ffffff"]);
  ("relaxed", scheme "#d9d9d9" "#353a44"
     ["#151515"; "#bc5653"; "#909d63"; "#ebc17a"; "#6a8799"; "#b06698"; "#c9dfff"; "#d9d9d9";
      "#636363"; "#bc5653"; "#a0ac77"; "#ebc17a"; "#7eaac7"; "#b06698"; "#acbbd0"; "#f7f7f7"]);
  ("retro", scheme "#13a10e" "#000000"
     ["#13a10e"; "#13a10e"; "#13a10e"; "#13a10e"; "#13a10e"; "#13a10e"; "#13a10e"; "#13a10e";
      "#16ba10"; "#16ba10"; "#16ba10"; "#16ba10"; "#16ba10"; "#16ba10"; "#16ba10"; "#16ba10"]);
  ("retro_legends", scheme "#45eb45" "#0d0d0d"
     ["#262626"; "#de5454"; "#45eb45"; "#f7bf2b"; "#4066f2"; "#bf4cf2"; "#40d9e6"; "#bfe6bf";
      "#4c594c"; "#ff6666"; "#59ff59"; "#ffd933"; "#4c80ff"; "#e666ff"; "#59e6ff"; "#f2fff2"]);
  ("rippedcasts", scheme "#ffffff" "#2b2b2b"
     ["#000000"; "#cdaf95"; "#a8ff60"; "#bfbb1f"; "#75a5b0"; "#ff73fd"; "#5a647e"; "#bfbfbf";
      "#666666"; "#eecbad"; "#bcee68"; "#e5e500"; "#86bdc9"; "#e500e5"; "#8c9bc4"; "#e5e5e5"]);
  ("rose_pine", scheme "#e0def4" "#191724"
     ["#26233a"; "#eb6f92"; "#31748f"; "#f6c177"; "#9ccfd8"; "#c4a7e7"; "#ebbcba"; "#e0def4";
      "#6e6a86"; "#eb6f92"; "#31748f"; "#f6c177"; "#9ccfd8"; "#c4a7e7"; "#ebbcba"; "#e0def4"]);
  ("rose_pine_dawn", scheme "#575279" "#faf4ed"
     ["#f2e9e1"; "#b4637a"; "#286983"; "#ea9d34"; "#56949f"; "#907aa9"; "#d7827e"; "#575279";
      "#9893a5"; "#b4637a"; "#286983"; "#ea9d34"; "#56949f"; "#907aa9"; "#d7827e"; "#575279"]);
  ("rose_pine_moon", scheme "#e0def4" "#232136"
     ["#393552"; "#eb6f92"; "#3e8fb0"; "#f6c177"; "#9ccfd8"; "#c4a7e7"; "#ea9a97"; "#e0def4";
      "#6e6a86"; "#eb6f92"; "#3e8fb0"; "#f6c177"; "#9ccfd8"; "#c4a7e7"; "#ea9a97"; "#e0def4"]);
  ("rouge_2", scheme "#a2a3aa" "#17182b"
     ["#5d5d6b"; "#c6797e"; "#969e92"; "#dbcdab"; "#6e94b9"; "#4c4e78"; "#8ab6c1"; "#e8e8ea";
      "#616274"; "#c6797e"; "#e6dcc4"; "#e6dcc4"; "#98b3cd"; "#8283a1"; "#abcbd3"; "#e8e8ea"]);
  ("royal", scheme "#514968" "#100815"
     ["#241f2b"; "#91284c"; "#23801c"; "#b49d27"; "#6580b0"; "#674d96"; "#8aaabe"; "#524966";
      "#312d3d"; "#d5356c"; "#2cd946"; "#fde83b"; "#90baf9"; "#a479e3"; "#acd4eb"; "#9e8cbd"]);
  ("ryuuko", scheme "#ececec" "#2c3941"
     ["#2c3941"; "#865f5b"; "#66907d"; "#b1a990"; "#6a8e95"; "#b18a73"; "#88b2ac"; "#ececec";
      "#5d7079"; "#865f5b"; "#66907d"; "#b1a990"; "#6a8e95"; "#b18a73"; "#88b2ac"; "#ececec"]);
  ("sakura", scheme "#dd7bdc" "#18131e"
     ["#000000"; "#d52370"; "#41af1a"; "#bc7053"; "#6964ab"; "#c71fbf"; "#939393"; "#998eac";
      "#786d69"; "#f41d99"; "#22e529"; "#f59574"; "#9892f1"; "#e90cdd"; "#eeeeee"; "#cbb6ff"]);
  ("scarlet_protocol", scheme "#e41951" "#1c153d"
     ["#101116"; "#ff0051"; "#00dc84"; "#faf945"; "#0271b6"; "#ca30c7"; "#00c5c7"; "#c7c7c7";
      "#686868"; "#ff6e67"; "#5ffa68"; "#fffc67"; "#6871ff"; "#bd35ec"; "#60fdff"; "#ffffff"]);
  ("sea_shells", scheme "#deb88d" "#09141b"
     ["#17384c"; "#d15123"; "#027c9b"; "#fca02f"; "#1e4950"; "#68d4f1"; "#50a3b5"; "#deb88d";
      "#434b53"; "#d48678"; "#628d98"; "#fdd39f"; "#1bbcdd"; "#bbe3ee"; "#87acb4"; "#fee4ce"]);
  ("seafoam_pastel", scheme "#d4e7d4" "#243435"
     ["#757575"; "#825d4d"; "#728c62"; "#ada16d"; "#4d7b82"; "#8a7267"; "#729494"; "#e0e0e0";
      "#8a8a8a"; "#cf937a"; "#98d9aa"; "#fae79d"; "#7ac3cf"; "#d6b2a1"; "#ade0e0"; "#e0e0e0"]);
  ("seoulbones_dark", scheme "#dddddd" "#4b4b4b"
     ["#4b4b4b"; "#e388a3"; "#98bd99"; "#ffdf9b"; "#97bdde"; "#a5a6c5"; "#6fbdbe"; "#dddddd";
      "#6c6465"; "#eb99b1"; "#8fcd92"; "#ffe5b3"; "#a2c8e9"; "#b2b3da"; "#6bcacb"; "#a8a8a8"]);
  ("seoulbones_light", scheme "#555555" "#e2e2e2"
     ["#e2e2e2"; "#dc5284"; "#628562"; "#c48562"; "#0084a3"; "#896788"; "#008586"; "#555555";
      "#bfbabb"; "#be3c6d"; "#487249"; "#a76b48"; "#006f89"; "#7f4c7e"; "#006f70"; "#777777"]);
  ("seti", scheme "#cacecd" "#111213"
     ["#323232"; "#c22832"; "#8ec43d"; "#e0c64f"; "#43a5d5"; "#8b57b5"; "#8ec43d"; "#eeeeee";
      "#323232"; "#c22832"; "#8ec43d"; "#e0c64f"; "#43a5d5"; "#8b57b5"; "#8ec43d"; "#ffffff"]);
  ("shades_of_purple", scheme "#ffffff" "#1e1d40"
     ["#000000"; "#d90429"; "#3ad900"; "#ffe700"; "#6943ff"; "#ff2c70"; "#00c5c7"; "#c7c7c7";
      "#686868"; "#f92a1c"; "#43d426"; "#f1d000"; "#6871ff"; "#ff77ff"; "#79e8fb"; "#ffffff"]);
  ("shaman", scheme "#405555" "#001015"
     ["#012026"; "#b2302d"; "#00a941"; "#5e8baa"; "#449a86"; "#00599d"; "#5d7e19"; "#405555";
      "#384451"; "#ff4242"; "#2aea5e"; "#8ed4fd"; "#61d5ba"; "#1298ff"; "#98d028"; "#58fbd6"]);
  ("slate", scheme "#35b1d2" "#222222"
     ["#222222"; "#e2a8bf"; "#81d778"; "#c4c9c0"; "#264b49"; "#a481d3"; "#15ab9c"; "#02c5e0";
      "#ffffff"; "#ffcdd9"; "#beffa8"; "#d0ccca"; "#7ab0d2"; "#c5a7d9"; "#8cdfe0"; "#e0e0e0"]);
  ("sleepy_hollow", scheme "#af9a91" "#121214"
     ["#572100"; "#ba3934"; "#91773f"; "#b55600"; "#5f63b4"; "#a17c7b"; "#8faea9"; "#af9a91";
      "#4e4b61"; "#d9443f"; "#d6b04e"; "#f66813"; "#8086ef"; "#e2c2bb"; "#a4dce7"; "#d2c7a9"]);
  ("smyck", scheme "#f7f7f7" "#1b1b1b"
     ["#000000"; "#b84131"; "#7da900"; "#c4a500"; "#62a3c4"; "#ba8acc"; "#207383"; "#a1a1a1";
      "#7a7a7a"; "#d6837c"; "#c4f137"; "#fee14d"; "#8dcff0"; "#f79aff"; "#6ad9cf"; "#f7f7f7"]);
  ("snazzy", scheme "#ebece6" "#1e1f29"
     ["#000000"; "#fc4346"; "#50fb7c"; "#f0fb8c"; "#49baff"; "#fc4cb4"; "#8be9fe"; "#ededec";
      "#555555"; "#fc4346"; "#50fb7c"; "#f0fb8c"; "#49baff"; "#fc4cb4"; "#8be9fe"; "#ededec"]);
  ("snazzy_soft", scheme "#eff0eb" "#282a36"
     ["#000000"; "#ff5c57"; "#5af78e"; "#f3f99d"; "#57c7ff"; "#ff6ac1"; "#9aedfe"; "#f1f1f0";
      "#686868"; "#ff5c57"; "#5af78e"; "#f3f99d"; "#57c7ff"; "#ff6ac1"; "#9aedfe"; "#f1f1f0"]);
  ("soft_server", scheme "#99a3a2" "#242626"
     ["#000000"; "#a2686a"; "#9aa56a"; "#a3906a"; "#6b8fa3"; "#6a71a3"; "#6ba58f"; "#99a3a2";
      "#666c6c"; "#dd5c60"; "#bfdf55"; "#deb360"; "#62b1df"; "#606edf"; "#64e39c"; "#d2e0de"]);
  ("solarized_darcula", scheme "#d2d8d9" "#3d3f41"
     ["#25292a"; "#f24840"; "#629655"; "#b68800"; "#2075c7"; "#797fd4"; "#15968d"; "#d2d8d9";
      "#25292a"; "#f24840"; "#629655"; "#b68800"; "#2075c7"; "#797fd4"; "#15968d"; "#d2d8d9"]);
  ("solarized_dark_higher_contrast", scheme "#9cc2c3" "#001e27"
     ["#002831"; "#d11c24"; "#6cbe6c"; "#a57706"; "#2176c7"; "#c61c6f"; "#259286"; "#eae3cb";
      "#006488"; "#f5163b"; "#51ef84"; "#b27e28"; "#178ec8"; "#e24d8e"; "#00b39e"; "#fcf4dc"]);
  ("solarized_dark_patched", scheme "#708284" "#001e27"
     ["#002831"; "#d11c24"; "#738a05"; "#a57706"; "#2176c7"; "#c61c6f"; "#259286"; "#eae3cb";
      "#475b62"; "#bd3613"; "#475b62"; "#536870"; "#708284"; "#5956ba"; "#819090"; "#fcf4dc"]);
  ("solarized_osaka_night", scheme "#c2caf1" "#1a1b25"
     ["#15161d"; "#e77d8f"; "#a8cd76"; "#d8b172"; "#82a1f1"; "#b69bf1"; "#90cdfa"; "#aab1d3";
      "#424866"; "#e77d8f"; "#a8cd76"; "#d8b172"; "#82a1f1"; "#b69bf1"; "#90cdfa"; "#c2caf1"]);
  ("space_gray", scheme "#b3b8c3" "#20242d"
     ["#000000"; "#b04b57"; "#87b379"; "#e5c179"; "#7d8fa4"; "#a47996"; "#85a7a5"; "#b3b8c3";
      "#000000"; "#b04b57"; "#87b379"; "#e5c179"; "#7d8fa4"; "#a47996"; "#85a7a5"; "#ffffff"]);
  ("space_gray_bright", scheme "#f3f3f3" "#2a2e3a"
     ["#080808"; "#bc5553"; "#a0b56c"; "#f6c987"; "#7baec1"; "#b98aae"; "#85c9b8"; "#d8d8d8";
      "#626262"; "#bc5553"; "#a0b56c"; "#f6c987"; "#7baec1"; "#b98aae"; "#85c9b8"; "#f7f7f7"]);
  ("space_gray_eighties", scheme "#bdbaae" "#222222"
     ["#15171c"; "#ec5f67"; "#81a764"; "#fec254"; "#5486c0"; "#bf83c1"; "#57c2c1"; "#efece7";
      "#555555"; "#ff6973"; "#93d493"; "#ffd256"; "#4d84d1"; "#ff55ff"; "#83e9e4"; "#ffffff"]);
  ("space_gray_eighties_dull", scheme "#c9c6bc" "#222222"
     ["#15171c"; "#b24a56"; "#92b477"; "#c6735a"; "#7c8fa5"; "#a5789e"; "#80cdcb"; "#b3b8c3";
      "#555555"; "#ec5f67"; "#89e986"; "#fec254"; "#5486c0"; "#bf83c1"; "#58c2c1"; "#ffffff"]);
  ("spacedust", scheme "#ecf0c1" "#0a1e24"
     ["#6e5346"; "#e35b00"; "#5cab96"; "#e3cd7b"; "#0f548b"; "#e35b00"; "#06afc7"; "#f0f1ce";
      "#684c31"; "#ff8a3a"; "#aecab8"; "#ffc878"; "#67a0ce"; "#ff8a3a"; "#83a7b4"; "#fefff1"]);
  ("spiderman", scheme "#e3e3e3" "#1b1d1e"
     ["#1b1d1e"; "#e60813"; "#e22928"; "#e24756"; "#2c3fff"; "#2435db"; "#3256ff"; "#fffef6";
      "#505354"; "#ff0325"; "#ff3338"; "#fe3a35"; "#1d50ff"; "#747cff"; "#6184ff"; "#fffff9"]);
  ("spring", scheme "#4d4d4c" "#ffffff"
     ["#000000"; "#ff4d83"; "#1f8c3b"; "#1fc95b"; "#1dd3ee"; "#8959a8"; "#3e999f"; "#ffffff";
      "#000000"; "#ff0021"; "#1fc231"; "#d5b807"; "#15a9fd"; "#8959a8"; "#3e999f"; "#ffffff"]);
  ("square", scheme "#acacab" "#1a1a1a"
     ["#050505"; "#e9897c"; "#b6377d"; "#ecebbe"; "#a9cdeb"; "#75507b"; "#c9caec"; "#f2f2f2";
      "#141414"; "#f99286"; "#c3f786"; "#fcfbcc"; "#b6defb"; "#ad7fa8"; "#d7d9fc"; "#e2e2e2"]);
  ("squirrelsong_dark", scheme "#ad9c8b" "#352a21"
     ["#352a21"; "#ac493e"; "#558240"; "#ceb250"; "#5993c2"; "#7f61b3"; "#4f9593"; "#cfbaa5";
      "#6b503c"; "#ce574a"; "#719955"; "#e2c358"; "#63a2d6"; "#9672d4"; "#72aaa8"; "#edd5be"]);
  ("srcery", scheme "#fce8c3" "#1c1b19"
     ["#1c1b19"; "#ef2f27"; "#519f50"; "#fbb829"; "#2c78bf"; "#e02c6d"; "#0aaeb3"; "#baa67f";
      "#918175"; "#f75341"; "#98bc37"; "#fed06e"; "#68a8e4"; "#ff5c8f"; "#2be4d0"; "#fce8c3"]);
  ("starlight", scheme "#ffffff" "#242424"
     ["#242424"; "#e2425d"; "#66b238"; "#dec541"; "#54aad0"; "#e8b2f8"; "#5abf9b"; "#e6e6e6";
      "#616161"; "#ec5b58"; "#6bd162"; "#e9e85c"; "#78c3f3"; "#f2afee"; "#6adcc5"; "#ffffff"]);
  ("sublette", scheme "#ccced0" "#202535"
     ["#253045"; "#ee5577"; "#55ee77"; "#ffdd88"; "#5588ff"; "#ff77cc"; "#44eeee"; "#f5f5da";
      "#405570"; "#ee6655"; "#99ee77"; "#ffff77"; "#77bbff"; "#aa88ff"; "#55ffbb"; "#ffffee"]);
  ("subliminal", scheme "#d4d4d4" "#282c35"
     ["#7f7f7f"; "#e15a60"; "#a9cfa4"; "#ffe2a9"; "#6699cc"; "#f1a5ab"; "#5fb3b3"; "#d4d4d4";
      "#7f7f7f"; "#e15a60"; "#a9cfa4"; "#ffe2a9"; "#6699cc"; "#f1a5ab"; "#5fb3b3"; "#d4d4d4"]);
  ("sugarplum", scheme "#db7ddd" "#111147"
     ["#111147"; "#5ca8dc"; "#53b397"; "#249a84"; "#db7ddd"; "#d0beee"; "#f9f3f9"; "#a175d4";
      "#111147"; "#5cb5dc"; "#52deb5"; "#01f5c7"; "#fa5dfd"; "#c6a5fd"; "#ffffff"; "#b577fd"]);
  ("sundried", scheme "#c9c9c9" "#1a1818"
     ["#302b2a"; "#a7463d"; "#587744"; "#9d602a"; "#485b98"; "#864651"; "#9c814f"; "#c9c9c9";
      "#4d4e48"; "#aa000c"; "#128c21"; "#fc6a21"; "#7999f7"; "#fd8aa1"; "#fad484"; "#ffffff"]);
  ("symfonic", scheme "#ffffff" "#000000"
     ["#000000"; "#dc322f"; "#56db3a"; "#ff8400"; "#0084d4"; "#b729d9"; "#ccccff"; "#ffffff";
      "#1b1d21"; "#dc322f"; "#56db3a"; "#ff8400"; "#0084d4"; "#b729d9"; "#ccccff"; "#ffffff"]);
  ("synthwave", scheme "#dad9c7" "#000000"
     ["#000000"; "#f6188f"; "#1ebb2b"; "#fdf834"; "#2186ec"; "#f85a21"; "#12c3e2"; "#ffffff";
      "#000000"; "#f841a0"; "#25c141"; "#fdf454"; "#2f9ded"; "#f97137"; "#19cde6"; "#ffffff"]);
  ("synthwave_alpha", scheme "#f2f2e3" "#241b30"
     ["#241b30"; "#e60a70"; "#00986c"; "#adad3e"; "#6e29ad"; "#b300ad"; "#00b0b1"; "#b9b1bc";
      "#7f7094"; "#e60a70"; "#0ae4a4"; "#f9f972"; "#aa54f9"; "#ff00f6"; "#00fbfd"; "#f2f2e3"]);
  ("synthwave_everything", scheme "#f0eff1" "#2a2139"
     ["#fefefe"; "#f97e72"; "#72f1b8"; "#fede5d"; "#6d77b3"; "#c792ea"; "#f772e0"; "#fefefe";
      "#fefefe"; "#f88414"; "#72f1b8"; "#fff951"; "#36f9f6"; "#e1acff"; "#f92aad"; "#fefefe"]);
  ("tango_adapted", scheme "#000000" "#ffffff"
     ["#000000"; "#ff0000"; "#59d600"; "#f0cb00"; "#00a2ff"; "#c17ecc"; "#00d0d6"; "#e6ebe1";
      "#8f928b"; "#ff0013"; "#93ff00"; "#fff121"; "#88c9ff"; "#e9a7e1"; "#00feff"; "#f6f6f4"]);
  ("tango_half_adapted", scheme "#000000" "#ffffff"
     ["#000000"; "#ff0000"; "#4cc300"; "#e2c000"; "#008ef6"; "#a96cb3"; "#00bdc3"; "#e0e5db";
      "#797d76"; "#ff0013"; "#8af600"; "#ffec00"; "#76bfff"; "#d898d1"; "#00f6fa"; "#f4f4f2"]);
  ("teerb", scheme "#d0d0d0" "#262626"
     ["#1c1c1c"; "#d68686"; "#aed686"; "#d7af87"; "#86aed6"; "#d6aed6"; "#8adbb4"; "#d0d0d0";
      "#1c1c1c"; "#d68686"; "#aed686"; "#e4c9af"; "#86aed6"; "#d6aed6"; "#b1e7dd"; "#efefef"]);
  ("terafox", scheme "#e6eaea" "#152528"
     ["#2f3239"; "#e85c51"; "#7aa4a1"; "#fda47f"; "#5a93aa"; "#ad5c7c"; "#a1cdd8"; "#ebebeb";
      "#4e5157"; "#eb746b"; "#8eb2af"; "#fdb292"; "#73a3b7"; "#b97490"; "#afd4de"; "#eeeeee"]);
  ("terminal_basic", scheme "#000000" "#ffffff"
     ["#000000"; "#990000"; "#00a600"; "#999900"; "#0000b2"; "#b200b2"; "#00a6b2"; "#bfbfbf";
      "#666666"; "#e50000"; "#00d900"; "#e5e500"; "#0000ff"; "#e500e5"; "#00e5e5"; "#e5e5e5"]);
  ("thayer_bright", scheme "#f8f8f8" "#1b1d1e"
     ["#1b1d1e"; "#f92672"; "#4df840"; "#f4fd22"; "#2757d6"; "#8c54fe"; "#38c8b5"; "#ccccc6";
      "#505354"; "#ff5995"; "#b6e354"; "#feed6c"; "#3f78ff"; "#9e6ffe"; "#23cfd5"; "#f8f8f2"]);
  ("the_hulk", scheme "#b5b5b5" "#1b1d1e"
     ["#1b1d1e"; "#269d1b"; "#13ce30"; "#63e457"; "#2525f5"; "#641f74"; "#378ca9"; "#d9d8d1";
      "#505354"; "#8dff2a"; "#48ff77"; "#3afe16"; "#506b95"; "#72589d"; "#4085a6"; "#e5e6e1"]);
  ("tinacious_design_dark", scheme "#cbcbf0" "#1d1d26"
     ["#1d1d26"; "#ff3399"; "#00d364"; "#ffcc66"; "#00cbff"; "#cc66ff"; "#00ceca"; "#cbcbf0";
      "#636667"; "#ff2f92"; "#00d364"; "#ffd479"; "#00cbff"; "#d783ff"; "#00d5d4"; "#d5d6f3"]);
  ("tinacious_design_light", scheme "#1d1d26" "#f8f8ff"
     ["#1d1d26"; "#ff3399"; "#00d364"; "#ffcc66"; "#00cbff"; "#cc66ff"; "#00ceca"; "#cbcbf0";
      "#636667"; "#ff2f92"; "#00d364"; "#ffd479"; "#00cbff"; "#d783ff"; "#00d5d4"; "#d5d6f3"]);
  ("tokyonight", scheme "#c0caf5" "#1a1b26"
     ["#15161e"; "#f7768e"; "#9ece6a"; "#e0af68"; "#7aa2f7"; "#bb9af7"; "#7dcfff"; "#a9b1d6";
      "#414868"; "#f7768e"; "#9ece6a"; "#e0af68"; "#7aa2f7"; "#bb9af7"; "#7dcfff"; "#c0caf5"]);
  ("tokyonight_day", scheme "#3760bf" "#e1e2e7"
     ["#e9e9ed"; "#f52a65"; "#587539"; "#8c6c3e"; "#2e7de9"; "#9854f1"; "#007197"; "#6172b0";
      "#a1a6c5"; "#f52a65"; "#587539"; "#8c6c3e"; "#2e7de9"; "#9854f1"; "#007197"; "#3760bf"]);
  ("tokyonight_moon", scheme "#c8d3f5" "#222436"
     ["#1b1d2b"; "#ff757f"; "#c3e88d"; "#ffc777"; "#82aaff"; "#c099ff"; "#86e1fc"; "#828bb8";
      "#444a73"; "#ff757f"; "#c3e88d"; "#ffc777"; "#82aaff"; "#c099ff"; "#86e1fc"; "#c8d3f5"]);
  ("tokyonight_night", scheme "#c0caf5" "#1a1b26"
     ["#15161e"; "#f7768e"; "#9ece6a"; "#e0af68"; "#7aa2f7"; "#bb9af7"; "#7dcfff"; "#a9b1d6";
      "#414868"; "#f7768e"; "#9ece6a"; "#e0af68"; "#7aa2f7"; "#bb9af7"; "#7dcfff"; "#c0caf5"]);
  ("tokyonight_storm", scheme "#c0caf5" "#24283b"
     ["#1d202f"; "#f7768e"; "#9ece6a"; "#e0af68"; "#7aa2f7"; "#bb9af7"; "#7dcfff"; "#a9b1d6";
      "#414868"; "#f7768e"; "#9ece6a"; "#e0af68"; "#7aa2f7"; "#bb9af7"; "#7dcfff"; "#c0caf5"]);
  ("tomorrow", scheme "#4d4d4c" "#ffffff"
     ["#000000"; "#c82829"; "#718c00"; "#eab700"; "#4271ae"; "#8959a8"; "#3e999f"; "#ffffff";
      "#000000"; "#c82829"; "#718c00"; "#eab700"; "#4271ae"; "#8959a8"; "#3e999f"; "#ffffff"]);
  ("tomorrow_night", scheme "#c5c8c6" "#1d1f21"
     ["#000000"; "#cc6666"; "#b5bd68"; "#f0c674"; "#81a2be"; "#b294bb"; "#8abeb7"; "#ffffff";
      "#000000"; "#cc6666"; "#b5bd68"; "#f0c674"; "#81a2be"; "#b294bb"; "#8abeb7"; "#ffffff"]);
  ("tomorrow_night_blue", scheme "#ffffff" "#002451"
     ["#000000"; "#ff9da4"; "#d1f1a9"; "#ffeead"; "#bbdaff"; "#ebbbff"; "#99ffff"; "#ffffff";
      "#000000"; "#ff9da4"; "#d1f1a9"; "#ffeead"; "#bbdaff"; "#ebbbff"; "#99ffff"; "#ffffff"]);
  ("tomorrow_night_bright", scheme "#eaeaea" "#000000"
     ["#000000"; "#d54e53"; "#b9ca4a"; "#e7c547"; "#7aa6da"; "#c397d8"; "#70c0b1"; "#ffffff";
      "#000000"; "#d54e53"; "#b9ca4a"; "#e7c547"; "#7aa6da"; "#c397d8"; "#70c0b1"; "#ffffff"]);
  ("tomorrow_night_burns", scheme "#a1b0b8" "#151515"
     ["#252525"; "#832e31"; "#a63c40"; "#d3494e"; "#fc595f"; "#df9395"; "#ba8586"; "#f5f5f5";
      "#5d6f71"; "#832e31"; "#a63c40"; "#d2494e"; "#fc595f"; "#df9395"; "#ba8586"; "#f5f5f5"]);
  ("tomorrow_night_eighties", scheme "#cccccc" "#2d2d2d"
     ["#000000"; "#f2777a"; "#99cc99"; "#ffcc66"; "#6699cc"; "#cc99cc"; "#66cccc"; "#ffffff";
      "#000000"; "#f2777a"; "#99cc99"; "#ffcc66"; "#6699cc"; "#cc99cc"; "#66cccc"; "#ffffff"]);
  ("toy_chest", scheme "#31d07b" "#24364b"
     ["#2c3f58"; "#be2d26"; "#1a9172"; "#db8e27"; "#325d96"; "#8a5edc"; "#35a08f"; "#23d183";
      "#336889"; "#dd5944"; "#31d07b"; "#e7d84b"; "#34a6da"; "#ae6bdc"; "#42c3ae"; "#d5d5d5"]);
  ("treehouse", scheme "#786b53" "#191919"
     ["#321300"; "#b2270e"; "#44a900"; "#aa820c"; "#58859a"; "#97363d"; "#b25a1e"; "#786b53";
      "#433626"; "#ed5d20"; "#55f238"; "#f2b732"; "#85cfed"; "#e14c5a"; "#f07d14"; "#ffc800"]);
  ("twilight", scheme "#ffffd4" "#141414"
     ["#141414"; "#c06d44"; "#afb97a"; "#c2a86c"; "#44474a"; "#b4be7c"; "#778385"; "#ffffd4";
      "#262626"; "#de7c4c"; "#ccd88c"; "#e2c47e"; "#5a5e62"; "#d0dc8e"; "#8a989b"; "#ffffd4"]);
  ("ubuntu", scheme "#eeeeec" "#300a24"
     ["#2e3436"; "#cc0000"; "#4e9a06"; "#c4a000"; "#3465a4"; "#75507b"; "#06989a"; "#d3d7cf";
      "#555753"; "#ef2929"; "#8ae234"; "#fce94f"; "#729fcf"; "#ad7fa8"; "#34e2e2"; "#eeeeec"]);
  ("ultra_dark", scheme "#ffffff" "#000000"
     ["#000000"; "#f07178"; "#c3e88d"; "#ffcb6b"; "#82aaff"; "#c792ea"; "#89ddff"; "#cccccc";
      "#333333"; "#f6a9ae"; "#dbf1ba"; "#ffdfa6"; "#b4ccff"; "#ddbdf2"; "#b8eaff"; "#ffffff"]);
  ("ultra_violent", scheme "#c1c1c1" "#242728"
     ["#242728"; "#ff0090"; "#b6ff00"; "#fff727"; "#47e0fb"; "#d731ff"; "#0effbb"; "#e1e1e1";
      "#636667"; "#fb58b4"; "#deff8c"; "#ebe087"; "#7fecff"; "#e681ff"; "#69fcd3"; "#f9f9f5"]);
  ("under_the_sea", scheme "#ffffff" "#011116"
     ["#022026"; "#b2302d"; "#00a941"; "#59819c"; "#459a86"; "#00599d"; "#5d7e19"; "#405555";
      "#384451"; "#ff4242"; "#2aea5e"; "#8ed4fd"; "#61d5ba"; "#1298ff"; "#98d028"; "#58fbd6"]);
  ("unikitty", scheme "#0b0b0b" "#ff8cd9"
     ["#0c0c0c"; "#a80f20"; "#bafc8b"; "#eedf4b"; "#145fcd"; "#ff36a2"; "#6bd1bc"; "#e2d7e1";
      "#434343"; "#d91329"; "#d3ffaf"; "#ffef50"; "#0075ea"; "#fdd5e5"; "#79ecd5"; "#fff3fe"]);
  ("urple", scheme "#877a9b" "#1b1b23"
     ["#000000"; "#b0425b"; "#37a415"; "#ad5c42"; "#564d9b"; "#6c3ca1"; "#808080"; "#87799c";
      "#5d3225"; "#ff6388"; "#29e620"; "#f08161"; "#867aed"; "#a05eee"; "#eaeaea"; "#bfa3ff"]);
  ("vaughn", scheme "#dcdccc" "#25234f"
     ["#25234f"; "#705050"; "#60b48a"; "#dfaf8f"; "#5555ff"; "#f08cc3"; "#8cd0d3"; "#709080";
      "#709080"; "#dca3a3"; "#60b48a"; "#f0dfaf"; "#5555ff"; "#ec93d3"; "#93e0e3"; "#ffffff"]);
  ("vesper", scheme "#ffffff" "#101010"
     ["#101010"; "#f5a191"; "#90b99f"; "#e6b99d"; "#aca1cf"; "#e29eca"; "#ea83a5"; "#a0a0a0";
      "#7e7e7e"; "#ff8080"; "#99ffe4"; "#ffc799"; "#b9aeda"; "#ecaad6"; "#f591b2"; "#ffffff"]);
  ("vibrant_ink", scheme "#ffffff" "#000000"
     ["#878787"; "#ff6600"; "#ccff04"; "#ffcc00"; "#44b4cc"; "#9933cc"; "#44b4cc"; "#f5f5f5";
      "#555555"; "#ff0000"; "#00ff00"; "#ffff00"; "#0000ff"; "#ff00ff"; "#00ffff"; "#e5e5e5"]);
  ("vimbones", scheme "#353535" "#f0f0ca"
     ["#f0f0ca"; "#a8334c"; "#4f6c31"; "#944927"; "#286486"; "#88507d"; "#3b8992"; "#353535";
      "#c6c6a3"; "#94253e"; "#3f5a22"; "#803d1c"; "#1d5573"; "#7b3b70"; "#2b747c"; "#5c5c5c"]);
  ("violet_dark", scheme "#708284" "#1c1d1f"
     ["#56595c"; "#c94c22"; "#85981c"; "#b4881d"; "#2e8bce"; "#d13a82"; "#32a198"; "#c9c6bd";
      "#45484b"; "#bd3613"; "#738a04"; "#a57705"; "#2176c7"; "#c61c6f"; "#259286"; "#c9c6bd"]);
  ("violet_light", scheme "#536870" "#fcf4dc"
     ["#56595c"; "#c94c22"; "#85981c"; "#b4881d"; "#2e8bce"; "#d13a82"; "#32a198"; "#d3d0c9";
      "#45484b"; "#bd3613"; "#738a04"; "#a57705"; "#2176c7"; "#c61c6f"; "#259286"; "#c9c6bd"]);
  ("warm_neon", scheme "#afdab6" "#404040"
     ["#000000"; "#e24346"; "#39b13a"; "#dae145"; "#4261c5"; "#f920fb"; "#2abbd4"; "#d0b8a3";
      "#fefcfc"; "#e97071"; "#9cc090"; "#ddda7a"; "#7b91d6"; "#f674ba"; "#5ed1e5"; "#d8c8bb"]);
  ("wez", scheme "#b3b3b3" "#000000"
     ["#000000"; "#cc5555"; "#55cc55"; "#cdcd55"; "#5555cc"; "#cc55cc"; "#7acaca"; "#cccccc";
      "#555555"; "#ff5555"; "#55ff55"; "#ffff55"; "#5555ff"; "#ff55ff"; "#55ffff"; "#ffffff"]);
  ("whimsy", scheme "#b3b0d6" "#29283b"
     ["#535178"; "#ef6487"; "#5eca89"; "#fdd877"; "#65aef7"; "#aa7ff0"; "#43c1be"; "#ffffff";
      "#535178"; "#ef6487"; "#5eca89"; "#fdd877"; "#65aef7"; "#aa7ff0"; "#43c1be"; "#ffffff"]);
  ("wild_cherry", scheme "#dafaff" "#1f1726"
     ["#000507"; "#d94085"; "#2ab250"; "#ffd16f"; "#883cdc"; "#ececec"; "#c1b8b7"; "#fff8de";
      "#009cc9"; "#da6bac"; "#f4dca5"; "#eac066"; "#308cba"; "#ae636b"; "#ff919d"; "#e4838d"]);
  ("wilmersdorf", scheme "#c6c6c6" "#282b33"
     ["#34373e"; "#e06383"; "#7ebebd"; "#cccccc"; "#a6c1e0"; "#e1c1ee"; "#5b94ab"; "#ababab";
      "#434750"; "#fa7193"; "#8fd7d6"; "#d1dfff"; "#b2cff0"; "#efccfd"; "#69abc5"; "#d3d3d3"]);
  ("wombat", scheme "#dedacf" "#171717"
     ["#000000"; "#ff615a"; "#b1e969"; "#ebd99c"; "#5da9f6"; "#e86aff"; "#82fff7"; "#dedacf";
      "#313131"; "#f58c80"; "#ddf88f"; "#eee5b2"; "#a5c7ff"; "#ddaaff"; "#b7fff9"; "#ffffff"]);
  ("wryan", scheme "#999993" "#101010"
     ["#333333"; "#8c4665"; "#287373"; "#7c7c99"; "#395573"; "#5e468c"; "#31658c"; "#899ca1";
      "#3d3d3d"; "#bf4d80"; "#53a6a6"; "#9e9ecb"; "#477ab3"; "#7e62b3"; "#6096bf"; "#c0c0c0"]);
  ("xcodedark", scheme "#dfdfe0" "#292a30"
     ["#414453"; "#ff8170"; "#78c2b3"; "#d9c97c"; "#4eb0cc"; "#ff7ab2"; "#b281eb"; "#dfdfe0";
      "#7f8c98"; "#ff8170"; "#acf2e4"; "#ffa14f"; "#6bdfff"; "#ff7ab2"; "#dabaff"; "#dfdfe0"]);
  ("xcodedarkhc", scheme "#ffffff" "#1f1f24"
     ["#43454b"; "#ff8a7a"; "#83c9bc"; "#d9c668"; "#4ec4e6"; "#ff85b8"; "#cda1ff"; "#ffffff";
      "#838991"; "#ff8a7a"; "#b1faeb"; "#ffa14f"; "#6bdfff"; "#ff85b8"; "#e5cfff"; "#ffffff"]);
  ("xcodelight", scheme "#262626" "#ffffff"
     ["#b4d8fd"; "#d12f1b"; "#3e8087"; "#78492a"; "#0f68a0"; "#ad3da4"; "#804fb8"; "#262626";
      "#8a99a6"; "#d12f1b"; "#23575c"; "#78492a"; "#0b4f79"; "#ad3da4"; "#4b21b0"; "#262626"]);
  ("xcodelighthc", scheme "#000000" "#ffffff"
     ["#b4d8fd"; "#ad1805"; "#355d61"; "#78492a"; "#0058a1"; "#9c2191"; "#703daa"; "#000000";
      "#8a99a6"; "#ad1805"; "#174145"; "#78492a"; "#003f73"; "#9c2191"; "#441ea1"; "#000000"]);
  ("xcodewwdc", scheme "#e7e8eb" "#292c36"
     ["#494d5c"; "#bb383a"; "#94c66e"; "#d28e5d"; "#8884c5"; "#b73999"; "#00aba4"; "#e7e8eb";
      "#7f869e"; "#bb383a"; "#94c66e"; "#d28e5d"; "#8884c5"; "#b73999"; "#00aba4"; "#e7e8eb"]);
  ("zenbones", scheme "#2c363c" "#f0edec"
     ["#f0edec"; "#a8334c"; "#4f6c31"; "#944927"; "#286486"; "#88507d"; "#3b8992"; "#2c363c";
      "#cfc1ba"; "#94253e"; "#3f5a22"; "#803d1c"; "#1d5573"; "#7b3b70"; "#2b747c"; "#4f5e68"]);
  ("zenbones_dark", scheme "#b4bdc3" "#1c1917"
     ["#1c1917"; "#de6e7c"; "#819b69"; "#b77e64"; "#6099c0"; "#b279a7"; "#66a5ad"; "#b4bdc3";
      "#403833"; "#e8838f"; "#8bae68"; "#d68c67"; "#61abda"; "#cf86c1"; "#65b8c1"; "#888f94"]);
  ("zenbones_light", scheme "#2c363c" "#f0edec"
     ["#f0edec"; "#a8334c"; "#4f6c31"; "#944927"; "#286486"; "#88507d"; "#3b8992"; "#2c363c";
      "#cfc1ba"; "#94253e"; "#3f5a22"; "#803d1c"; "#1d5573"; "#7b3b70"; "#2b747c"; "#4f5e68"]);
  ("zenburn", scheme "#dcdccc" "#3f3f3f"
     ["#4d4d4d"; "#705050"; "#60b48a"; "#f0dfaf"; "#506070"; "#dc8cc3"; "#8cd0d3"; "#dcdccc";
      "#709080"; "#dca3a3"; "#c3bf9f"; "#e0cf9f"; "#94bff3"; "#ec93d3"; "#93e0e3"; "#ffffff"]);
  ("zenburned", scheme "#f0e4cf" "#404040"
     ["#404040"; "#e3716e"; "#819b69"; "#b77e64"; "#6099c0"; "#b279a7"; "#66a5ad"; "#f0e4cf";
      "#625a5b"; "#ec8685"; "#8bae68"; "#d68c67"; "#61abda"; "#cf86c1"; "#65b8c1"; "#c0ab86"]);
  ("zenwritten_dark", scheme "#bbbbbb" "#191919"
     ["#191919"; "#de6e7c"; "#819b69"; "#b77e64"; "#6099c0"; "#b279a7"; "#66a5ad"; "#bbbbbb";
      "#3d3839"; "#e8838f"; "#8bae68"; "#d68c67"; "#61abda"; "#cf86c1"; "#65b8c1"; "#8e8e8e"]);
  ("zenwritten_light", scheme "#353535" "#eeeeee"
     ["#eeeeee"; "#a8334c"; "#4f6c31"; "#944927"; "#286486"; "#88507d"; "#3b8992"; "#353535";
      "#c6c3c3"; "#94253e"; "#3f5a22"; "#803d1c"; "#1d5573"; "#7b3b70"; "#2b747c"; "#5c5c5c"])
]%list.

(** The record of the scheme [catppuccin_mocha], entry 55 of the table. *)
Definition catppuccin_mocha : Scheme :=
  scheme "#cdd6f4" "#1e1e2e"
    ["#45475a"; "#f38ba8"; "#a6e3a1"; "#f9e2af"; "#89b4fa"; "#f5c2e7"; "#94e2d5"; "#a6adc8";
     "#585b70"; "#f37799"; "#89d88b"; "#ebd391"; "#74a8fc"; "#f2aede"; "#6bd7ca"; "#bac2de"].

(** ** The process state: the table and what was written to standard output *)

Record World : Type := world {
  schemes : Registry;
  stdout : string
}.

Definition M (A : Type) : Type := World -> result A * World.

Definition ret {A : Type} (a : A) : M A := fun w => (Ok a, w).

Definition raise {A : Type} (e : exn) : M A := fun w => (Raise e, w).

Definition bind {A B : Type} (m : M A) (k : A -> M B) : M B :=
  fun w =>
    match m w with
    | (Ok a, w') => k a w'
    | (Raise e, w') => (Raise e, w')
    end.

Notation "x <- m ;; k" := (bind m (fun x => k))
  (at level 61, m at next level, right associativity).
Notation "m ;;; k" := (bind m (fun _ => k))
  (at level 61, right associativity).

Definition lift {A : Type} (r : result A) : M A := fun w => (r, w).

(** [print(s)] *)
Definition print (s : string) : M unit :=
  fun w => (Ok tt, world (schemes w) (stdout w ++ s ++ NL)).

(** [color_schemes[name]] on a table value. *)
Definition lookup (name : string) (reg : Registry) : result Scheme :=
  match find (fun kv => String.eqb (fst kv) name) reg with
  | Some kv => Ok (snd kv)
  | None => Raise KeyError
  end.

(** [color_schemes[name]] in the process. *)
Definition get_scheme (name : string) : M Scheme :=
  fun w => (lookup name (schemes w), w).

(** The keys of the table, as [for x in color_schemes] visits them. *)
Definition keys (reg : Registry) : list string := map fst reg.

Definition get_keys : M (list string) := fun w => (Ok (keys (schemes w)), w).

Fixpoint for_each {A : Type} (l : list A) (body : A -> M unit) : M unit :=
  match l with
  | [] => ret tt
  | x :: t => body x ;;; for_each t body
  end.

(** [l[i]] *)
Definition getitem {A : Type} (l : list A) (i : nat) : result A :=
  match nth_error l i with
  | Some x => Ok x
  | None => Raise IndexError
  end.

(** ** [_hex2rgb_dict] *)

Record RgbScheme : Type := rgb_scheme {
  rgb_fg : string;
  rgb_bg : string;
  rgb_colors : list string
}.

Definition _hex2rgb_dict (s : Scheme) : result RgbScheme :=
  let! f := _hex2rgb (fg s) in
  let! b := _hex2rgb (bg s) in
  let! cs := rmap _hex2rgb (colors s) in
  Ok (rgb_scheme f b cs).

(** ** [set_colors] *)

(** [";".join([f"{x};{colors[x]}" for x in range(0,16)])] *)
Definition color_string (colors : list string) : result string :=
  let! items := rmap (fun x => let! c := getitem colors x in
                               Ok (Py.str (Z.of_nat x) ++ ";" ++ c))
                     (Py.range 0 16) in
  Ok (Py.join ";" items).

(** The argument of the first [print]: [f"{ANSI}{color_string}{END}"]. *)
Definition palette_sequence (s : Scheme) : result string :=
  let! cs := color_string (colors s) in
  Ok (ANSI ++ cs ++ END).

Definition fg_sequence (s : Scheme) : string := FG ++ fg s ++ END.
Definition bg_sequence (s : Scheme) : string := BG ++ bg s ++ END.

Definition set_colors (name : string) : M unit :=
  s <- get_scheme name ;;
  p <- lift (palette_sequence s) ;;
  print p ;;;
  print (fg_sequence s ++ bg_sequence s).

(** ** [show_colors] *)

Definition title (name : string) (s : Scheme) : string :=
  name ++ " | Foreground: " ++ fg s ++ " | Background: " ++ bg s.

Definition spacing (t : string) : string := Py.mul " " (83 - Py.len t).

(** The text of the title row between the two colour codes and [RESET]. *)
Definition title_segment (name : string) (s : Scheme) : string :=
  " " ++ title name s ++ spacing (title name s).

Definition fgtc (rgb : string) : string := FGTC ++ rgb ++ "m".
Definition bgtc (rgb : string) : string := BGTC ++ rgb ++ "m".

Definition title_row (name : string) (s : Scheme) (r : RgbScheme) : string :=
  "  " ++ fgtc (rgb_fg r) ++ bgtc (rgb_bg r) ++ title_segment name s
       ++ RESET ++ NL.

(** The variables the two loops of [show_colors] update. *)
Record Draw : Type := draw {
  cur_fg : string;
  cur_bg : string;
  color_display : list string
}.

Definition extend (d : list string) (x : string) : list string := (d ++ [x])%list.

(** Body of [for i in range(0,16)]. *)
Definition text_cell (s : Scheme) (r : RgbScheme) (i : nat) (st : Draw)
  : result Draw :=
  let! rc := getitem (rgb_colors r) i in
  let f := fgtc rc in
  let! c := getitem (colors s) i in
  let d := extend (color_display st) (f ++ cur_bg st ++ " " ++ c ++ " ") in
  let d := if ((i + 1) mod 8 =? 0)%nat then extend d (RESET ++ NL) else d in
  if (i =? 7)%nat then
    let f := fgtc (rgb_fg r) in
    let b := bgtc (rgb_bg r) in
    Ok (draw f b (extend d ("  " ++ f ++ b ++ " Bright     ")))
  else Ok (draw f (cur_bg st) d).

(** Body of [for i in range(0,8)]. *)
Definition background_cell (s : Scheme) (r : RgbScheme) (i : nat) (st : Draw)
  : result Draw :=
  let! rc := getitem (rgb_colors r) i in
  let b := bgtc rc in
  let! c := getitem (colors s) i in
  let d := extend (color_display st) (cur_fg st ++ b ++ " " ++ c ++ " ") in
  let d := if ((i + 1) mod 8 =? 0)%nat then extend d (RESET ++ NL) else d in
  Ok (draw (cur_fg st) b d).

(** The list [color_display] at the final [print]. *)
Definition draw_scheme (name : string) (s : Scheme) : result (list string) :=
  let! r := _hex2rgb_dict s in
  let f := fgtc (rgb_fg r) in
  let b := bgtc (rgb_bg r) in
  let d := [title_row name s r] in
  let d := extend d ("  " ++ f ++ b ++ " Normal     ") in
  let! st := rfold (text_cell s r) (Py.range 0 16) (draw f b d) in
  let f := fgtc (rgb_fg r) in
  let b := bgtc (rgb_bg r) in
  let d := extend (color_display st) ("  " ++ f ++ b ++ " Background ") in
  let! st := rfold (background_cell s r) (Py.range 0 8) (draw f b d) in
  Ok (color_display st).

Definition show_colors (name : string) : M unit :=
  s <- get_scheme name ;;
  d <- lift (draw_scheme name s) ;;
  print (Py.join "" d).

(** ** [main] *)

(** The [Namespace] that [_get_args] returns: the two options are [None]
    when absent, the two flags are [False]. *)
Record Namespace : Type := namespace {
  arg_color_scheme : option string;
  arg_regexp : option string;
  arg_list : bool;
  arg_show : bool
}.

(** Truth value of an optional string in an [if]. *)
Definition truthy (o : option string) : bool :=
  match o with
  | Some (String _ _) => true
  | _ => false
  end.

Definition text_of (o : option string) : string :=
  match o with
  | Some s => s
  | None => EmptyString
  end.

Section Dispatcher.

(** [re.search(pattern, name)]: whether a match was found, or the error
    of a pattern that does not compile. *)
Variable re_search : string -> string -> result bool.

Definition main (args : Namespace) : M unit :=
  if truthy (arg_color_scheme args) then
    set_colors (text_of (arg_color_scheme args))
  else if truthy (arg_regexp args) then
    print "" ;;;
    ks <- get_keys ;;
    for_each ks (fun x =>
      found <- lift (re_search (text_of (arg_regexp args)) x) ;;
      if found then show_colors x else ret tt)
  else if arg_list args then
    ks <- get_keys ;;
    for_each ks print
  else if arg_show args then
    print "" ;;;
    ks <- get_keys ;;
    for_each ks show_colors
  else ret tt.

End Dispatcher.

(** The state a run starts from, and its observable outcome. *)
Definition start : World := world color_schemes "".

Definition run {A : Type} (m : M A) : result A * string :=
  let (r, w) := m start in (r, stdout w).

(** The four actions as [main] receives them. *)
Definition SetScheme (name : string) : Namespace :=
  namespace (Some name) None false false.
Definition Search (pattern : string) : Namespace :=
  namespace None (Some pattern) false false.
Definition ListNames : Namespace := namespace None None true false.
Definition ShowAll : Namespace := namespace None None false true.

(** ** Vocabulary of the specification *)

Definition is_hex_digit (c : ascii) : bool :=
  let n := Py.ord c in
  ((48 <=? n) && (n <=? 57) || (97 <=? n) && (n <=? 102)
   || (65 <=? n) && (n <=? 70))%nat.

Fixpoint all_hex (s : string) : bool :=
  match s with
  | String c t => is_hex_digit c && all_hex t
  | EmptyString => true
  end.

(** Exactly six hexadecimal digits. *)
Definition is_hex6 (s : string) : bool :=
  (String.length s =? 6)%nat && all_hex s.

(** The pattern [#rrggbb] of the data model. *)
Definition is_hex_color (s : string) : bool :=
  match s with
  | String c t => Ascii.eqb c "#" && is_hex6 t
  | EmptyString => false
  end.

(** Stripping the optional leading [#], as the specification words it. *)
Definition strip_optional_hash (s : string) : string :=
  match s with
  | String c t => if Ascii.eqb c "#" then t else s
  | EmptyString => s
  end.

(** The conversion raises. *)
Definition fails (s : string) : Prop := exists e, _hex2rgb s = Raise e.

(** Case normalisation of hexadecimal digits. *)
Definition lower_char (c : ascii) : ascii :=
  let n := Py.ord c in
  if ((65 <=? n) && (n <=? 90))%nat then Py.chr (n + 32) else c.

Fixpoint lower (s : string) : string :=
  match s with
  | String c t => String (lower_char c) (lower t)
  | EmptyString => EmptyString
  end.

Definition hex_digit_of (d : Z) : ascii :=
  if (d <? 10)%Z then Py.chr (48 + Z.to_nat d) else Py.chr (87 + Z.to_nat d).

(** A component re-encoded as a group of two base-16 digits. *)
Definition hex2 (n : Z) : string :=
  String (hex_digit_of (n / 16)) (String (hex_digit_of (n mod 16)) "").

(** The fields of a string at each occurrence of [sep]. *)
Fixpoint split_on (sep : ascii) (s : string) : list string :=
  match s with
  | EmptyString => [EmptyString]
  | String c t =>
      if Ascii.eqb c sep then EmptyString :: split_on sep t
      else match split_on sep t with
           | [] => [String c ""]
           | f :: fs => String c f :: fs
           end
  end.

Definition parse_decimal (s : string) : option Z :=
  option_map Z.of_int (NilZero.int_of_string s).

(** The three components carried by a string [r;g;b]. *)
Definition rgb_fields (s : string) : option (Z * Z * Z) :=
  match split_on ";" s with
  | [r; g; b] =>
      match parse_decimal r, parse_decimal g, parse_decimal b with
      | Some r', Some g', Some b' => Some (r', g', b')
      | _, _, _ => None
      end
  | _ => None
  end.

(** Python values, as far as the results of the codec are concerned. *)
Inductive value : Type :=
| Str (s : string)
| Int (n : Z)
| Tuple3 (x y z : value).

(** What a call [_hex2rgb(s)] evaluates to. *)
Definition hex2rgb_value (s : string) : result value :=
  let! out := _hex2rgb s in Ok (Str out).

(** [sub] occurs in [s]. *)
Fixpoint contains (sub s : string) : bool :=
  String.prefix sub s ||
  match s with
  | String _ t => contains sub t
  | EmptyString => false
  end.

(** The lines of an output, each ended by a newline. *)
Fixpoint lines (s : string) : list string :=
  match s with
  | EmptyString => []
  | String c t =>
      if Ascii.eqb c (Py.chr 10) then EmptyString :: lines t
      else match lines t with
           | [] => [String c ""]
           | l :: ls => String c l :: ls
           end
  end.

Fixpoint nodupb (l : list string) : bool :=
  match l with
  | [] => true
  | x :: t => negb (existsb (String.eqb x) t) && nodupb t
  end.

(** A scheme as the data model wants it. *)
Definition wf_scheme (s : Scheme) : bool :=
  (List.length (colors s) =? 16)%nat && is_hex_color (fg s)
  && is_hex_color (bg s) && forallb is_hex_color (colors s).

(** The preview block of a scheme: what [show_colors] writes for it. *)
Definition block_of (name : string) : string :=
  snd (run (show_colors name)).

(** The text of a styled line between its two colour codes, each of which
    ends at its [m], and the next escape character. *)
Fixpoint after_m (n : nat) (s : string) : string :=
  match n, s with
  | O, _ => s
  | S k, String c t => if Ascii.eqb c "m" then after_m k t else after_m n t
  | S _, EmptyString => EmptyString
  end.

Fixpoint until_esc (s : string) : string :=
  match s with
  | String c t => if Ascii.eqb c ESC then EmptyString else String c (until_esc t)
  | EmptyString => EmptyString
  end.

Definition styled_segment (block : string) : string :=
  until_esc (after_m 2 block).

(** [re.search] on the patterns that have no special character: the
    pattern occurs in the name. *)
Definition literal_search (pattern name : string) : result bool :=
  Ok (contains pattern name).

(** The names a pattern selects, in the order of the table. *)
Definition found_in (re_search : string -> string -> result bool)
  (pattern name : string) : bool :=
  match re_search pattern name with
  | Ok true => true
  | _ => false
  end.

Definition selected (re_search : string -> string -> result bool)
  (pattern : string) : list string :=
  filter (found_in re_search pattern) (keys color_schemes).

(** What the specification expects of a search: a blank line, then the
    block of each selected name. *)
Definition search_output (re_search : string -> string -> result bool)
  (pattern : string) : string :=
  NL ++ Py.join "" (map block_of (selected re_search pattern)).

(** The sentence of the specification on the failure of the conversion. *)
Definition fails_iff_malformed : Prop :=
  forall s, fails s <-> is_hex6 (strip_optional_hash s) = false.

(** Every character, and the hexadecimal digits among them. *)
Definition all_chars : list ascii := map Py.chr (seq 0 256).

Definition hex_chars : list ascii := filter is_hex_digit all_chars.

Fixpoint has_char (c : ascii) (s : string) : bool :=
  match s with
  | String a t => Ascii.eqb a c || has_char c t
  | EmptyString => false
  end.

(** A group of two hexadecimal digits: [int] reads a value from 0 to 255,
    whose two base-16 digits are the group in lower case and whose decimal
    string reads back as the value. *)
Definition group_ok (a b : ascii) : bool :=
  match Py.int16 (String a (String b "")) with
  | Some n =>
      (0 <=? n)%Z && (n <=? 255)%Z
      && String.eqb (hex2 n) (lower (String a (String b "")))
      && match parse_decimal (Py.str n) with
         | Some m => (m =? n)%Z
         | None => false
         end
      && negb (has_char ";" (Py.str n))
  | None => false
  end.

(** A scheme of the table is drawn without error. *)
Definition drawn (name : string) : bool :=
  match lookup name color_schemes with
  | Ok s => match draw_scheme name s with
            | Ok _ => true
            | Raise _ => false
            end
  | Raise _ => false
  end.

(** The title row of a scheme of the table, as it is printed. *)
Definition title_row_ok (name : string) (s : Scheme) : bool :=
  match _hex2rgb_dict s, draw_scheme name s with
  | Ok r, Ok (row :: _) =>
      String.eqb row (title_row name s r)
      && String.eqb (styled_segment (block_of name)) (title_segment name s)
      && (String.length (title name s ++ spacing (title name s)) =? 83)%nat
      && (String.length (styled_segment (block_of name)) =? 84)%nat
  | _, _ => false
  end.

(** An action that leaves the table as it found it. *)
Definition preserves {A : Type} (m : M A) : Prop :=
  forall w, schemes (snd (m w)) = schemes w.

(** The 16 items [f"{x};{colors[x]}"] of a palette. *)
Definition palette_pairs (s : Scheme) : list string :=
  map (fun xc => Py.str (Z.of_nat (fst xc)) ++ ";" ++ snd xc)
      (combine (Py.range 0 16) (colors s)).

(** The components from 0 to 255. *)
Definition byte_values : list Z := map Z.of_nat (seq 0 256).

(** Reading back the two base-16 digits of a component gives the component. *)
Definition hex2_ok (n : Z) : bool :=
  match Py.int16 (hex2 n) with
  | Some m => (m =? n)%Z
  | None => false
  end.

(** A lone hexadecimal digit is read as a value from 0 to 15. *)
Definition digit_ok (a : ascii) : bool :=
  match Py.int16 (String a "") with
  | Some n => (0 <=? n)%Z && (n <=? 15)%Z
  | None => false
  end.

(** The pieces of a drawn scheme: the start of a row, a cell of the two
    rows of text colours, a cell of the row of background colours. *)
Definition row_head (r : RgbScheme) (label : string) : string :=
  "  " ++ fgtc (rgb_fg r) ++ bgtc (rgb_bg r) ++ label.

Definition text_cells (s : Scheme) (r : RgbScheme) (from : nat) : list string :=
  map (fun crc => fgtc (snd crc) ++ bgtc (rgb_bg r) ++ " " ++ fst crc ++ " ")
      (firstn 8 (skipn from (combine (colors s) (rgb_colors r)))).

Definition background_cells (s : Scheme) (r : RgbScheme) : list string :=
  map (fun crc => fgtc (rgb_fg r) ++ bgtc (snd crc) ++ " " ++ fst crc ++ " ")
      (firstn 8 (combine (colors s) (rgb_colors r))).

Definition row_end : string := RESET ++ NL.

Definition rows (name : string) (s : Scheme) (r : RgbScheme) : list string :=
  ([title_row name s r; row_head r " Normal     "]
   ++ text_cells s r 0
   ++ [row_end; row_head r " Bright     "]
   ++ text_cells s r 8
   ++ [row_end; row_head r " Background "]
   ++ background_cells s r
   ++ [row_end])%list.

(** A line without its colour codes, each of which runs from an escape
    character to the next [m]. *)
Fixpoint visible_from (inside : bool) (s : string) : string :=
  match s with
  | EmptyString => EmptyString
  | String c t =>
      if inside then visible_from (negb (Ascii.eqb c "m")) t
      else if Ascii.eqb c ESC then visible_from true t
      else String c (visible_from false t)
  end.

Definition visible_width (line : string) : nat :=
  String.length (visible_from false line).

Definition block_widths_ok (name : string) : bool :=
  match map visible_width (lines (block_of name)) with
  | [a; b; c; d; e] =>
      ((a =? 86) && (b =? 86) && (c =? 86) && (d =? 86) && (e =? 0))%nat
  | _ => false
  end.

(** A [re.search] that refuses every pattern. *)
Definition rejecting_search (pattern name : string) : result bool :=
  Raise ReError.

(** A [re.search] that finds every pattern in every name, as the pattern
    [.] is found in every name that is not empty. *)
Definition everywhere_search (pattern name : string) : result bool :=
  Ok true.


(** * Properties *)

(** ** Strings *)

Lemma append_assoc (a b c : string) : (a ++ b) ++ c = a ++ b ++ c.
Proof.
  induction a as [|x a IH]; simpl; [reflexivity | now rewrite IH].
Qed.

Lemma append_nil_r (a : string) : a ++ "" = a.
Proof.
  induction a as [|x a IH]; simpl; [reflexivity | now rewrite IH].
Qed.

Lemma nodupb_NoDup (l : list string) : nodupb l = true -> NoDup l.
Proof.
  induction l as [|x t IH]; simpl; intros H; constructor.
  - apply andb_prop in H as [H _].
    intros Hin. apply negb_true_iff in H.
    assert (existsb (String.eqb x) t = true) as E.
    { apply existsb_exists. exists x. split; [assumption | apply String.eqb_refl]. }
    congruence.
  - apply IH. now apply andb_prop in H as [_ H].
Qed.

(** ** The table *)

Lemma registry_checked :
  forallb (fun kv => wf_scheme (snd kv)) color_schemes = true.
Proof. vm_compute. reflexivity. Qed.

Lemma keys_checked :
  nodupb (keys color_schemes) = true /\
  forallb (fun k => negb (String.eqb k "")) (keys color_schemes) = true.
Proof. split; vm_compute; reflexivity. Qed.

Lemma registry_wf (name : string) (s : Scheme) :
  In (name, s) color_schemes -> wf_scheme s = true.
Proof.
  intros H.
  exact (proj1 (forallb_forall _ _) registry_checked (name, s) H).
Qed.

Lemma keys_NoDup : NoDup (keys color_schemes).
Proof. apply nodupb_NoDup, keys_checked. Qed.

Lemma key_not_empty (name : string) :
  In name (keys color_schemes) -> truthy (Some name) = true.
Proof.
  intros H.
  pose proof (proj1 (forallb_forall _ _) (proj2 keys_checked) name H) as E.
  destruct name; [discriminate E | reflexivity].
Qed.

Lemma in_keys (reg : Registry) (name : string) (s : Scheme) :
  In (name, s) reg -> In name (keys reg).
Proof. intros H. unfold keys. now apply (in_map fst) in H. Qed.

(** A key that occurs once is looked up to its own record. *)
Lemma lookup_In (reg : Registry) (name : string) (s : Scheme) :
  NoDup (keys reg) -> In (name, s) reg -> lookup name reg = Ok s.
Proof.
  unfold lookup.
  induction reg as [|[k v] reg IH]; simpl; intros ND H; [contradiction|].
  inversion ND as [|? ? Hnotin ND']; subst.
  destruct H as [H | H].
  - inversion H; subst. now rewrite String.eqb_refl.
  - destruct (String.eqb k name) eqn:E.
    + apply String.eqb_eq in E; subst k.
      exfalso. apply Hnotin. now apply in_keys with s.
    + now apply IH.
Qed.

Lemma lookup_registry (name : string) (s : Scheme) :
  In (name, s) color_schemes -> lookup name color_schemes = Ok s.
Proof. apply lookup_In, keys_NoDup. Qed.

(** ** The table is only read *)

Lemma preserves_ret {A : Type} (a : A) : preserves (ret a).
Proof. intros w. reflexivity. Qed.

Lemma preserves_lift {A : Type} (r : result A) : preserves (lift r).
Proof. intros w. reflexivity. Qed.

Lemma preserves_print (s : string) : preserves (print s).
Proof. intros w. reflexivity. Qed.

Lemma preserves_get_scheme (name : string) : preserves (get_scheme name).
Proof. intros w. reflexivity. Qed.

Lemma preserves_get_keys : preserves get_keys.
Proof. intros w. reflexivity. Qed.

Lemma preserves_bind {A B : Type} (m : M A) (k : A -> M B) :
  preserves m -> (forall a, preserves (k a)) -> preserves (bind m k).
Proof.
  intros Hm Hk w. unfold bind.
  specialize (Hm w).
  destruct (m w) as [[a | e] w']; simpl in *.
  - now rewrite Hk.
  - assumption.
Qed.

Lemma preserves_for_each {A : Type} (l : list A) (body : A -> M unit) :
  (forall x, preserves (body x)) -> preserves (for_each l body).
Proof.
  intros Hb. induction l as [|x t IH]; simpl.
  - apply preserves_ret.
  - apply preserves_bind; [apply Hb | intros _; exact IH].
Qed.

Create HintDb readonly.

#[local] Hint Resolve preserves_ret preserves_lift preserves_print
  preserves_get_scheme preserves_get_keys : readonly.

Lemma preserves_set_colors (name : string) : preserves (set_colors name).
Proof.
  unfold set_colors.
  repeat (apply preserves_bind; [auto with readonly | intros ?]).
  auto with readonly.
Qed.

Lemma preserves_show_colors (name : string) : preserves (show_colors name).
Proof.
  unfold show_colors.
  repeat (apply preserves_bind; [auto with readonly | intros ?]).
  auto with readonly.
Qed.

Lemma preserves_main (re_search : string -> string -> result bool)
  (args : Namespace) : preserves (main re_search args).
Proof.
  unfold main.
  destruct (truthy (arg_color_scheme args)); [apply preserves_set_colors|].
  destruct (truthy (arg_regexp args)).
  { apply preserves_bind; [auto with readonly | intros _].
    apply preserves_bind; [auto with readonly | intros ks].
    apply preserves_for_each. intros x.
    apply preserves_bind; [auto with readonly | intros [|]];
      [apply preserves_show_colors | auto with readonly]. }
  destruct (arg_list args).
  { apply preserves_bind; [auto with readonly | intros ks].
    apply preserves_for_each. auto with readonly. }
  destruct (arg_show args); [|auto with readonly].
  apply preserves_bind; [auto with readonly | intros _].
  apply preserves_bind; [auto with readonly | intros ks].
  apply preserves_for_each, preserves_show_colors.
Qed.

(** C8: every scheme of the table has a palette of exactly 16 entries, its
    foreground, its background and each palette entry are a [#] followed by
    exactly six hexadecimal digits, and no action changes the table: after
    [main], whatever the arguments and the state it started from, the table
    is the one it started with (at process start, [color_schemes]). *)
Theorem registry_invariant :
  (forall name s, In (name, s) color_schemes ->
     List.length (colors s) = 16 /\
     is_hex_color (fg s) = true /\
     is_hex_color (bg s) = true /\
     (forall c, In c (colors s) -> is_hex_color c = true)) /\
  schemes start = color_schemes /\
  (forall re_search args w,
     schemes (snd (main re_search args w)) = schemes w).
Proof.
  split; [|split].
  - intros name s H. apply registry_wf in H. unfold wf_scheme in H.
    repeat (apply andb_prop in H as [H ?]).
    repeat split; try assumption.
    + now apply Nat.eqb_eq.
    + intros c Hc. eapply forallb_forall; eassumption.
  - reflexivity.
  - intros re_search args w. apply preserves_main.
Qed.

(** C9: the List action prints the names of the table, each followed by a
    newline, in the order of the table; the lines of the output are the
    names, their number is the size of the table, and no name occurs
    twice. *)
Theorem list_action_output :
  forall re_search,
    run (main re_search ListNames)
    = (Ok tt, Py.join "" (map (fun k => k ++ NL) (keys color_schemes))) /\
    lines (snd (run (main re_search ListNames))) = keys color_schemes /\
    List.length (lines (snd (run (main re_search ListNames))))
    = List.length color_schemes /\
    NoDup (lines (snd (run (main re_search ListNames)))).
Proof.
  intros re_search.
  assert (lines (snd (run (main re_search ListNames))) = keys color_schemes)
    as E by (vm_compute; reflexivity).
  split; [vm_compute; reflexivity|].
  split; [exact E|].
  rewrite E. split.
  - unfold keys. apply length_map.
  - apply keys_NoDup.
Qed.

(** C10: with the empty string as pattern the Search action writes nothing,
    neither the blank line nor a block, and ends normally: [main] takes the
    search branch only for a pattern that is not empty.  This holds for
    every behaviour of [re.search], also one that finds the empty pattern in
    every name. *)
Theorem search_empty_pattern_silent :
  forall re_search w,
    main re_search (Search "") w = (Ok tt, w) /\
    run (main re_search (Search "")) = (Ok tt, "").
Proof.
  intros re_search w. split; reflexivity.
Qed.

(** ** The Set action *)

Lemma palette_sequence_16 (s : Scheme) :
  List.length (colors s) = 16 ->
  palette_sequence s = Ok (ANSI ++ Py.join ";" (palette_pairs s) ++ END).
Proof.
  unfold palette_sequence, color_string, palette_pairs.
  destruct s as [f b cs]; simpl colors. intros H.
  do 16 (destruct cs as [|? cs]; [discriminate H|]).
  destruct cs; [reflexivity | discriminate H].
Qed.

Lemma palette_pairs_nth (s : Scheme) (i : nat) :
  List.length (colors s) = 16 -> i < 16 ->
  exists c, nth_error (colors s) i = Some c /\
            nth_error (palette_pairs s) i
            = Some (Py.str (Z.of_nat i) ++ ";" ++ c).
Proof.
  unfold palette_pairs.
  destruct s as [f b cs]; simpl colors. intros H Hi.
  do 16 (destruct cs as [|? cs]; [discriminate H|]).
  do 16 (destruct i as [|i]; [eexists; split; reflexivity|]).
  exfalso. clear -Hi. lia.
Qed.

(** What [set_colors] writes for a scheme of the table. *)
Lemma set_colors_run (name : string) (s : Scheme) (p : string) (w : World) :
  lookup name (schemes w) = Ok s ->
  palette_sequence s = Ok p ->
  set_colors name w
  = (Ok tt, world (schemes w)
                  (stdout w ++ p ++ NL ++ fg_sequence s ++ bg_sequence s ++ NL)).
Proof.
  intros Hl Hp.
  unfold set_colors, bind, get_scheme, lift, print. rewrite Hl, Hp.
  cbn [schemes stdout]. now rewrite !append_assoc.
Qed.

Lemma main_set_scheme (re_search : string -> string -> result bool)
  (name : string) (s : Scheme) :
  In (name, s) color_schemes ->
  run (main re_search (SetScheme name))
  = (Ok tt, ANSI ++ Py.join ";" (palette_pairs s) ++ END ++ NL
            ++ fg_sequence s ++ bg_sequence s ++ NL).
Proof.
  intros H.
  pose proof (registry_wf _ _ H) as Hwf.
  unfold wf_scheme in Hwf. repeat (apply andb_prop in Hwf as [Hwf ?]).
  apply Nat.eqb_eq in Hwf.
  unfold run, main, SetScheme; cbn [arg_color_scheme].
  rewrite (key_not_empty name) by (now apply in_keys with s). cbn [text_of].
  rewrite (set_colors_run name s _ start (lookup_registry _ _ H)
             (palette_sequence_16 s Hwf)).
  cbn [schemes stdout start]. unfold start. cbn [stdout append].
  now rewrite !append_assoc.
Qed.

(** C1: for every scheme of the table the palette-set string of the Set
    action is [ESC ]4;], then 16 items joined by [;], then [BEL]; item [i],
    for [i] from 0 to 15 in this order, is the decimal index [i], a [;] and
    palette entry [i], which is a [#] and six hexadecimal digits; the action
    writes this string first, followed by the newline of [print]. *)
Theorem set_palette_sequence_format :
  forall re_search name s,
    In (name, s) color_schemes ->
    exists pairs : list string,
      palette_sequence s
      = Ok (String ESC "]4;" ++ Py.join ";" pairs ++ String BEL "") /\
      List.length pairs = 16 /\
      (forall i, i < 16 ->
         exists c, nth_error (colors s) i = Some c /\
                   is_hex_color c = true /\
                   nth_error pairs i = Some (Py.str (Z.of_nat i) ++ ";" ++ c)) /\
      map (fun i => Py.str (Z.of_nat i)) (Py.range 0 16)
      = ["0"; "1"; "2"; "3"; "4"; "5"; "6"; "7"; "8"; "9"; "10"; "11"; "12";
         "13"; "14"; "15"]%list /\
      exists rest,
        run (main re_search (SetScheme name))
        = (Ok tt, (String ESC "]4;" ++ Py.join ";" pairs ++ String BEL "")
                  ++ NL ++ rest).
Proof.
  intros re_search name s H.
  pose proof (registry_wf _ _ H) as Hwf.
  unfold wf_scheme in Hwf. repeat (apply andb_prop in Hwf as [Hwf ?]).
  apply Nat.eqb_eq in Hwf.
  exists (palette_pairs s). split; [|split; [|split; [|split]]].
  - now apply palette_sequence_16.
  - unfold palette_pairs. rewrite length_map, length_combine, Hwf. reflexivity.
  - intros i Hi.
    destruct (palette_pairs_nth s i Hwf Hi) as [c [Hc Hp]].
    exists c. repeat split; try assumption.
    eapply forallb_forall; [eassumption|]. eapply nth_error_In; eassumption.
  - reflexivity.
  - exists (fg_sequence s ++ bg_sequence s ++ NL).
    rewrite (main_set_scheme re_search name s H).
    fold ANSI. fold END. now rewrite !append_assoc.
Qed.

Lemma set_palette_sequence_format_witness :
  In ("catppuccin_mocha", catppuccin_mocha) color_schemes /\
  exists pairs : list string,
    palette_sequence catppuccin_mocha
    = Ok (String ESC "]4;" ++ Py.join ";" pairs ++ String BEL "") /\
    List.length pairs = 16 /\
    (forall i, i < 16 ->
       exists c, nth_error (colors catppuccin_mocha) i = Some c /\
                 is_hex_color c = true /\
                 nth_error pairs i = Some (Py.str (Z.of_nat i) ++ ";" ++ c)) /\
    map (fun i => Py.str (Z.of_nat i)) (Py.range 0 16)
    = ["0"; "1"; "2"; "3"; "4"; "5"; "6"; "7"; "8"; "9"; "10"; "11"; "12";
       "13"; "14"; "15"]%list /\
    exists rest,
      run (main literal_search (SetScheme "catppuccin_mocha"))
      = (Ok tt, (String ESC "]4;" ++ Py.join ";" pairs ++ String BEL "")
                ++ NL ++ rest).
Proof.
  split.
  - apply (nth_error_In _ 55). reflexivity.
  - apply (set_palette_sequence_format literal_search
             "catppuccin_mocha" catppuccin_mocha).
    apply (nth_error_In _ 55). reflexivity.
Defined.

(** C5: for every key of the table the Set action writes the palette-set
    string and a newline, then the OSC 10 string with the foreground of the
    scheme, then the OSC 11 string with its background, then a newline.  For
    [catppuccin_mocha], whose background is [#1e1e2e] and whose palette
    entry 1 is [#f38ba8], the palette-set string contains [1;#f38ba8] and
    the OSC 11 string contains [#1e1e2e]. *)
Theorem set_scheme_output :
  (forall re_search name s,
     In (name, s) color_schemes ->
     exists p,
       palette_sequence s = Ok p /\
       run (main re_search (SetScheme name))
       = (Ok tt, p ++ NL
                 ++ (String ESC "]10;" ++ fg s ++ String BEL "")
                 ++ (String ESC "]11;" ++ bg s ++ String BEL "") ++ NL)) /\
  (exists p,
     lookup "catppuccin_mocha" color_schemes = Ok catppuccin_mocha /\
     bg catppuccin_mocha = "#1e1e2e" /\
     nth_error (colors catppuccin_mocha) 1 = Some "#f38ba8" /\
     palette_sequence catppuccin_mocha = Ok p /\
     contains "1;#f38ba8" p = true /\
     contains "#1e1e2e"
       (String ESC "]11;" ++ bg catppuccin_mocha ++ String BEL "") = true /\
     forall re_search,
       run (main re_search (SetScheme "catppuccin_mocha"))
       = (Ok tt, p ++ NL
                 ++ (String ESC "]10;" ++ fg catppuccin_mocha ++ String BEL "")
                 ++ (String ESC "]11;" ++ bg catppuccin_mocha ++ String BEL "")
                 ++ NL)).
Proof.
  split.
  - intros re_search name s H.
    pose proof (registry_wf _ _ H) as Hwf.
    unfold wf_scheme in Hwf. repeat (apply andb_prop in Hwf as [Hwf ?]).
    apply Nat.eqb_eq in Hwf.
    eexists. split; [now apply palette_sequence_16|].
    rewrite (main_set_scheme re_search name s H).
    unfold fg_sequence, bg_sequence, FG, BG, END.
    now rewrite !append_assoc.
  - eexists.
    split; [vm_compute; reflexivity|].
    repeat (split; [vm_compute; reflexivity|]).
    intros re_search. vm_compute. reflexivity.
Qed.

Lemma set_scheme_output_witness :
  In ("catppuccin_mocha", catppuccin_mocha) color_schemes /\
  exists p,
    palette_sequence catppuccin_mocha = Ok p /\
    run (main literal_search (SetScheme "catppuccin_mocha"))
    = (Ok tt, p ++ NL
              ++ (String ESC "]10;" ++ fg catppuccin_mocha ++ String BEL "")
              ++ (String ESC "]11;" ++ bg catppuccin_mocha ++ String BEL "")
              ++ NL).
Proof.
  split.
  - apply (nth_error_In _ 55). reflexivity.
  - apply (proj1 set_scheme_output literal_search
             "catppuccin_mocha" catppuccin_mocha).
    apply (nth_error_In _ 55). reflexivity.
Defined.

(** ** The codec *)

Lemma all_chars_complete (c : ascii) : In c all_chars.
Proof.
  unfold all_chars, Py.chr.
  rewrite <- (ascii_nat_embedding c).
  apply in_map, in_seq.
  pose proof (nat_ascii_bounded c). lia.
Qed.

Lemma hex_chars_complete (c : ascii) : is_hex_digit c = true -> In c hex_chars.
Proof.
  intros H. apply filter_In. split; [apply all_chars_complete | exact H].
Qed.

Lemma groups_checked :
  forallb (fun a => forallb (group_ok a) hex_chars) hex_chars = true.
Proof. vm_compute. reflexivity. Qed.

Lemma hex_not_hash_checked :
  forallb (fun a => negb (Ascii.eqb a "#")) hex_chars = true.
Proof. vm_compute. reflexivity. Qed.

Lemma group_ok_hex (a b : ascii) :
  is_hex_digit a = true -> is_hex_digit b = true -> group_ok a b = true.
Proof.
  intros Ha Hb.
  apply hex_chars_complete in Ha, Hb.
  pose proof (proj1 (forallb_forall _ _) groups_checked a Ha) as H.
  exact (proj1 (forallb_forall _ _) H b Hb).
Qed.

Lemma hex_not_hash (a : ascii) :
  is_hex_digit a = true -> Ascii.eqb a "#" = false.
Proof.
  intros Ha. apply hex_chars_complete in Ha.
  pose proof (proj1 (forallb_forall _ _) hex_not_hash_checked a Ha) as H.
  now apply negb_true_iff in H.
Qed.

(** What a group of two hexadecimal digits converts to. *)
Lemma group_value (a b : ascii) :
  is_hex_digit a = true -> is_hex_digit b = true ->
  exists n,
    Py.int16 (String a (String b "")) = Some n /\
    (0 <= n <= 255)%Z /\
    hex2 n = lower (String a (String b "")) /\
    parse_decimal (Py.str n) = Some n /\
    has_char ";" (Py.str n) = false.
Proof.
  intros Ha Hb. pose proof (group_ok_hex a b Ha Hb) as H.
  unfold group_ok in H.
  destruct (Py.int16 (String a (String b ""))) as [n|]; [|discriminate H].
  exists n.
  repeat (apply andb_prop in H as [H ?]).
  destruct (parse_decimal (Py.str n)) as [m|]; [|discriminate].
  repeat split.
  - now apply Z.leb_le.
  - now apply Z.leb_le.
  - now apply String.eqb_eq.
  - f_equal. now apply Z.eqb_eq.
  - now apply negb_true_iff.
Qed.

Lemma hex6_shape (t : string) :
  is_hex6 t = true ->
  exists a b c d e f,
    t = String a (String b (String c (String d (String e (String f "")))))
    /\ is_hex_digit a = true /\ is_hex_digit b = true
    /\ is_hex_digit c = true /\ is_hex_digit d = true
    /\ is_hex_digit e = true /\ is_hex_digit f = true.
Proof.
  unfold is_hex6. intros H. apply andb_prop in H as [L A].
  apply Nat.eqb_eq in L.
  do 6 (destruct t as [|? t]; [discriminate L|]).
  destruct t; [|discriminate L].
  simpl in A. repeat (apply andb_prop in A as [? A]).
  do 6 eexists. repeat split; eassumption.
Qed.

(** On six hexadecimal digits with at most one [#] before them, [lstrip]
    removes what the specification removes. *)
Lemma lstrip_hex6 (s : string) :
  is_hex6 (strip_optional_hash s) = true ->
  Py.lstrip "#" s = strip_optional_hash s.
Proof.
  intros H.
  assert (forall t, is_hex6 t = true -> Py.lstrip "#" t = t) as K.
  { intros t Ht. destruct (hex6_shape t Ht) as (a & b & c & d & e & f & -> & Ha & _).
    simpl. now rewrite (hex_not_hash a Ha). }
  destruct s as [|x s]; [reflexivity|].
  simpl in *. destruct (Ascii.eqb x "#") eqn:E.
  - now apply K.
  - reflexivity.
Qed.

(** [_hex2rgb] in terms of the three groups it reads. *)
Lemma hex2rgb_groups (s : string) :
  _hex2rgb s
  = let h := Py.lstrip "#" s in
    match Py.int16 (Py.slice 0 2 h), Py.int16 (Py.slice 2 4 h),
          Py.int16 (Py.slice 4 6 h) with
    | Some r, Some g, Some b =>
        Ok (Py.str r ++ ";" ++ Py.str g ++ ";" ++ Py.str b)
    | _, _, _ => Raise ValueError
    end.
Proof.
  unfold _hex2rgb, split_hex, int16. cbn [map rmap Nat.add].
  destruct (Py.int16 (Py.slice 0 2 (Py.lstrip "#" s))); cbn [rbind]; [|reflexivity].
  destruct (Py.int16 (Py.slice 2 4 (Py.lstrip "#" s))); cbn [rbind]; [|reflexivity].
  destruct (Py.int16 (Py.slice 4 6 (Py.lstrip "#" s))); cbn [rbind]; reflexivity.
Qed.

Lemma split_on_field (sep : ascii) (u v : string) :
  has_char sep u = false ->
  split_on sep (u ++ String sep v) = u :: split_on sep v.
Proof.
  induction u as [|x u IH]; simpl; intros H.
  - now rewrite Ascii.eqb_refl.
  - apply orb_false_iff in H as [Hx Hu].
    rewrite Hx, (IH Hu). reflexivity.
Qed.

Lemma split_on_last (sep : ascii) (u : string) :
  has_char sep u = false -> split_on sep u = [u].
Proof.
  induction u as [|x u IH]; simpl; intros H; [reflexivity|].
  apply orb_false_iff in H as [Hx Hu].
  rewrite Hx, (IH Hu). reflexivity.
Qed.

Lemma rgb_fields_join (r g b : Z) :
  has_char ";" (Py.str r) = false -> parse_decimal (Py.str r) = Some r ->
  has_char ";" (Py.str g) = false -> parse_decimal (Py.str g) = Some g ->
  has_char ";" (Py.str b) = false -> parse_decimal (Py.str b) = Some b ->
  rgb_fields (Py.str r ++ ";" ++ Py.str g ++ ";" ++ Py.str b) = Some (r, g, b).
Proof.
  intros Sr Pr Sg Pg Sb Pb. unfold rgb_fields.
  change (Py.str r ++ ";" ++ Py.str g ++ ";" ++ Py.str b)
    with (Py.str r ++ String ";" (Py.str g ++ String ";" (Py.str b))).
  rewrite (split_on_field _ _ _ Sr), (split_on_field _ _ _ Sg),
    (split_on_last _ _ Sb).
  now rewrite Pr, Pg, Pb.
Qed.

(** The conversion of six hexadecimal digits, with or without a [#]. *)
Lemma hex2rgb_hex6 (s : string) :
  is_hex6 (strip_optional_hash s) = true ->
  exists r g b,
    Py.int16 (Py.slice 0 2 (strip_optional_hash s)) = Some r /\
    Py.int16 (Py.slice 2 4 (strip_optional_hash s)) = Some g /\
    Py.int16 (Py.slice 4 6 (strip_optional_hash s)) = Some b /\
    (0 <= r <= 255)%Z /\ (0 <= g <= 255)%Z /\ (0 <= b <= 255)%Z /\
    _hex2rgb s = Ok (Py.str r ++ ";" ++ Py.str g ++ ";" ++ Py.str b) /\
    rgb_fields (Py.str r ++ ";" ++ Py.str g ++ ";" ++ Py.str b)
    = Some (r, g, b) /\
    hex2 r ++ hex2 g ++ hex2 b = lower (strip_optional_hash s).
Proof.
  intros H.
  rewrite hex2rgb_groups, (lstrip_hex6 s H). cbv zeta.
  destruct (hex6_shape _ H)
    as (a & b & c & d & e & f & -> & Ha & Hb & Hc & Hd & He & Hf).
  destruct (group_value a b Ha Hb) as (r & Ir & Rr & Xr & Pr & Sr).
  destruct (group_value c d Hc Hd) as (g & Ig & Rg & Xg & Pg & Sg).
  destruct (group_value e f He Hf) as (v & Iv & Rv & Xv & Pv & Sv).
  change (Py.slice 0 2 (String a (String b (String c (String d (String e (String f "")))))))
    with (String a (String b "")).
  change (Py.slice 2 4 (String a (String b (String c (String d (String e (String f "")))))))
    with (String c (String d "")).
  change (Py.slice 4 6 (String a (String b (String c (String d (String e (String f "")))))))
    with (String e (String f "")).
  rewrite Ir, Ig, Iv.
  exists r, g, v.
  repeat (split; [first [reflexivity | assumption]|]).
  split; [now apply rgb_fields_join|].
  rewrite Xr, Xg, Xv. reflexivity.
Qed.

Lemma lstrip_app (c : ascii) (s t : string) :
  Py.lstrip c s <> "" -> Py.lstrip c (s ++ t) = Py.lstrip c s ++ t.
Proof.
  induction s as [|x s IH]; simpl; intros H; [congruence|].
  destruct (Ascii.eqb x c); [now apply IH | reflexivity].
Qed.

Lemma fails_groups (s : string) :
  fails s <->
  exists i, In i [0; 2; 4]%list /\
            Py.int16 (Py.slice i (i + 2) (Py.lstrip "#" s)) = None.
Proof.
  unfold fails. rewrite hex2rgb_groups. cbv zeta. cbn [In Nat.add].
  destruct (Py.int16 (Py.slice 0 2 (Py.lstrip "#" s))) as [r|] eqn:E0.
  2:{ split; [intros _; exists 0; auto | intros _; now exists ValueError]. }
  destruct (Py.int16 (Py.slice 2 4 (Py.lstrip "#" s))) as [g|] eqn:E2.
  2:{ split; [intros _; exists 2; auto | intros _; now exists ValueError]. }
  destruct (Py.int16 (Py.slice 4 6 (Py.lstrip "#" s))) as [b|] eqn:E4.
  2:{ split; [intros _; exists 4; auto | intros _; now exists ValueError]. }
  split.
  - intros [e E]. discriminate E.
  - intros [i [[<- | [<- | [<- | []]]] N]]; cbn [Nat.add] in N; congruence.
Qed.

(** C2, as the specification has it, fails: eight hexadecimal digits are
    not exactly six, and the conversion returns for them the value of the
    first six. *)
Lemma hex2rgb_failure_counterexample :
  _hex2rgb "ff00ff00" = Ok "255;0;255" /\
  is_hex6 (strip_optional_hash "ff00ff00") = false /\
  ~ fails_iff_malformed.
Proof.
  split; [reflexivity|]. split; [reflexivity|].
  intros C. destruct (proj2 (C "ff00ff00") eq_refl) as [e E].
  discriminate E.
Qed.

(** C2, amended: the conversion raises, and then [ValueError], exactly when
    [int] rejects one of the three slices [0:2], [2:4], [4:6] of the input
    without its leading [#] characters.  It returns a value when the input,
    after the optional [#], is exactly six hexadecimal digits, and raises
    when fewer than five characters remain; what follows the sixth
    character is not read. *)
Theorem hex2rgb_failure :
  forall s,
    (fails s <->
     exists i, In i [0; 2; 4]%list /\
               Py.int16 (Py.slice i (i + 2) (Py.lstrip "#" s)) = None) /\
    (fails s -> _hex2rgb s = Raise ValueError) /\
    (is_hex6 (strip_optional_hash s) = true -> ~ fails s) /\
    (String.length (Py.lstrip "#" s) < 5 -> fails s) /\
    (forall tail, String.length (Py.lstrip "#" s) = 6 ->
                  _hex2rgb (s ++ tail) = _hex2rgb s).
Proof.
  intros s. split; [apply fails_groups|].
  split; [|split; [|split]].
  - intros [e E]. rewrite hex2rgb_groups in *. cbv zeta in *.
    destruct (Py.int16 (Py.slice 0 2 (Py.lstrip "#" s))); [|reflexivity].
    destruct (Py.int16 (Py.slice 2 4 (Py.lstrip "#" s))); [|reflexivity].
    destruct (Py.int16 (Py.slice 4 6 (Py.lstrip "#" s))); [|reflexivity].
    discriminate E.
  - intros H [e E].
    destruct (hex2rgb_hex6 s H) as (r & g & b & _ & _ & _ & _ & _ & _ & V & _).
    congruence.
  - intros L. apply fails_groups. exists 4. split; [simpl; auto|].
    destruct (Py.lstrip "#" s) as [|a h]; [reflexivity|].
    do 3 (destruct h as [|? h]; [reflexivity|]).
    destruct h; [reflexivity | simpl in L; lia].
  - intros tail L. rewrite !hex2rgb_groups. cbv zeta.
    rewrite lstrip_app by (destruct (Py.lstrip "#" s); [discriminate L | discriminate]).
    destruct (Py.lstrip "#" s) as [|a h]; [discriminate L|].
    do 5 (destruct h as [|? h]; [discriminate L|]).
    destruct h; [|discriminate L].
    unfold Py.slice. cbn [append substring Nat.sub].
    replace (substring 0 0 tail) with "" by (destruct tail; reflexivity).
    reflexivity.
Qed.

Lemma hex2rgb_failure_witness :
  (is_hex6 (strip_optional_hash "#1e1e2e") = true /\ ~ fails "#1e1e2e") /\
  (String.length (Py.lstrip "#" "#ff00") < 5 /\ fails "#ff00") /\
  (String.length (Py.lstrip "#" "ff00ff") = 6 /\
   _hex2rgb ("ff00ff" ++ "00") = _hex2rgb "ff00ff").
Proof.
  destruct (hex2rgb_failure "#1e1e2e") as (_ & _ & V & _).
  destruct (hex2rgb_failure "#ff00") as (_ & _ & _ & F & _).
  destruct (hex2rgb_failure "ff00ff") as (_ & _ & _ & _ & T).
  split; [split; [reflexivity | apply V; reflexivity]|].
  split; [split; [simpl; lia | apply F; simpl; lia]|].
  split; [reflexivity | apply T; reflexivity].
Defined.

(** C3, as the specification has it, fails: for [#ff00ff] the conversion
    returns the string [255;0;255], not the tuple [(255, 0, 255)]. *)
Lemma hex2rgb_triple_counterexample :
  hex2rgb_value "#ff00ff" = Ok (Str "255;0;255") /\
  hex2rgb_value "#ff00ff" <> Ok (Tuple3 (Int 255) (Int 0) (Int 255)).
Proof.
  split; [reflexivity | discriminate].
Qed.

(** C3, amended: on six hexadecimal digits, with or without a [#] before
    them, the conversion reads the three groups of two characters as
    base-16 integers from 0 to 255 and returns one string, their decimal
    forms joined by [;]; [#ff00ff] and [ff00ff] both give [255;0;255],
    whose three fields are 255, 0 and 255. *)
Theorem hex2rgb_string :
  (forall s,
     is_hex6 (strip_optional_hash s) = true ->
     exists r g b,
       Py.int16 (Py.slice 0 2 (strip_optional_hash s)) = Some r /\
       Py.int16 (Py.slice 2 4 (strip_optional_hash s)) = Some g /\
       Py.int16 (Py.slice 4 6 (strip_optional_hash s)) = Some b /\
       (0 <= r <= 255)%Z /\ (0 <= g <= 255)%Z /\ (0 <= b <= 255)%Z /\
       _hex2rgb s = Ok (Py.str r ++ ";" ++ Py.str g ++ ";" ++ Py.str b)) /\
  _hex2rgb "#ff00ff" = Ok "255;0;255" /\
  _hex2rgb "ff00ff" = Ok "255;0;255" /\
  rgb_fields "255;0;255" = Some (255, 0, 255)%Z.
Proof.
  split; [|repeat split; reflexivity].
  intros s H.
  destruct (hex2rgb_hex6 s H)
    as (r & g & b & Ir & Ig & Ib & Rr & Rg & Rb & V & _).
  exists r, g, b. auto 10.
Qed.

Lemma hex2rgb_string_witness :
  is_hex6 (strip_optional_hash "#1E1e2e") = true /\
  exists r g b,
    Py.int16 (Py.slice 0 2 (strip_optional_hash "#1E1e2e")) = Some r /\
    Py.int16 (Py.slice 2 4 (strip_optional_hash "#1E1e2e")) = Some g /\
    Py.int16 (Py.slice 4 6 (strip_optional_hash "#1E1e2e")) = Some b /\
    (0 <= r <= 255)%Z /\ (0 <= g <= 255)%Z /\ (0 <= b <= 255)%Z /\
    _hex2rgb "#1E1e2e" = Ok (Py.str r ++ ";" ++ Py.str g ++ ";" ++ Py.str b).
Proof.
  split; [reflexivity|].
  apply (proj1 hex2rgb_string "#1E1e2e"). reflexivity.
Defined.

(** C7: for six hexadecimal digits, with or without a [#] before them, the
    conversion succeeds; the three components its result carries, each
    written again as two base-16 digits, give back the six digits in lower
    case. *)
Theorem hex_roundtrip :
  forall s,
    is_hex6 (strip_optional_hash s) = true ->
    exists out r g b,
      _hex2rgb s = Ok out /\
      rgb_fields out = Some (r, g, b) /\
      hex2 r ++ hex2 g ++ hex2 b = lower (strip_optional_hash s).
Proof.
  intros s H.
  destruct (hex2rgb_hex6 s H)
    as (r & g & b & _ & _ & _ & _ & _ & _ & V & F & X).
  exists (Py.str r ++ ";" ++ Py.str g ++ ";" ++ Py.str b), r, g, b. auto.
Qed.

Lemma hex_roundtrip_witness :
  is_hex6 (strip_optional_hash "#F38ba8") = true /\
  exists out r g b,
    _hex2rgb "#F38ba8" = Ok out /\
    rgb_fields out = Some (r, g, b) /\
    hex2 r ++ hex2 g ++ hex2 b = lower (strip_optional_hash "#F38ba8").
Proof.
  split; [reflexivity|].
  apply (hex_roundtrip "#F38ba8"). reflexivity.
Defined.

(** ** The preview *)

Lemma title_rows_checked :
  forallb (fun kv => title_row_ok (fst kv) (snd kv)) color_schemes = true.
Proof. vm_compute. reflexivity. Qed.

(** C4, as the specification has it, fails: in the block of [0x96f] the
    text between the two colour codes and the reset is 84 characters wide,
    a space and then the 83 characters of the padded title. *)
Lemma title_width_counterexample :
  styled_segment (block_of "0x96f")
  = " " ++ "0x96f | Foreground: #fcfcfa | Background: #262427"
        ++ Py.mul " " 34 /\
  String.length (styled_segment (block_of "0x96f")) = 84 /\
  String.length (styled_segment (block_of "0x96f")) <> 83.
Proof.
  split; [vm_compute; reflexivity|].
  assert (String.length (styled_segment (block_of "0x96f")) = 84) as E
    by (vm_compute; reflexivity).
  split; [exact E | rewrite E; discriminate].
Qed.

(** C4, amended: the block of every scheme of the table begins with the
    title row: two spaces, the foreground and background colour codes of
    the scheme, one space, the title (name, foreground, background) padded
    with spaces to exactly 83 characters, the reset and a newline.  The
    text between the colour codes and the reset is the space and the padded
    title, 84 characters. *)
Theorem title_row_width :
  forall name s,
    In (name, s) color_schemes ->
    exists r rest,
      _hex2rgb_dict s = Ok r /\
      draw_scheme name s = Ok (title_row name s r :: rest) /\
      title_row name s r
      = "  " ++ (FGTC ++ rgb_fg r ++ "m") ++ (BGTC ++ rgb_bg r ++ "m")
             ++ (" " ++ title name s ++ spacing (title name s))
             ++ RESET ++ NL /\
      title name s
      = name ++ " | Foreground: " ++ fg s ++ " | Background: " ++ bg s /\
      styled_segment (block_of name)
      = " " ++ title name s ++ spacing (title name s) /\
      String.length (title name s ++ spacing (title name s)) = 83 /\
      String.length (styled_segment (block_of name)) = 84.
Proof.
  intros name s H.
  pose proof (proj1 (forallb_forall _ _) title_rows_checked (name, s) H) as K.
  cbn [fst snd] in K. unfold title_row_ok in K.
  destruct (_hex2rgb_dict s) as [r|]; [|discriminate K].
  destruct (draw_scheme name s) as [[|row rest]|]; try discriminate K.
  repeat (apply andb_prop in K as [K ?]).
  apply String.eqb_eq in K. subst row.
  exists r, rest.
  repeat split; try reflexivity.
  - now apply String.eqb_eq.
  - now apply Nat.eqb_eq.
  - now apply Nat.eqb_eq.
Qed.

Lemma title_row_width_witness :
  In ("catppuccin_mocha", catppuccin_mocha) color_schemes /\
  exists r rest,
    _hex2rgb_dict catppuccin_mocha = Ok r /\
    draw_scheme "catppuccin_mocha" catppuccin_mocha
    = Ok (title_row "catppuccin_mocha" catppuccin_mocha r :: rest) /\
    title_row "catppuccin_mocha" catppuccin_mocha r
    = "  " ++ (FGTC ++ rgb_fg r ++ "m") ++ (BGTC ++ rgb_bg r ++ "m")
           ++ (" " ++ title "catppuccin_mocha" catppuccin_mocha
                   ++ spacing (title "catppuccin_mocha" catppuccin_mocha))
           ++ RESET ++ NL /\
    title "catppuccin_mocha" catppuccin_mocha
    = "catppuccin_mocha" ++ " | Foreground: " ++ fg catppuccin_mocha
                         ++ " | Background: " ++ bg catppuccin_mocha /\
    styled_segment (block_of "catppuccin_mocha")
    = " " ++ title "catppuccin_mocha" catppuccin_mocha
          ++ spacing (title "catppuccin_mocha" catppuccin_mocha) /\
    String.length (title "catppuccin_mocha" catppuccin_mocha
                   ++ spacing (title "catppuccin_mocha" catppuccin_mocha)) = 83 /\
    String.length (styled_segment (block_of "catppuccin_mocha")) = 84.
Proof.
  split.
  - apply (nth_error_In _ 55). reflexivity.
  - apply (title_row_width "catppuccin_mocha" catppuccin_mocha).
    apply (nth_error_In _ 55). reflexivity.
Defined.

(** ** The Search action *)

Lemma drawn_checked : forallb drawn (keys color_schemes) = true.
Proof. vm_compute. reflexivity. Qed.

Lemma join_empty_cons (x : string) (t : list string) :
  Py.join "" (x :: t) = x ++ Py.join "" t.
Proof.
  unfold Py.join. destruct t; simpl; [now rewrite append_nil_r | reflexivity].
Qed.

(** [show_colors] on a name of the table appends the block of the name. *)
Lemma show_colors_block (x : string) (o : string) :
  In x (keys color_schemes) ->
  show_colors x (world color_schemes o)
  = (Ok tt, world color_schemes (o ++ block_of x)).
Proof.
  intros H.
  pose proof (proj1 (forallb_forall _ _) drawn_checked x H) as D.
  unfold drawn in D. unfold block_of, run, start.
  unfold show_colors, bind, get_scheme, lift, print. cbn [schemes stdout].
  destruct (lookup x color_schemes) as [s|]; [|discriminate D].
  destruct (draw_scheme x s) as [d|]; [|discriminate D].
  cbn [schemes stdout snd append]. reflexivity.
Qed.

Section Search.

Variable re_search : string -> string -> result bool.
Variable pattern : string.

Lemma search_loop (l : list string) (o : string) :
  (forall x, In x l ->
     In x (keys color_schemes) /\ exists b, re_search pattern x = Ok b) ->
  for_each l (fun x => found <- lift (re_search pattern x) ;;
                       if found then show_colors x else ret tt)
           (world color_schemes o)
  = (Ok tt, world color_schemes
                  (o ++ Py.join "" (map block_of
                                      (filter (found_in re_search pattern) l)))).
Proof.
  revert o. induction l as [|x t IH]; intros o H.
  - simpl. now rewrite append_nil_r.
  - destruct (H x (or_introl eq_refl)) as [Hk [b Hb]].
    cbn [for_each filter]. unfold bind at 1.
    unfold bind at 1, lift at 1, found_in at 1. rewrite Hb.
    destruct b.
    + rewrite (show_colors_block x o Hk).
      rewrite IH by (intros y Hy; apply H; now right).
      cbn [map]. now rewrite join_empty_cons, append_assoc.
    + unfold ret at 1.
      apply IH. intros y Hy. apply H. now right.
Qed.

End Search.

(** C6, as the specification has it, fails: a search finds the empty
    pattern in every name, so every name is selected and a blank line and
    390 blocks are expected, but nothing is written. *)
Lemma search_output_counterexample :
  selected literal_search "" = keys color_schemes /\
  run (main literal_search (Search "")) = (Ok tt, "") /\
  snd (run (main literal_search (Search ""))) <> search_output literal_search "".
Proof.
  split; [vm_compute; reflexivity|].
  split; [reflexivity|].
  unfold search_output, NL. cbn [snd run main Search truthy arg_color_scheme
    arg_regexp ret start stdout append].
  discriminate.
Qed.

(** C6, amended: for every pattern that is not empty and that [re.search]
    accepts, the Search action writes a blank line and then the block of
    each name in which the pattern is found, once, in the order of the
    table; when the pattern is found in no name it writes the blank line
    only. *)
Theorem search_action_output :
  forall re_search pattern,
    pattern <> "" ->
    (forall x, In x (keys color_schemes) ->
               exists b, re_search pattern x = Ok b) ->
    run (main re_search (Search pattern))
    = (Ok tt, NL ++ Py.join "" (map block_of (selected re_search pattern))) /\
    (selected re_search pattern = []%list ->
     run (main re_search (Search pattern)) = (Ok tt, NL)).
Proof.
  intros re_search pattern Hp Hre.
  assert (run (main re_search (Search pattern))
          = (Ok tt, NL ++ Py.join "" (map block_of (selected re_search pattern))))
    as E.
  { unfold run, main, Search. cbn [arg_color_scheme arg_regexp truthy text_of].
    destruct pattern as [|c p]; [congruence|]. cbn [truthy].
    unfold bind at 1, print at 1, start. cbn [schemes stdout append].
    unfold bind at 1, get_keys at 1. cbn [schemes].
    rewrite (search_loop re_search (String c p) (keys color_schemes) NL).
    - cbn [stdout]. unfold selected. reflexivity.
    - intros x Hx. split; [exact Hx | now apply Hre]. }
  split; [exact E|].
  intros Hs. rewrite E, Hs. reflexivity.
Qed.

Lemma search_action_output_witness :
  "n_mocha" <> "" /\
  (forall x, In x (keys color_schemes) ->
             exists b, literal_search "n_mocha" x = Ok b) /\
  run (main literal_search (Search "n_mocha"))
  = (Ok tt, NL ++ Py.join "" (map block_of (selected literal_search "n_mocha")))
  /\
  (selected literal_search "n_mocha" = []%list ->
   run (main literal_search (Search "n_mocha")) = (Ok tt, NL)).
Proof.
  assert ("n_mocha" <> "") as Hp by discriminate.
  assert (forall x, In x (keys color_schemes) ->
                    exists b, literal_search "n_mocha" x = Ok b) as Hre
    by (intros x _; eexists; reflexivity).
  split; [exact Hp|]. split; [exact Hre|].
  exact (search_action_output literal_search "n_mocha" Hp Hre).
Defined.

(** * Further properties of the code *)

(** ** [_hex2rgb] *)

Lemma substring_0_0 (s : string) : substring 0 0 s = "".
Proof. destruct s; reflexivity. Qed.

(** The three groups lie within the first six characters. *)
Lemma slice_within_six (h : string) (i : nat) :
  In i [0; 2; 4]%list ->
  Py.slice i (i + 2) (Py.slice 0 6 h) = Py.slice i (i + 2) h.
Proof.
  intros [<- | [<- | [<- | []]]]; unfold Py.slice; cbn [Nat.add Nat.sub];
    (do 6 (destruct h as [|? h]; [reflexivity|]));
    cbn [substring]; rewrite ?substring_0_0; reflexivity.
Qed.

(** X1: the result of [_hex2rgb], value or error, depends only on the
    first six characters that follow the leading [#] characters: however
    many [#] there are and whatever comes after the sixth character. *)
Theorem hex2rgb_first_six :
  forall s t,
    Py.slice 0 6 (Py.lstrip "#" s) = Py.slice 0 6 (Py.lstrip "#" t) ->
    _hex2rgb s = _hex2rgb t.
Proof.
  intros s t H. rewrite !hex2rgb_groups. cbv zeta.
  assert (forall h i j, In i [0; 2; 4]%list -> j = i + 2 ->
            Py.slice i j h = Py.slice i j (Py.slice 0 6 h)) as K
    by (intros h i j Hi ->; symmetry; now apply slice_within_six).
  rewrite (K (Py.lstrip "#" s) 0 2), (K (Py.lstrip "#" s) 2 4),
          (K (Py.lstrip "#" s) 4 6), (K (Py.lstrip "#" t) 0 2),
          (K (Py.lstrip "#" t) 2 4), (K (Py.lstrip "#" t) 4 6)
    by (simpl; auto).
  now rewrite H.
Qed.

Lemma hex2rgb_first_six_witness :
  Py.slice 0 6 (Py.lstrip "#" "###1e1e2e")
  = Py.slice 0 6 (Py.lstrip "#" "1e1e2e#zz") /\
  _hex2rgb "###1e1e2e" = _hex2rgb "1e1e2e#zz".
Proof.
  split; [reflexivity|].
  apply (hex2rgb_first_six "###1e1e2e" "1e1e2e#zz"). reflexivity.
Defined.

Lemma hex2_checked : forallb hex2_ok byte_values = true.
Proof. vm_compute. reflexivity. Qed.

Lemma byte_values_complete (n : Z) : (0 <= n <= 255)%Z -> In n byte_values.
Proof.
  intros H. unfold byte_values.
  rewrite <- (Z2Nat.id n) by lia.
  apply in_map, in_seq. lia.
Qed.

Lemma hex2_read_back (n : Z) :
  (0 <= n <= 255)%Z -> Py.int16 (hex2 n) = Some n.
Proof.
  intros H. apply byte_values_complete in H.
  pose proof (proj1 (forallb_forall _ _) hex2_checked n H) as K.
  unfold hex2_ok in K.
  destruct (Py.int16 (hex2 n)) as [m|]; [|discriminate K].
  f_equal. now apply Z.eqb_eq.
Qed.

Lemma hex2_injective (n m : Z) :
  (0 <= n <= 255)%Z -> (0 <= m <= 255)%Z -> hex2 n = hex2 m -> n = m.
Proof.
  intros Hn Hm E.
  pose proof (hex2_read_back n Hn) as A.
  pose proof (hex2_read_back m Hm) as B.
  rewrite E in A. congruence.
Qed.

Lemma append_two_inj (u v : string) (x y x' y' : ascii) :
  String x (String y "") ++ u = String x' (String y' "") ++ v ->
  String x (String y "") = String x' (String y' "") /\ u = v.
Proof.
  simpl. intros H. inversion H; subst. auto.
Qed.

(** X2: on inputs of six hexadecimal digits, with or without a [#], two
    inputs convert to the same string exactly when their digits agree up
    to the case of the letters: the conversion ignores case and otherwise
    keeps colours apart. *)
Theorem hex2rgb_equal_iff :
  forall s t,
    is_hex6 (strip_optional_hash s) = true ->
    is_hex6 (strip_optional_hash t) = true ->
    (_hex2rgb s = _hex2rgb t <->
     lower (strip_optional_hash s) = lower (strip_optional_hash t)).
Proof.
  intros s t Hs Ht.
  destruct (hex2rgb_hex6 s Hs)
    as (r & g & b & _ & _ & _ & Rr & Rg & Rb & Vs & Fs & Xs).
  destruct (hex2rgb_hex6 t Ht)
    as (r' & g' & b' & _ & _ & _ & Rr' & Rg' & Rb' & Vt & Ft & Xt).
  rewrite Vs, Vt, <- Xs, <- Xt. split.
  - intros E.
    assert (Some (r, g, b) = Some (r', g', b')) as K
      by (rewrite <- Fs, <- Ft; f_equal; congruence).
    now inversion K.
  - intros E.
    apply append_two_inj in E as [E1 E].
    apply append_two_inj in E as [E2 E3].
    apply hex2_injective in E1, E2, E3; try assumption.
    now subst.
Qed.

Lemma hex2rgb_equal_iff_witness :
  is_hex6 (strip_optional_hash "#F38BA8") = true /\
  is_hex6 (strip_optional_hash "f38ba8") = true /\
  (_hex2rgb "#F38BA8" = _hex2rgb "f38ba8" <->
   lower (strip_optional_hash "#F38BA8") = lower (strip_optional_hash "f38ba8")).
Proof.
  split; [reflexivity|]. split; [reflexivity|].
  apply (hex2rgb_equal_iff "#F38BA8" "f38ba8"); reflexivity.
Defined.

Lemma digits_checked : forallb digit_ok hex_chars = true.
Proof. vm_compute. reflexivity. Qed.

(** X3: an input of five hexadecimal digits is not refused: the last
    group is the fifth digit alone, read as a value from 0 to 15. *)
Theorem hex2rgb_five_digits :
  forall s a b c d e,
    Py.lstrip "#" s
    = String a (String b (String c (String d (String e "")))) ->
    all_hex (Py.lstrip "#" s) = true ->
    exists r g v,
      Py.int16 (String a (String b "")) = Some r /\
      Py.int16 (String c (String d "")) = Some g /\
      Py.int16 (String e "") = Some v /\
      (0 <= v <= 15)%Z /\
      _hex2rgb s = Ok (Py.str r ++ ";" ++ Py.str g ++ ";" ++ Py.str v).
Proof.
  intros s a b c d e E H. rewrite hex2rgb_groups. cbv zeta.
  rewrite E in *. simpl in H.
  repeat (apply andb_prop in H as [? H]).
  destruct (group_value a b) as (r & Ir & _); try assumption.
  destruct (group_value c d) as (g & Ig & _); try assumption.
  assert (digit_ok e = true) as De.
  { apply (proj1 (forallb_forall _ _) digits_checked).
    now apply hex_chars_complete. }
  unfold digit_ok in De.
  destruct (Py.int16 (String e "")) as [v|] eqn:Iv; [|discriminate De].
  apply andb_prop in De as [L U]. apply Z.leb_le in L, U.
  exists r, g, v.
  change (Py.slice 0 2 (String a (String b (String c (String d (String e ""))))))
    with (String a (String b "")).
  change (Py.slice 2 4 (String a (String b (String c (String d (String e ""))))))
    with (String c (String d "")).
  change (Py.slice 4 6 (String a (String b (String c (String d (String e ""))))))
    with (String e "").
  rewrite Ir, Ig, Iv. repeat split; try reflexivity; assumption.
Qed.

Lemma hex2rgb_five_digits_witness :
  Py.lstrip "#" "#ff00f" = "ff00f" /\
  all_hex (Py.lstrip "#" "#ff00f") = true /\
  _hex2rgb "#ff00f" = Ok "255;0;15".
Proof.
  split; [reflexivity|]. split; [reflexivity|].
  destruct (hex2rgb_five_digits "#ff00f" "f" "f" "0" "0" "f" eq_refl eq_refl)
    as (r & g & v & Ir & Ig & Iv & _ & V).
  rewrite V.
  assert (r = 255%Z) by (vm_compute in Ir; congruence).
  assert (g = 0%Z) by (vm_compute in Ig; congruence).
  assert (v = 15%Z) by (vm_compute in Iv; congruence).
  subst. reflexivity.
Defined.

(** ** [_hex2rgb_dict] *)

Lemma hex2rgb_raises (c : string) (e : exn) :
  _hex2rgb c = Raise e -> e = ValueError.
Proof.
  rewrite hex2rgb_groups. cbv zeta.
  destruct (Py.int16 (Py.slice 0 2 (Py.lstrip "#" c))); [|congruence].
  destruct (Py.int16 (Py.slice 2 4 (Py.lstrip "#" c))); [|congruence].
  destruct (Py.int16 (Py.slice 4 6 (Py.lstrip "#" c))); congruence.
Qed.

Lemma rmap_Ok {A B : Type} (f : A -> result B) (l : list A) (l' : list B) :
  rmap f l = Ok l' <-> Forall2 (fun x y => f x = Ok y) l l'.
Proof.
  revert l'. induction l as [|x t IH]; intros l'; simpl.
  - split; intros H; [inversion H; constructor | now inversion H].
  - destruct (f x) as [y|e] eqn:Fx; simpl.
    + destruct (rmap f t) as [ys|e] eqn:Ft; simpl.
      * split; intros H.
        -- inversion H; subst. constructor; [assumption | now apply IH].
        -- inversion H as [|? y' ? ys' Hy Hys]; subst.
           apply IH in Hys. congruence.
      * split; intros H; [discriminate|].
        inversion H as [|? y' ? ys' Hy Hys]; subst.
        apply IH in Hys. discriminate.
    + split; intros H; [discriminate|].
      inversion H; subst. congruence.
Qed.

Lemma rmap_Raise {A B : Type} (f : A -> result B) (l : list A) (e : exn) :
  rmap f l = Raise e -> exists x, In x l /\ f x = Raise e.
Proof.
  induction l as [|x t IH]; simpl; [discriminate|].
  destruct (f x) as [y|e'] eqn:Fx; simpl.
  - destruct (rmap f t) as [ys|e'']; simpl; [discriminate|].
    intros H. inversion H; subst.
    destruct (IH eq_refl) as [z [Hz Fz]]. exists z. auto.
  - intros H. inversion H; subst. exists x. auto.
Qed.

(** X4: [_hex2rgb_dict] returns a record exactly when the foreground, the
    background and every palette entry convert, and the record then holds
    the conversions entry by entry, the palette with its length and order;
    otherwise it raises, and only [ValueError]. *)
Theorem hex2rgb_dict_pointwise :
  forall s,
    (forall r,
       _hex2rgb_dict s = Ok r <->
       _hex2rgb (fg s) = Ok (rgb_fg r) /\
       _hex2rgb (bg s) = Ok (rgb_bg r) /\
       Forall2 (fun c rc => _hex2rgb c = Ok rc) (colors s) (rgb_colors r)) /\
    (forall r, _hex2rgb_dict s = Ok r ->
               List.length (rgb_colors r) = List.length (colors s)) /\
    (forall e, _hex2rgb_dict s = Raise e -> e = ValueError).
Proof.
  intros s.
  assert (forall r,
            _hex2rgb_dict s = Ok r <->
            _hex2rgb (fg s) = Ok (rgb_fg r) /\
            _hex2rgb (bg s) = Ok (rgb_bg r) /\
            Forall2 (fun c rc => _hex2rgb c = Ok rc) (colors s) (rgb_colors r))
    as K.
  { intros [f b cs]. unfold _hex2rgb_dict. cbn [rgb_fg rgb_bg rgb_colors].
    destruct (_hex2rgb (fg s)) as [f'|]; cbn [rbind].
    2:{ split; [discriminate | intros [H _]; discriminate H]. }
    destruct (_hex2rgb (bg s)) as [b'|]; cbn [rbind].
    2:{ split; [discriminate | intros [_ [H _]]; discriminate H]. }
    destruct (rmap _hex2rgb (colors s)) as [cs'|] eqn:E; cbn [rbind].
    - apply rmap_Ok in E. split.
      + intros H. inversion H; subst. auto.
      + intros (Hf & Hb & Hc). apply rmap_Ok in E, Hc.
        congruence.
    - split; [discriminate|]. intros (_ & _ & Hc).
      apply rmap_Ok in Hc. congruence. }
  split; [exact K|]. split.
  - intros r H. apply K in H as (_ & _ & H).
    symmetry. eapply Forall2_length. eassumption.
  - intros e. unfold _hex2rgb_dict.
    destruct (_hex2rgb (fg s)) eqn:Ef; cbn [rbind].
    2:{ intros H. inversion H; subst. eapply hex2rgb_raises; eassumption. }
    destruct (_hex2rgb (bg s)) eqn:Eb; cbn [rbind].
    2:{ intros H. inversion H; subst. eapply hex2rgb_raises; eassumption. }
    destruct (rmap _hex2rgb (colors s)) eqn:Ec; cbn [rbind]; [discriminate|].
    intros H. inversion H; subst.
    apply rmap_Raise in Ec as [c [_ Hc]].
    eapply hex2rgb_raises; eassumption.
Qed.

(** ** [set_colors] on any table *)

Lemma palette_sequence_long (s : Scheme) :
  16 <= List.length (colors s) ->
  palette_sequence s = Ok (ANSI ++ Py.join ";" (palette_pairs s) ++ END).
Proof.
  unfold palette_sequence, color_string, palette_pairs.
  destruct s as [f b cs]; cbn [colors]. intros H.
  do 16 (destruct cs as [|? cs]; [simpl in H; lia|]).
  reflexivity.
Qed.

Lemma palette_sequence_short (s : Scheme) :
  List.length (colors s) < 16 -> palette_sequence s = Raise IndexError.
Proof.
  unfold palette_sequence, color_string.
  destruct s as [f b cs]; cbn [colors]. intros H.
  do 16 (destruct cs as [|? cs]; [reflexivity|]).
  simpl in H. lia.
Qed.

(** X5: [set_colors] works on any record with at least 16 palette entries,
    whatever the strings are: it writes the palette string of entries 0 to
    15 and a newline, then the foreground and background strings and a
    newline, after what was already written; entries past the sixteenth
    are not used and no colour is checked. *)
Theorem set_colors_any_scheme :
  forall name w s,
    lookup name (schemes w) = Ok s ->
    16 <= List.length (colors s) ->
    set_colors name w
    = (Ok tt,
       world (schemes w)
             (stdout w
              ++ (ANSI ++ Py.join ";"
                    (map (fun xc => Py.str (Z.of_nat (fst xc)) ++ ";" ++ snd xc)
                         (combine (Py.range 0 16) (firstn 16 (colors s))))
                  ++ END) ++ NL
              ++ (FG ++ fg s ++ END) ++ (BG ++ bg s ++ END) ++ NL)).
Proof.
  intros name w s Hl Hc.
  rewrite (set_colors_run name s _ w Hl (palette_sequence_long s Hc)).
  unfold palette_pairs, fg_sequence, bg_sequence.
  assert (combine (Py.range 0 16) (firstn 16 (colors s))
          = combine (Py.range 0 16) (colors s)) as E.
  { destruct s as [f b cs]; cbn [colors] in *.
    do 16 (destruct cs as [|? cs]; [simpl in Hc; lia|]). reflexivity. }
  rewrite E, !append_assoc. reflexivity.
Qed.

Lemma set_colors_any_scheme_witness :
  lookup "x" [("x", scheme "fg" "" (repeat "c" 17))] = Ok (scheme "fg" "" (repeat "c" 17)) /\
  16 <= List.length (colors (scheme "fg" "" (repeat "c" 17))) /\
  stdout (snd (set_colors "x"
                 (world [("x", scheme "fg" "" (repeat "c" 17))] "before")))
  = "before"
    ++ (ANSI ++ "0;c;1;c;2;c;3;c;4;c;5;c;6;c;7;c;8;c;9;c;10;c;11;c;12;c;13;c;14;c;15;c"
        ++ END) ++ NL
    ++ (FG ++ "fg" ++ END) ++ (BG ++ "" ++ END) ++ NL.
Proof.
  split; [reflexivity|]. split; [simpl; lia|].
  rewrite (set_colors_any_scheme "x"
             (world [("x", scheme "fg" "" (repeat "c" 17))] "before")
             (scheme "fg" "" (repeat "c" 17)) eq_refl).
  - reflexivity.
  - simpl. lia.
Defined.

(** X6: [set_colors] writes both of its lines or nothing.  A name that
    the table lacks raises [KeyError], a palette of fewer than 16 entries
    raises [IndexError], and whenever [set_colors] raises, the output and
    the table are as before the call. *)
Theorem set_colors_all_or_nothing :
  forall name w,
    (lookup name (schemes w) = Raise KeyError ->
     set_colors name w = (Raise KeyError, w)) /\
    (forall s, lookup name (schemes w) = Ok s ->
               List.length (colors s) < 16 ->
               set_colors name w = (Raise IndexError, w)) /\
    (forall e, fst (set_colors name w) = Raise e -> snd (set_colors name w) = w).
Proof.
  intros name w. split; [|split].
  - intros H. unfold set_colors, bind, get_scheme. now rewrite H.
  - intros s H L. unfold set_colors, bind, get_scheme, lift.
    now rewrite H, (palette_sequence_short s L).
  - intros e. unfold set_colors, bind, get_scheme, lift, print.
    destruct (lookup name (schemes w)) as [s|]; [|reflexivity].
    destruct (palette_sequence s); [|reflexivity].
    cbn [fst]. discriminate.
Qed.

(** ** [show_colors] on any table *)

Lemma length_append (a b : string) :
  String.length (a ++ b) = String.length a + String.length b.
Proof. induction a as [|x a IH]; simpl; [reflexivity | now rewrite IH]. Qed.

Lemma repeat_string_length (n : nat) :
  String.length (Py.repeat_string " " n) = n.
Proof. induction n as [|n IH]; simpl; [reflexivity | now rewrite IH]. Qed.

(** X7: the title with its padding is as long as the longer of 83 and the
    title itself, and the title is the name, the two colours and 30
    characters of labels: a title of more than 83 characters gets no
    padding, is not cut and raises nothing. *)
Theorem title_padding_length :
  forall name s,
    String.length (title name s ++ spacing (title name s))
    = Nat.max 83 (String.length (title name s)) /\
    String.length (title name s)
    = String.length name + String.length (fg s) + String.length (bg s) + 30 /\
    (83 <= String.length (title name s) -> spacing (title name s) = "").
Proof.
  intros name s. split; [|split].
  - unfold spacing, Py.mul, Py.len.
    rewrite length_append, repeat_string_length. lia.
  - unfold title. rewrite !length_append. simpl. lia.
  - intros H. unfold spacing, Py.mul, Py.len.
    replace (Z.to_nat (83 - Z.of_nat (String.length (title name s)))) with 0
      by lia.
    reflexivity.
Qed.

(** X8: for a record whose colours convert and whose palette has at least
    16 entries, [draw_scheme] gives the title row, the row [Normal] with a
    cell for each of entries 0 to 7, the row [Bright] with entries 8 to 15
    and the row [Background] with entries 0 to 7 again.  A text cell shows
    the entry in its own colour on the background of the scheme, a
    background cell shows it in the foreground of the scheme on its own
    colour; each of the three rows ends with the reset and a newline. *)
Theorem draw_scheme_rows :
  forall name s r,
    _hex2rgb_dict s = Ok r ->
    16 <= List.length (colors s) ->
    draw_scheme name s = Ok (rows name s r).
Proof.
  intros name s r H L.
  pose proof (proj1 (proj2 (hex2rgb_dict_pointwise s)) r H) as Lr.
  unfold draw_scheme. rewrite H. cbn [rbind].
  destruct s as [f b cs]; destruct r as [rf rb rcs]; cbn [colors rgb_colors] in *.
  do 16 (destruct cs as [|? cs]; [simpl in L; lia|]).
  do 16 (destruct rcs as [|? rcs]; [discriminate Lr|]).
  reflexivity.
Qed.

Lemma draw_scheme_rows_witness :
  _hex2rgb_dict catppuccin_mocha
  = Ok (rgb_scheme "205;214;244" "30;30;46"
          ["69;71;90"; "243;139;168"; "166;227;161"; "249;226;175";
           "137;180;250"; "245;194;231"; "148;226;213"; "166;173;200";
           "88;91;112"; "243;119;153"; "137;216;139"; "235;211;145";
           "116;168;252"; "242;174;222"; "107;215;202"; "186;194;222"]) /\
  16 <= List.length (colors catppuccin_mocha) /\
  draw_scheme "catppuccin_mocha" catppuccin_mocha
  = Ok (rows "catppuccin_mocha" catppuccin_mocha
          (rgb_scheme "205;214;244" "30;30;46"
             ["69;71;90"; "243;139;168"; "166;227;161"; "249;226;175";
              "137;180;250"; "245;194;231"; "148;226;213"; "166;173;200";
              "88;91;112"; "243;119;153"; "137;216;139"; "235;211;145";
              "116;168;252"; "242;174;222"; "107;215;202"; "186;194;222"])).
Proof.
  split; [reflexivity|]. split; [simpl; lia|].
  apply (draw_scheme_rows "catppuccin_mocha" catppuccin_mocha);
    [reflexivity | simpl; lia].
Defined.

Lemma draw_scheme_short (name : string) (s : Scheme) (r : RgbScheme) :
  _hex2rgb_dict s = Ok r ->
  List.length (colors s) < 16 ->
  draw_scheme name s = Raise IndexError.
Proof.
  intros H L.
  pose proof (proj1 (proj2 (hex2rgb_dict_pointwise s)) r H) as Lr.
  unfold draw_scheme. rewrite H. cbn [rbind].
  destruct s as [f b cs]; destruct r as [rf rb rcs]; cbn [colors rgb_colors] in *.
  do 16 (destruct cs as [|? cs];
         [destruct rcs; [reflexivity | discriminate Lr]
         |destruct rcs as [|? rcs]; [discriminate Lr|]]).
  simpl in L. lia.
Qed.

(** X9: [show_colors] writes a whole block or nothing.  It raises
    [KeyError] for a name the table lacks, [ValueError] when a colour of
    the record does not convert, [IndexError] when the colours convert but
    the palette has fewer than 16 entries, and then leaves the output and
    the table as they were; otherwise it appends the rows of the scheme
    and a newline. *)
Theorem show_colors_all_or_nothing :
  forall name w,
    (lookup name (schemes w) = Raise KeyError ->
     show_colors name w = (Raise KeyError, w)) /\
    (forall s e, lookup name (schemes w) = Ok s ->
                 _hex2rgb_dict s = Raise e ->
                 show_colors name w = (Raise ValueError, w)) /\
    (forall s r, lookup name (schemes w) = Ok s ->
                 _hex2rgb_dict s = Ok r ->
                 List.length (colors s) < 16 ->
                 show_colors name w = (Raise IndexError, w)) /\
    (forall s r, lookup name (schemes w) = Ok s ->
                 _hex2rgb_dict s = Ok r ->
                 16 <= List.length (colors s) ->
                 show_colors name w
                 = (Ok tt, world (schemes w)
                                 (stdout w ++ Py.join "" (rows name s r) ++ NL))) /\
    (forall e, fst (show_colors name w) = Raise e ->
               snd (show_colors name w) = w).
Proof.
  intros name w. unfold show_colors, bind, get_scheme, lift, print.
  repeat split.
  - intros H. now rewrite H.
  - intros s e H D. rewrite H. unfold draw_scheme. rewrite D. cbn [rbind].
    now rewrite (proj2 (proj2 (hex2rgb_dict_pointwise s)) e D).
  - intros s r H D L. now rewrite H, (draw_scheme_short name s r D L).
  - intros s r H D L. now rewrite H, (draw_scheme_rows name s r D L).
  - intros e. destruct (lookup name (schemes w)) as [s|]; [|reflexivity].
    destruct (draw_scheme name s); [|reflexivity].
    cbn [fst]. discriminate.
Qed.

(** ** [main] *)

Lemma show_all_loop (l : list string) (o : string) :
  (forall x, In x l -> In x (keys color_schemes)) ->
  for_each l show_colors (world color_schemes o)
  = (Ok tt, world color_schemes (o ++ Py.join "" (map block_of l))).
Proof.
  revert o. induction l as [|x t IH]; intros o H.
  - simpl. now rewrite append_nil_r.
  - cbn [for_each map]. unfold bind at 1.
    rewrite (show_colors_block x o) by (apply H; now left).
    rewrite IH by (intros y Hy; apply H; now right).
    now rewrite join_empty_cons, append_assoc.
Qed.

Lemma main_show_all_from (re_search : string -> string -> result bool)
  (o : string) :
  main re_search ShowAll (world color_schemes o)
  = (Ok tt, world color_schemes
                  ((o ++ NL) ++ Py.join "" (map block_of (keys color_schemes)))).
Proof.
  unfold main, ShowAll.
  cbn [arg_color_scheme arg_regexp arg_list arg_show truthy].
  unfold bind at 1, print at 1. cbn [schemes stdout append].
  unfold bind at 1, get_keys at 1. cbn [schemes].
  now rewrite (show_all_loop (keys color_schemes) (o ++ NL)) by auto.
Qed.

(** X10: the Show action writes a blank line and then the block of every
    scheme of the table, once each, in the order of the table, and ends
    normally. *)
Theorem show_all_output :
  forall re_search,
    run (main re_search ShowAll)
    = (Ok tt, NL ++ Py.join "" (map block_of (keys color_schemes))).
Proof.
  intros re_search. unfold run, start.
  rewrite main_show_all_from. reflexivity.
Qed.

Lemma filter_all {A : Type} (f : A -> bool) (l : list A) :
  (forall x, In x l -> f x = true) -> filter f l = l.
Proof.
  induction l as [|x t IH]; simpl; intros H; [reflexivity|].
  rewrite (H x) by now left. f_equal. apply IH. intros y Hy. apply H. now right.
Qed.

(** X11: a search whose pattern is not empty and is found in every name
    of the table writes what the Show action writes. *)
Theorem search_everything_is_show_all :
  forall re_search pattern,
    pattern <> "" ->
    (forall x, In x (keys color_schemes) -> re_search pattern x = Ok true) ->
    run (main re_search (Search pattern)) = run (main re_search ShowAll).
Proof.
  intros re_search pattern Hp Hre.
  unfold run, start. rewrite main_show_all_from.
  unfold main, Search. cbn [arg_color_scheme arg_regexp truthy text_of].
  destruct pattern as [|c p]; [congruence|]. cbn [truthy].
  unfold bind at 1, print at 1. cbn [schemes stdout append].
  unfold bind at 1, get_keys at 1. cbn [schemes].
  rewrite (search_loop re_search (String c p) (keys color_schemes) NL).
  - cbn [stdout]. rewrite filter_all; [reflexivity|].
    intros x Hx. unfold found_in. now rewrite (Hre x Hx).
  - intros x Hx. split; [exact Hx | exists true; now apply Hre].
Qed.

Lemma search_everything_is_show_all_witness :
  "." <> "" /\
  (forall x, In x (keys color_schemes) -> everywhere_search "." x = Ok true) /\
  run (main everywhere_search (Search "."))
  = run (main everywhere_search ShowAll).
Proof.
  assert ("." <> "") as Hp by discriminate.
  assert (forall x, In x (keys color_schemes) ->
                    everywhere_search "." x = Ok true) as Hre
    by (intros x _; reflexivity).
  split; [exact Hp|]. split; [exact Hre|].
  exact (search_everything_is_show_all everywhere_search "." Hp Hre).
Defined.

Lemma search_loop_raise (re_search : string -> string -> result bool)
  (pattern : string) (l1 : list string) (x : string) (l2 : list string)
  (e : exn) (o : string) :
  (forall y, In y l1 ->
     In y (keys color_schemes) /\ exists b, re_search pattern y = Ok b) ->
  re_search pattern x = Raise e ->
  for_each (l1 ++ x :: l2)%list
           (fun x => found <- lift (re_search pattern x) ;;
                     if found then show_colors x else ret tt)
           (world color_schemes o)
  = (Raise e, world color_schemes
                    (o ++ Py.join "" (map block_of
                                        (filter (found_in re_search pattern) l1)))).
Proof.
  intros H Hx. revert o. induction l1 as [|y t IH]; intros o.
  - cbn [app for_each filter map]. unfold bind at 1. unfold bind at 1, lift at 1.
    rewrite Hx. simpl. now rewrite append_nil_r.
  - destruct (H y (or_introl eq_refl)) as [Hk [b Hb]].
    cbn [app for_each filter]. unfold bind at 1.
    unfold bind at 1, lift at 1, found_in at 1. rewrite Hb.
    destruct b.
    + rewrite (show_colors_block y o Hk).
      rewrite IH by (intros z Hz; apply H; now right).
      cbn [map]. now rewrite join_empty_cons, append_assoc.
    + unfold ret at 1. apply IH. intros z Hz. apply H. now right.
Qed.

(** X12: when [re.search] raises at a name of the table, having answered
    for the names before it, the Search action ends with that error after
    the blank line and the blocks of the earlier names it selected; the
    later names are not visited.  A pattern that [re.search] refuses at the
    first name leaves the blank line alone. *)
Theorem search_stops_at_error :
  forall re_search pattern e l1 x l2,
    pattern <> "" ->
    keys color_schemes = (l1 ++ x :: l2)%list ->
    (forall y, In y l1 -> exists b, re_search pattern y = Ok b) ->
    re_search pattern x = Raise e ->
    run (main re_search (Search pattern))
    = (Raise e,
       NL ++ Py.join "" (map block_of (filter (found_in re_search pattern) l1))).
Proof.
  intros re_search pattern e l1 x l2 Hp Hk H1 Hx.
  unfold run, main, Search. cbn [arg_color_scheme arg_regexp truthy text_of].
  destruct pattern as [|c p]; [congruence|]. cbn [truthy].
  unfold bind at 1, print at 1, start. cbn [schemes stdout append].
  unfold bind at 1, get_keys at 1. cbn [schemes].
  rewrite Hk.
  rewrite (search_loop_raise re_search (String c p) l1 x l2 e NL);
    [reflexivity | | exact Hx].
  intros y Hy. split; [|now apply H1].
  rewrite Hk. apply in_or_app. now left.
Qed.

Lemma search_stops_at_error_witness :
  "(" <> "" /\
  keys color_schemes = ([] ++ "0x96f" :: tl (keys color_schemes))%list /\
  (forall y, In y [] -> exists b, rejecting_search "(" y = Ok b) /\
  rejecting_search "(" "0x96f" = Raise ReError /\
  run (main rejecting_search (Search "("))
  = (Raise ReError,
     NL ++ Py.join "" (map block_of
                         (filter (found_in rejecting_search "(") []))).
Proof.
  assert ("(" <> "") as Hp by discriminate.
  assert (keys color_schemes = ([] ++ "0x96f" :: tl (keys color_schemes))%list)
    as Hk by reflexivity.
  assert (forall y, In y [] -> exists b, rejecting_search "(" y = Ok b) as H1
    by (intros y []).
  split; [exact Hp|]. split; [exact Hk|]. split; [exact H1|].
  split; [reflexivity|].
  exact (search_stops_at_error rejecting_search "(" ReError [] "0x96f"
           (tl (keys color_schemes)) Hp Hk H1 eq_refl).
Defined.





Lemma list_loop (l : list string) (w : World) :
  for_each l print w
  = (Ok tt, world (schemes w)
                  (stdout w ++ Py.join "" (map (fun k => k ++ NL) l))).
Proof.
  revert w. induction l as [|x t IH]; intros [reg o].
  - simpl. now rewrite append_nil_r.
  - cbn [for_each map]. unfold bind at 1, print at 1. cbn [schemes stdout].
    rewrite IH. cbn [schemes stdout].
    now rewrite join_empty_cons, !append_assoc.
Qed.

(** X14: on any table the List action appends each key, followed by a
    newline, in the order of the table, and ends normally; on an empty
    table it writes nothing. *)
Theorem list_any_table :
  forall re_search w,
    main re_search ListNames w
    = (Ok tt, world (schemes w)
                    (stdout w
                     ++ Py.join "" (map (fun k => k ++ NL) (keys (schemes w))))) /\
    (schemes w = []%list -> main re_search ListNames w = (Ok tt, w)).
Proof.
  intros re_search w.
  assert (main re_search ListNames w
          = (Ok tt, world (schemes w)
                          (stdout w
                           ++ Py.join "" (map (fun k => k ++ NL)
                                              (keys (schemes w)))))) as E.
  { unfold main, ListNames.
    cbn [arg_color_scheme arg_regexp arg_list truthy].
    unfold bind at 1, get_keys at 1. apply list_loop. }
  split; [exact E|].
  intros H. rewrite E, H. destruct w as [reg o]. cbn in *. subst.
  now rewrite append_nil_r.
Qed.

Lemma block_widths_checked :
  forallb block_widths_ok (keys color_schemes) = true.
Proof. vm_compute. reflexivity. Qed.

(** X15: the block of every scheme of the table has five lines: the title
    row and the rows [Normal], [Bright] and [Background], each 86 columns
    wide once the colour codes are taken out, and an empty line. *)
Theorem block_rows_aligned :
  forall name,
    In name (keys color_schemes) ->
    map visible_width (lines (block_of name)) = [86; 86; 86; 86; 0]%list.
Proof.
  intros name H.
  pose proof (proj1 (forallb_forall _ _) block_widths_checked name H) as K.
  unfold block_widths_ok in K.
  destruct (map visible_width (lines (block_of name)))
    as [|a [|b [|c [|d [|e [|]]]]]]; try discriminate K.
  repeat (apply andb_prop in K as [K ?]).
  repeat match goal with
         | Hq : (_ =? _)%nat = true |- _ => apply Nat.eqb_eq in Hq
         end.
  now subst.
Qed.

Lemma block_rows_aligned_witness :
  In "catppuccin_mocha" (keys color_schemes) /\
  map visible_width (lines (block_of "catppuccin_mocha"))
  = [86; 86; 86; 86; 0]%list.
Proof.
  split.
  - apply (nth_error_In _ 55). reflexivity.
  - apply (block_rows_aligned "catppuccin_mocha").
    apply (nth_error_In _ 55). reflexivity.
Defined.

Lemma rmap_total {A B : Type} (f : A -> result B) (l : list A) :
  (forall x, In x l -> exists y, f x = Ok y) -> exists l', rmap f l = Ok l'.
Proof.
  induction l as [|x t IH]; intros H; simpl.
  - now exists []%list.
  - destruct (H x (or_introl eq_refl)) as [y Hy]. rewrite Hy. simpl.
    destruct IH as [ys Hys]; [intros z Hz; apply H; now right|].
    rewrite Hys. simpl. now exists (y :: ys)%list.
Qed.

Lemma hex_color_converts (c : string) :
  is_hex_color c = true -> exists v, _hex2rgb c = Ok v.
Proof.
  intros H. destruct c as [|x t]; [discriminate H|].
  simpl in H. apply andb_prop in H as [Hx Ht].
  assert (is_hex6 (strip_optional_hash (String x t)) = true) as K
    by (simpl; now rewrite Hx).
  destruct (hex2rgb_hex6 _ K) as (r & g & b & _ & _ & _ & _ & _ & _ & V & _).
  eauto.
Qed.

(** X16: a record that meets the invariant of the data model (16 palette
    entries, every colour a [#] and six hexadecimal digits) is always
    handled without error: its colours convert, it is drawn as its rows,
    and its palette string is built. *)
Theorem wf_scheme_never_raises :
  forall name s,
    wf_scheme s = true ->
    exists r p,
      _hex2rgb_dict s = Ok r /\
      draw_scheme name s = Ok (rows name s r) /\
      palette_sequence s = Ok p.
Proof.
  intros name s H. unfold wf_scheme in H.
  repeat (apply andb_prop in H as [H ?]).
  apply Nat.eqb_eq in H.
  destruct (hex_color_converts (fg s)) as [f Hf]; [assumption|].
  destruct (hex_color_converts (bg s)) as [b Hb]; [assumption|].
  destruct (rmap_total _hex2rgb (colors s)) as [cs Hcs].
  { intros c Hc. apply hex_color_converts.
    eapply forallb_forall; eassumption. }
  assert (_hex2rgb_dict s = Ok (rgb_scheme f b cs)) as D
    by (unfold _hex2rgb_dict; now rewrite Hf, Hb, Hcs).
  exists (rgb_scheme f b cs). eexists.
  split; [exact D|]. split.
  - apply draw_scheme_rows; [exact D | lia].
  - apply palette_sequence_long. lia.
Qed.

Lemma wf_scheme_never_raises_witness :
  wf_scheme catppuccin_mocha = true /\
  exists r p,
    _hex2rgb_dict catppuccin_mocha = Ok r /\
    draw_scheme "any name" catppuccin_mocha
    = Ok (rows "any name" catppuccin_mocha r) /\
    palette_sequence catppuccin_mocha = Ok p.
Proof.
  split; [reflexivity|].
  apply (wf_scheme_never_raises "any name" catppuccin_mocha). reflexivity.
Defined.
